(** * AgroSmart: the dashboard's zone logic, the sensor normalisation
    layer, the remote pump channel, the auth error mapping and the
    report exports, embedded from the TypeScript sources.

  Conventions of the embedding.

  - A JavaScript [number] is modelled by the exact rational it denotes,
    together with [NaN] and the two infinities ([Num.Number]).  Rounding
    to binary64 and the sign of zero are outside the model; every finite
    value is kept in lowest terms so that Leibniz equality is value
    equality.  The theorems are stated where the rounding cannot change
    the outcome: comparisons against bounds that binary64 holds exactly,
    which a monotone rounding preserves, and integers of magnitude at
    most 2^53, which binary64 holds exactly.
  - A JavaScript string is modelled by a [string] whose characters are
    its UTF-16 code units; the texts that can be written are those whose
    code units are below 256.
  - A value read from the realtime database is a [Js.JsValue]: the JSON
    shapes a snapshot can hold, objects being finite maps from property
    names to values.
  - Code that can throw runs in [Js.Completion]; code that also talks to
    the remote store runs in the state-and-exception monad [Remote.M]
    over an explicit [Remote.World], in which every request to the store
    may be served or rejected.
  - React state updaters ([setSensorData (prev => ...)]) are functions
    from the previous state to the next one. *)

From Stdlib Require Import ZArith QArith Qround Qabs String Ascii List Bool.
From Stdlib Require Import DecimalString Lia Lqa.
From Stdlib Require DecimalZ DecimalPos.
From stdpp Require Import gmap strings.
Import ListNotations.

Set Warnings "-register-all".
Local Open Scope string_scope.

(* Text concatenation unfolds on a constructor, as in the Standard
 Library. *)
Arguments String.append !s1 s2 : simpl nomatch.

(* ================================================================== *)
(** * JavaScript numbers *)
(* ================================================================== *)

Module Num.

Inductive Number :=
| NaN
| Inf (negative : bool)
| Fin (q : Q).

(** The finite number denoted by [q], in lowest terms. *)
Definition num (q : Q) : Number := Fin (Qred q).

Definition ofZ (z : Z) : Number := Fin (inject_Z z).

Definition isNaN (x : Number) : bool :=
  match x with NaN => true | _ => false end.

Definition Qlt_bool (a b : Q) : bool := negb (Qle_bool b a).

(** [x < y]; false as soon as one side is [NaN]. *)
Definition lt (x y : Number) : bool :=
  match x, y with
  | NaN, _ | _, NaN => false
  | Inf true, Inf true => false
  | Inf true, _ => true
  | _, Inf true => false
  | Inf false, _ => false
  | Fin _, Inf false => true
  | Fin a, Fin b => Qlt_bool a b
  end.

(** [Math.min] and [Math.max] of two arguments. *)
Definition min (x y : Number) : Number :=
  if isNaN x || isNaN y then NaN else if lt y x then y else x.

Definition max (x y : Number) : Number :=
  if isNaN x || isNaN y then NaN else if lt x y then y else x.

Definition neg (x : Number) : Number :=
  match x with
  | NaN => NaN
  | Inf s => Inf (negb s)
  | Fin q => num (- q)
  end.

Definition add (x y : Number) : Number :=
  match x, y with
  | NaN, _ | _, NaN => NaN
  | Inf s, Inf t => if Bool.eqb s t then Inf s else NaN
  | Inf s, Fin _ | Fin _, Inf s => Inf s
  | Fin a, Fin b => num (a + b)
  end.

Definition sub (x y : Number) : Number := add x (neg y).

Definition Qneg_bool (a : Q) : bool := Qlt_bool a 0.
Definition Qzero_bool (a : Q) : bool := Qeq_bool a 0.

Definition mul (x y : Number) : Number :=
  match x, y with
  | NaN, _ | _, NaN => NaN
  | Inf s, Inf t => Inf (xorb s t)
  | Inf s, Fin a | Fin a, Inf s =>
      if Qzero_bool a then NaN else Inf (xorb s (Qneg_bool a))
  | Fin a, Fin b => num (a * b)
  end.

Definition div (x y : Number) : Number :=
  match x, y with
  | NaN, _ | _, NaN => NaN
  | Inf _, Inf _ => NaN
  | Inf s, Fin b => Inf (xorb s (Qneg_bool b))
  | Fin _, Inf _ => Fin 0
  | Fin a, Fin b =>
      if Qzero_bool b
      then (if Qzero_bool a then NaN else Inf (Qneg_bool a))
      else num (a / b)
  end.

(** The [%] operator: the remainder has the sign of the dividend. *)
Definition Qtrunc (a : Q) : Z :=
  if Qneg_bool a then Qceiling a else Qfloor a.

Definition rem (x y : Number) : Number :=
  match x, y with
  | NaN, _ | _, NaN => NaN
  | Inf _, _ => NaN
  | Fin a, Inf _ => Fin a
  | Fin a, Fin b =>
      if Qzero_bool b then NaN
      else num (a - b * inject_Z (Qtrunc (a / b)))
  end.

(** [Math.floor]. *)
Definition floor (x : Number) : Number :=
  match x with
  | Fin a => ofZ (Qfloor a)
  | _ => x
  end.

(** Truthiness of a number: everything but [NaN] and zero. *)
Definition truthy (x : Number) : bool :=
  match x with
  | NaN => false
  | Inf _ => true
  | Fin a => negb (Qzero_bool a)
  end.

Declare Scope js_scope.
Delimit Scope js_scope with js.
Bind Scope js_scope with Number.
Infix "+" := add : js_scope.
Infix "-" := sub : js_scope.
Infix "*" := mul : js_scope.
Infix "/" := div : js_scope.

(** Membership of the closed interval [[lo, hi]]: only finite numbers
    are members. *)
Definition between (lo hi : Q) (x : Number) : Prop :=
  match x with
  | Fin a => (lo <= a /\ a <= hi)%Q
  | _ => False
  end.

End Num.

Import Num.

(* ================================================================== *)
(** * The dashboard view (unnamed/part_001) *)
(* ================================================================== *)

Module Dashboard.

Record SensorData := mkSensorData {
  soilMoisture : Number;
  sunlight : Number;
  rainfall : Number;
  tankLevel : Number;
  phLevel : Number;
  pumpStatus : bool;
  zone1Status : bool;
  zone2Status : bool;
  isConnected : bool;
  lastUpdate : string
}.

(** The argument of [useState]; [now] is what
    [new Date().toLocaleTimeString()] returns at mount time. *)
Definition initialState (now : string) : SensorData :=
  {| soilMoisture := num 65;
     sunlight := num 24;
     rainfall := num 58;
     tankLevel := num 82;
     phLevel := num 6.8;
     pumpStatus := false;
     zone1Status := false;
     zone2Status := false;
     isConnected := true;
     lastUpdate := now |}.

(** One draw of [Math.random()] per use, in evaluation order. *)
Definition Random := nat -> Number.

(** The updater run every 3000 ms by the simulation effect. *)
Definition simulatedUpdate (random : Random) (now : string)
           (prev : SensorData) : SensorData :=
  {| soilMoisture :=
       max (num 30) (min (num 100)
         (soilMoisture prev + (random 0%nat - num 0.5) * num 10)%js);
     sunlight :=
       max (num 15) (min (num 35)
         (sunlight prev + (random 1%nat - num 0.5) * num 2)%js);
     rainfall :=
       max (num 40) (min (num 90)
         (rainfall prev + (random 2%nat - num 0.5) * num 5)%js);
     tankLevel :=
       max (num 0) (min (num 100)
         (tankLevel prev + (random 3%nat - num 0.5) * num 3)%js);
     phLevel :=
       max (num 5.0) (min (num 8.5)
         (phLevel prev + (random 4%nat - num 0.5) * num 0.3)%js);
     pumpStatus := pumpStatus prev;
     zone1Status := zone1Status prev;
     zone2Status := zone2Status prev;
     isConnected := isConnected prev;
     lastUpdate := now |}.

Definition toggleZone1 (prev : SensorData) : SensorData :=
  let newZone1Status := negb (zone1Status prev) in
  let newPumpStatus := newZone1Status || zone2Status prev in
  {| soilMoisture := soilMoisture prev;
     sunlight := sunlight prev;
     rainfall := rainfall prev;
     tankLevel := tankLevel prev;
     phLevel := phLevel prev;
     pumpStatus := newPumpStatus;
     zone1Status := newZone1Status;
     zone2Status := zone2Status prev;
     isConnected := isConnected prev;
     lastUpdate := lastUpdate prev |}.

Definition toggleZone2 (prev : SensorData) : SensorData :=
  let newZone2Status := negb (zone2Status prev) in
  let newPumpStatus := zone1Status prev || newZone2Status in
  {| soilMoisture := soilMoisture prev;
     sunlight := sunlight prev;
     rainfall := rainfall prev;
     tankLevel := tankLevel prev;
     phLevel := phLevel prev;
     pumpStatus := newPumpStatus;
     zone1Status := zone1Status prev;
     zone2Status := newZone2Status;
     isConnected := isConnected prev;
     lastUpdate := lastUpdate prev |}.

(** The two zone buttons of the view. *)
Inductive Zone := Zone1 | Zone2.

Definition toggleZone (z : Zone) : SensorData -> SensorData :=
  match z with
  | Zone1 => toggleZone1
  | Zone2 => toggleZone2
  end.

(** Everything that can update the view's state. *)
Inductive Event :=
| Click (z : Zone)
| Interval (random : Random) (now : string).

Definition handle (e : Event) : SensorData -> SensorData :=
  match e with
  | Click z => toggleZone z
  | Interval random now => simulatedUpdate random now
  end.

(** The states rendered while the events are processed in order: one
    state per completed update. *)
Fixpoint renders (events : list Event) (s : SensorData) : list SensorData :=
  match events with
  | [] => []
  | e :: rest => let s' := handle e s in s' :: renders rest s'
  end.

(** What the control card shows: zone 1, zone 2, main pump. *)
Definition controls (s : SensorData) : bool * bool * bool :=
  (zone1Status s, zone2Status s, pumpStatus s).

(** The derived-state invariant. *)
Definition pumpDerived (s : SensorData) : Prop :=
  pumpStatus s = zone1Status s || zone2Status s.

End Dashboard.

(* ================================================================== *)
(** * JavaScript values, exceptions and [parseFloat] *)
(* ================================================================== *)

Module Js.

(** What [snapshot.val()] and a property read can produce. *)
Inductive JsValue :=
| JUndefined
| JNull
| JBoolean (b : bool)
| JNumber (x : Number)
| JString (s : string)
| JArray (items : list JsValue)
| JObject (props : gmap string JsValue).

(** An [Error] object as the code inspects it: [code] is present on
    provider errors only. *)
Record ErrorObject := mkError {
  errorName : string;
  errorCode : option string;
  errorMessage : string
}.

(** A thrown value: an error object, or a bare string (the auth service
    throws its messages as strings). *)
Inductive Thrown :=
| ThrownError (e : ErrorObject)
| ThrownString (s : string).

Definition newError (message : string) : Thrown :=
  ThrownError (mkError "Error" None message).

Definition typeError (message : string) : Thrown :=
  ThrownError (mkError "TypeError" None message).

(** The result of evaluating code that may throw. *)
Inductive Completion (A : Type) :=
| Normal (a : A)
| Throw (e : Thrown).
Arguments Normal {A} a.
Arguments Throw {A} e.

Definition cbind {A B} (c : Completion A) (k : A -> Completion B)
  : Completion B :=
  match c with
  | Normal a => k a
  | Throw e => Throw e
  end.

Definition truthy (v : JsValue) : bool :=
  match v with
  | JUndefined | JNull => false
  | JBoolean b => b
  | JNumber x => Num.truthy x
  | JString s => negb (String.eqb s "")
  | JArray _ | JObject _ => true
  end.

Definition isNull (v : JsValue) : bool :=
  match v with JNull => true | _ => false end.

Definition isUndefined (v : JsValue) : bool :=
  match v with JUndefined => true | _ => false end.

(** ** [parseFloat] on strings *)

(** Leading white space and line terminators skipped by [parseFloat]:
    of the code units below 256 these are TAB, LF, VT, FF, CR, SP and the
    no-break space U+00A0. *)
Definition isWhiteSpace (c : ascii) : bool :=
  match nat_of_ascii c with
  | 9 | 10 | 11 | 12 | 13 | 32 | 160 => true
  | _ => false
  end%nat.

Fixpoint trimStart (s : string) : string :=
  match s with
  | String c rest => if isWhiteSpace c then trimStart rest else s
  | EmptyString => s
  end.

Definition digitValue (c : ascii) : option Z :=
  let n := nat_of_ascii c in
  if ((48 <=? n) && (n <=? 57))%nat then Some (Z.of_nat (n - 48)) else None.

(** Reads the longest run of decimal digits at the head of [s],
    continuing the numeral [acc]: the numeral read, how many digits were
    read, and the rest of the string. *)
Fixpoint takeDigits (s : string) (acc : Z) (count : nat)
  : Z * nat * string :=
  match s with
  | String c rest =>
      match digitValue c with
      | Some d => takeDigits rest (10 * acc + d)%Z (S count)
      | None => (acc, count, s)
      end
  | EmptyString => (acc, count, s)
  end.

(** The value of a well-formed ExponentPart at the head of [s]; 0 when
    there is none (an [e] without digits is not part of the literal). *)
Definition exponentPart (s : string) : Z :=
  match s with
  | String c rest =>
      if (Ascii.eqb c "e" || Ascii.eqb c "E")%char then
        let '(negative, digits) :=
          match rest with
          | String "+"%char r => (false, r)
          | String "-"%char r => (true, r)
          | _ => (false, rest)
          end in
        let '(v, n, _) := takeDigits digits 0%Z 0%nat in
        match n with
        | O => 0%Z
        | S _ => if negative then (- v)%Z else v
        end
      else 0%Z
  | EmptyString => 0%Z
  end.

(** The longest prefix of [s] that is a StrUnsignedDecimalLiteral other
    than [Infinity], as the rational it denotes. *)
Definition unsignedDecimal (s : string) : option Q :=
  let '(i, ni, afterInt) := takeDigits s 0%Z 0%nat in
  let '(m, nf, afterFrac) :=
    match afterInt with
    | String "."%char r => takeDigits r i 0%nat
    | _ => (i, 0%nat, afterInt)
    end in
  match (ni + nf)%nat with
  | O => None
  | S _ =>
      Some (inject_Z m * Qpower 10 (exponentPart afterFrac - Z.of_nat nf))%Q
  end.

(** [parseFloat] on a string: the number the longest numeral at the head
    of the trimmed text denotes, as the exact rational (the program holds
    its nearest binary64). *)
Definition parseFloatString (s : string) : Number :=
  let trimmed := trimStart s in
  let '(negative, body) :=
    match trimmed with
    | String "+"%char r => (false, r)
    | String "-"%char r => (true, r)
    | _ => (false, trimmed)
    end in
  if String.prefix "Infinity" body then Inf negative
  else match unsignedDecimal body with
       | None => NaN
       | Some q => num (if negative then - q else q)
       end.

(** ** Which texts begin with a numeral

    The shape of the text alone, without reading any value: after the
    leading white space and at most one sign comes [Infinity], a digit,
    or a decimal point followed by a digit. *)
Definition isDigit (c : ascii) : bool :=
  let n := nat_of_ascii c in ((48 <=? n) && (n <=? 57))%nat.

Definition afterSign (trimmed : string) : string :=
  match trimmed with
  | String "+"%char r => r
  | String "-"%char r => r
  | _ => trimmed
  end.

Definition headsNumeral (body : string) : bool :=
  match body with
  | String c rest =>
      isDigit c
      || (Ascii.eqb c "."
          && match rest with
             | String d _ => isDigit d
             | EmptyString => false
             end)
  | EmptyString => false
  end.

Definition beginsNumeral (s : string) : bool :=
  let body := afterSign (trimStart s) in
  String.prefix "Infinity" body || headsNumeral body.

(** ** [parseFloat] on any value

    [parseFloat v] parses [ToString v].
    - For a number the two conversions cancel: [ToString] prints digits
      that read back as the same number, [Infinity] reads back as itself
      and the text [NaN] is not a literal.
    - [true], [false], [null], [undefined] and [[object Object]] do not
      start with a literal.
    - An array prints as its items joined by commas, [null] and
      [undefined] items printing as the empty text; a comma ends any
      literal, so only the first item is read. *)
Fixpoint parseFloat (v : JsValue) : Number :=
  match v with
  | JNumber x => x
  | JString s => parseFloatString s
  | JArray (first :: _) =>
      match first with
      | JUndefined | JNull => NaN
      | _ => parseFloat first
      end
  | _ => NaN
  end.

(** The values in which no number can be read, by their shape:
    [undefined], [null], booleans, objects, the number [NaN], text that
    does not begin with a numeral, and arrays that are empty or whose
    first item is such a value. *)
Fixpoint unreadable (v : JsValue) : bool :=
  match v with
  | JUndefined | JNull | JBoolean _ | JObject _ => true
  | JNumber x => isNaN x
  | JString s => negb (beginsNumeral s)
  | JArray [] => true
  | JArray (first :: _) => unreadable first
  end.

End Js.

Import Js.

(* ================================================================== *)
(** * The remote store the services talk to *)
(* ================================================================== *)

Module Remote.

(** A child of [SmartIrrigation/Actions] as [logAction] writes it. *)
Record ActionEntry := mkAction {
  action : string;
  timestamp : string;
  user : string
}.

(** The realtime database seen from the client, with the environment
    the services consult. *)
Record World := mkWorld {
  sensors : JsValue;            (* value at SmartIrrigation/Sensors *)
  pump : JsValue;               (* value at SmartIrrigation/Controls/Pump *)
  actions : list ActionEntry;   (* SmartIrrigation/Actions, in push order *)
  served : nat -> bool;         (* is the n-th request to the store served? *)
  requests : nat;               (* requests issued so far *)
  clock : string;               (* new Date().toISOString() *)
  console : list string         (* lines written by console.error *)
}.

(** Asynchronous service code: state passing over the world, with
    exceptions (a rejected promise is a [Throw]). *)
Definition M (A : Type) : Type := World -> Completion A * World.

Definition ret {A} (a : A) : M A := fun w => (Normal a, w).

Definition throw {A} (e : Thrown) : M A := fun w => (Throw e, w).

Definition bind {A B} (m : M A) (k : A -> M B) : M B :=
  fun w =>
    match m w with
    | (Normal a, w') => k a w'
    | (Throw e, w') => (Throw e, w')
    end.

Definition lift {A} (c : Completion A) : M A := fun w => (c, w).

(** [try { body } catch (error) { handler }]. *)
Definition tryCatch {A} (body : M A) (handler : Thrown -> M A) : M A :=
  fun w =>
    match body w with
    | (Normal a, w') => (Normal a, w')
    | (Throw e, w') => handler e w'
    end.

Definition consoleError (line : string) : M unit :=
  fun w =>
    (Normal tt,
     mkWorld (sensors w) (pump w) (actions w) (served w) (requests w)
             (clock w) (console w ++ [line])).

Definition now : M string := fun w => (Normal (clock w), w).

Definition transportError : Thrown :=
  ThrownError (mkError "FirebaseError" (Some "unavailable")
                       "Firebase: request failed").

(** The world after one more request was issued. *)
Definition counted (w : World) : World :=
  mkWorld (sensors w) (pump w) (actions w) (served w) (S (requests w))
          (clock w) (console w).

(** One request to the store: it is counted, and it either is served
    (and [effect] applied, [answer] returned) or rejects. *)
Definition request {A} (answer : World -> A) (effect : World -> World)
  : M A :=
  fun w =>
    if served w (requests w)
    then (Normal (answer (counted w)), effect (counted w))
    else (Throw transportError, counted w).

(** A server that answers every request, one that answers none, and
    one that answers the first [n] requests only. *)
Definition online : nat -> bool := fun _ => true.
Definition offline : nat -> bool := fun _ => false.
Definition onlineFor (n : nat) : nat -> bool := fun i => (i <? n)%nat.

(** [get(ref(database, SENSORS_PATH))] followed by [snapshot.val()]. *)
Definition getSensors : M JsValue := request sensors (fun w => w).

(** [get(ref(database, CONTROLS_PATH/Pump))] followed by [val()]. *)
Definition getPump : M JsValue := request pump (fun w => w).

(** [set(pumpRef, value)]. *)
Definition setPump (value : JsValue) : M unit :=
  request (fun _ => tt)
    (fun w => mkWorld (sensors w) value (actions w) (served w)
                      (requests w) (clock w) (console w)).

(** [set(push(actionsRef), entry)]: [push] only creates a fresh child
    key locally, the write is the request. *)
Definition pushAction (entry : ActionEntry) : M unit :=
  request (fun _ => tt)
    (fun w => mkWorld (sensors w) (pump w) (actions w ++ [entry])
                      (served w) (requests w) (clock w) (console w)).

(** A store holding pump flag "OFF" and an empty audit log, reached
    through a connection that serves the first request and rejects every
    later one. *)
Definition firstRequestOnly : World :=
  mkWorld JNull (JString "OFF") [] (onlineFor 1) 0
          "2025-06-01T06:00:00.000Z" [].

Declare Scope remote_scope.
Delimit Scope remote_scope with remote.
Notation "x <- m ;; k" := (bind m (fun x => k))
  (at level 100, m at next level, right associativity) : remote_scope.
Notation "m ;; k" := (bind m (fun _ => k))
  (at level 100, right associativity) : remote_scope.

End Remote.

Import Remote.

(* ================================================================== *)
(** * DataService (src/services/dataService.ts) *)
(* ================================================================== *)

Module DataService.

Record SensorData := mkSensorData {
  soilMoisture : Number;
  temperature : Number;
  humidity : Number;
  tankLevel : Number;
  flowRate : Number
}.

(** [keyof SensorData]. *)
Inductive SensorDataKey :=
| soilMoistureKey
| temperatureKey
| humidityKey
| tankLevelKey
| flowRateKey.

(** [record[key]] on a [SensorData]. *)
Definition field (record : SensorData) (key : SensorDataKey) : Number :=
  match key with
  | soilMoistureKey => soilMoisture record
  | temperatureKey => temperature record
  | humidityKey => humidity record
  | tankLevelKey => tankLevel record
  | flowRateKey => flowRate record
  end.

Inductive FirebaseSensorFields :=
| SoilMoisture
| Temperature
| Humidity
| TankLevel
| FlowRate_LperMin.

(** The property name each field stands for. *)
Definition fieldName (key : FirebaseSensorFields) : string :=
  match key with
  | SoilMoisture => "SoilMoisture"
  | Temperature => "Temperature"
  | Humidity => "Humidity"
  | TankLevel => "TankLevel"
  | FlowRate_LperMin => "FlowRate_LperMin"
  end.

Definition DEFAULT_SENSOR_DATA : SensorData :=
  {| soilMoisture := num 0;
     temperature := num 0;
     humidity := num 0;
     tankLevel := num 0;
     flowRate := num 0 |}.

Record Range := mkRange { min : Number; max : Number }.

(** A lookup in the table of ranges; every key has an entry. *)
Definition VALIDATION_RANGES (key : SensorDataKey) : option Range :=
  match key with
  | soilMoistureKey => Some (mkRange (num 0) (num 100))
  | temperatureKey => Some (mkRange (num (-50)) (num 100))
  | humidityKey => Some (mkRange (num 0) (num 100))
  | tankLevelKey => Some (mkRange (num 0) (num 100))
  | flowRateKey => Some (mkRange (num 0) (num 1000))
  end.

Definition mapFirebaseToSensorData (firebaseKey : FirebaseSensorFields)
  : SensorDataKey :=
  match firebaseKey with
  | SoilMoisture => soilMoistureKey
  | Temperature => temperatureKey
  | Humidity => humidityKey
  | TankLevel => tankLevelKey
  | FlowRate_LperMin => flowRateKey
  end.

(** [data[key]] for one of the five field names.  Reading a property
    of [null] or [undefined] throws; an object yields its own property
    or [undefined]; numbers, booleans, strings and arrays have no
    property under any of the five names. *)
Definition readField (data : JsValue) (key : FirebaseSensorFields)
  : Completion JsValue :=
  match data with
  | JUndefined | JNull =>
      Throw (typeError "Cannot read properties of null or undefined")
  | JObject props => Normal (default JUndefined (props !! fieldName key))
  | _ => Normal JUndefined
  end.

Definition parseAndValidateSensorValue
           (data : JsValue) (key : FirebaseSensorFields)
  : Completion Number :=
  cbind (if negb (truthy data) then Normal true
         else cbind (readField data key) (fun v =>
              if isNull v then Normal true
              else cbind (readField data key) (fun v' =>
                   Normal (isUndefined v'))))
    (fun missing =>
       if missing then
         let sensorKey := mapFirebaseToSensorData key in
         Normal (field DEFAULT_SENSOR_DATA sensorKey)
       else
         cbind (readField data key) (fun raw =>
           let value := parseFloat raw in
           if isNaN value then
             let sensorKey := mapFirebaseToSensorData key in
             Normal (field DEFAULT_SENSOR_DATA sensorKey)
           else
             let sensorKey := mapFirebaseToSensorData key in
             match VALIDATION_RANGES sensorKey with
             | Some range =>
                 Normal (Num.max (min range) (Num.min (max range) value))
             | None => Normal value
             end)).

(** The object literal built from a snapshot value; the five reads are
    evaluated in order and the first throw aborts the literal. *)
Definition sensorDataLiteral (data : JsValue) : Completion SensorData :=
  cbind (parseAndValidateSensorValue data SoilMoisture) (fun a =>
  cbind (parseAndValidateSensorValue data Temperature) (fun b =>
  cbind (parseAndValidateSensorValue data Humidity) (fun c =>
  cbind (parseAndValidateSensorValue data TankLevel) (fun d =>
  cbind (parseAndValidateSensorValue data FlowRate_LperMin) (fun e =>
  Normal (mkSensorData a b c d e)))))).

Local Open Scope remote_scope.

(** The listener registered by [getSensorDataStream]; [data] is
    [snapshot.val()]. *)
Definition handleData (callback : SensorData -> M unit) (data : JsValue)
  : M unit :=
  tryCatch
    (sensorData <- lift (sensorDataLiteral data) ;;
     callback sensorData)
    (fun error =>
       consoleError "Error parsing sensor data:" ;;
       callback DEFAULT_SENSOR_DATA).

Definition getSensorData : M SensorData :=
  tryCatch
    (data <- getSensors ;;
     if negb (truthy data) then ret DEFAULT_SENSOR_DATA
     else lift (sensorDataLiteral data))
    (fun error =>
       consoleError "Error getting sensor data:" ;;
       ret DEFAULT_SENSOR_DATA).

(** [a || b] on values. *)
Definition orElse (a b : JsValue) : JsValue := if truthy a then a else b.

(** The listener registered by [getPumpStateStream]. *)
Definition handlePumpData (callback : JsValue -> M unit) (state : JsValue)
  : M unit :=
  tryCatch
    (callback (orElse state (JString "OFF")))
    (fun error =>
       consoleError "Error parsing pump state:" ;;
       callback (JString "OFF")).

Definition getPumpState : M JsValue :=
  tryCatch
    (state <- getPump ;;
     ret (orElse state (JString "OFF")))
    (fun error =>
       consoleError "Error getting pump state:" ;;
       ret (JString "OFF")).

Definition logAction (action : string) : M unit :=
  tryCatch
    (timestamp <- now ;;
     pushAction (mkAction action timestamp "web_app"))
    (fun error => consoleError "Error logging action:").

Definition setPumpState (state : string) : M bool :=
  tryCatch
    (if negb (String.eqb state "ON") && negb (String.eqb state "OFF")
     then throw (newError "Pump state must be ON or OFF")
     else
       setPump (JString state) ;;
       logAction ("Pump:" ++ state) ;;
       ret true)
    (fun error =>
       consoleError "Error setting pump state:" ;;
       ret false).

(** The raw reading of the documented scenario and the canonical
    record it is expected to produce. *)
Definition scenarioReading : JsValue :=
  JObject (<["SoilMoisture" := JString "150"]>
          (<["Temperature" := JNull]>
          (<["Humidity" := JString "55.5"]>
          (<["TankLevel" := JString "-10"]>
          (<["FlowRate_LperMin" := JString "abc"]> ∅))))).

Definition scenarioCanonical : SensorData :=
  {| soilMoisture := num 100;
     temperature := num 0;
     humidity := num 55.5;
     tankLevel := num 0;
     flowRate := num 0 |}.

(** Readings whose fields hold text: a numeral followed by letters, and
    values beyond the temperature and flow ranges. *)
Definition prefixedReading : JsValue :=
  JObject (<["SoilMoisture" := JString "12abc"]> ∅).

(** A reading whose text starts with a no-break space. *)
Definition paddedReading : JsValue :=
  JObject (<["Humidity" := JString (String "160"%char "42")]> ∅).


(** Every field lies in its declared range. *)
Definition withinDeclaredRanges (r : SensorData) : Prop :=
  between 0 100 (soilMoisture r)
  /\ between (-50) 100 (temperature r)
  /\ between 0 100 (humidity r)
  /\ between 0 100 (tankLevel r)
  /\ between 0 1000 (flowRate r).

End DataService.

(* ================================================================== *)
(** * AuthService (src/services/dataService.ts, second document) *)
(* ================================================================== *)

Module AuthService.

Record User := mkUser {
  uid : string;
  email : option string;
  displayName : option string
}.

(** The authentication provider: the signed-in user and the outcome
    of each SDK call the service makes. *)
Record Provider := mkProvider {
  currentUser : option User;
  signInWithEmailAndPassword : string -> string -> Completion User;
  createUserWithEmailAndPassword : string -> string -> Completion User;
  providerSignOut : Completion unit;
  providerSendPasswordResetEmail : string -> Completion unit;
  updateProfile : User -> option string -> option string -> Completion unit;
  reauthenticateWithCredential : User -> string -> string -> Completion unit;
  updatePassword : User -> string -> Completion unit;
  deleteUser : User -> Completion unit
}.

(** [error.code] and [error.message] on a caught value; a thrown
    string has neither property. *)
Definition codeOf (error : Thrown) : option string :=
  match error with
  | ThrownError e => errorCode e
  | ThrownString _ => None
  end.

Definition messageOf (error : Thrown) : option string :=
  match error with
  | ThrownError e => Some (errorMessage e)
  | ThrownString _ => None
  end.

Definition catchAll : string := "An authentication error occurred.".

(** The [case] labels of the switch with the message each returns. *)
Definition knownErrors : list (string * string) :=
  [ ("auth/user-not-found",
     "No user found with this email address.");
    ("auth/wrong-password",
     "Incorrect password. Please try again.");
    ("auth/email-already-in-use",
     "An account already exists with this email address.");
    ("auth/weak-password",
     "Password is too weak. Please choose a stronger password.");
    ("auth/invalid-email",
     "Invalid email address. Please check your email.");
    ("auth/user-disabled",
     "This account has been disabled. Please contact support.");
    ("auth/too-many-requests",
     "Too many failed attempts. Please try again later.");
    ("auth/operation-not-allowed",
     "This sign-in method is not allowed. Please contact support.");
    ("auth/invalid-credential",
     "Invalid credentials. Please check your email and password.");
    ("auth/requires-recent-login",
     "Please sign in again to perform this action.") ].

(** The first [case] whose label is strictly equal to [code]. *)
Fixpoint switch (cases : list (string * string)) (code : string)
  : option string :=
  match cases with
  | [] => None
  | (label, message) :: rest =>
      if String.eqb code label then Some message else switch rest code
  end.

Definition getAuthErrorMessage (error : Thrown) : string :=
  let errorCode := codeOf error in
  match
    match errorCode with
    | Some code => switch knownErrors code
    | None => None
    end
  with
  | Some message => message
  | None =>
      match messageOf error with
      | Some message => if String.eqb message "" then catchAll else message
      | None => catchAll
      end
  end.

(** [try { body } catch (error) { throw this.getAuthErrorMessage(error) }] *)
Definition rethrowMapped {A} (body : Completion A) : Completion A :=
  match body with
  | Normal a => Normal a
  | Throw error => Throw (ThrownString (getAuthErrorMessage error))
  end.

Definition nonEmpty (s : option string) : bool :=
  match s with
  | Some text => negb (String.eqb text "")
  | None => false
  end.

Definition signIn (p : Provider) (email password : string)
  : Completion User :=
  rethrowMapped (signInWithEmailAndPassword p email password).

Definition signUp (p : Provider) (email password : string)
           (displayName : option string) : Completion User :=
  rethrowMapped
    (cbind (createUserWithEmailAndPassword p email password) (fun user =>
     cbind (if nonEmpty displayName
            then updateProfile p user displayName None
            else Normal tt) (fun _ =>
     Normal user))).

Definition signOut (p : Provider) : Completion unit :=
  rethrowMapped (providerSignOut p).

Definition sendPasswordResetEmail (p : Provider) (email : string)
  : Completion unit :=
  rethrowMapped (providerSendPasswordResetEmail p email).

Definition updateUserProfile (p : Provider)
           (displayName photoURL : option string) : Completion unit :=
  rethrowMapped
    (match currentUser p with
     | None => Throw (newError "No user logged in")
     | Some user =>
         updateProfile p user
           (if nonEmpty displayName then displayName else None)
           (if nonEmpty photoURL then photoURL else None)
     end).

(** [auth.currentUser] when it and its [email] are truthy. *)
Definition loggedInWithEmail (p : Provider) : option (User * string) :=
  match currentUser p with
  | Some user =>
      match email user with
      | Some address =>
          if String.eqb address "" then None else Some (user, address)
      | None => None
      end
  | None => None
  end.

Definition changePassword (p : Provider)
           (currentPassword newPassword : string) : Completion unit :=
  rethrowMapped
    (match loggedInWithEmail p with
     | None => Throw (newError "No user logged in")
     | Some (user, address) =>
         cbind (reauthenticateWithCredential p user address currentPassword)
           (fun _ => updatePassword p user newPassword)
     end).

Definition deleteAccount (p : Provider) (password : string)
  : Completion unit :=
  rethrowMapped
    (match loggedInWithEmail p with
     | None => Throw (newError "No user logged in")
     | Some (user, address) =>
         cbind (reauthenticateWithCredential p user address password)
           (fun _ => deleteUser p user)
     end).

(** The closed vocabulary: the ten fixed messages and the catch-all. *)
Definition vocabulary : list string := map snd knownErrors ++ [catchAll].

(** What a caller can observe of a failure is a thrown string, not an
    error object. *)
Definition throwsOnlyText {A} (result : Completion A) : Prop :=
  match result with
  | Normal _ => True
  | Throw thrown => exists text, thrown = ThrownString text
  end.

(** A provider error outside the ten codes, and a provider whose every
    call fails with a given error. *)
Definition networkFailure : Thrown :=
  ThrownError (mkError "FirebaseError" (Some "auth/network-request-failed")
                       "Firebase: Error (auth/network-request-failed).").

Definition failingWith (error : Thrown) : Provider :=
  {| currentUser := None;
     signInWithEmailAndPassword := fun _ _ => Throw error;
     createUserWithEmailAndPassword := fun _ _ => Throw error;
     providerSignOut := Throw error;
     providerSendPasswordResetEmail := fun _ => Throw error;
     updateProfile := fun _ _ _ => Throw error;
     reauthenticateWithCredential := fun _ _ _ => Throw error;
     updatePassword := fun _ _ => Throw error;
     deleteUser := fun _ => Throw error |}.

End AuthService.

(* ================================================================== *)
(** * Number formatting *)
(* ================================================================== *)

Module Show.

(** The line feed and the double quote. *)
Definition lf : ascii := "010"%char.
Definition nl : string := String lf EmptyString.
Definition dq : string := String "034"%char EmptyString.

(** [ToString] of an integer, in positional notation (JavaScript
    switches to exponent notation from 10^21 on; the counts printed
    here stay far below). *)
Definition showZ (z : Z) : string := NilZero.string_of_int (Z.to_int z).

Fixpoint zeros (n : nat) : string :=
  match n with
  | O => ""
  | S k => String "0"%char (zeros k)
  end.

(** [x.toFixed(digits)]: the integer [n] nearest to [x * 10^digits],
    the larger one on a tie, printed with [digits] decimals; a negative
    [x] prints as [-] followed by the rendering of [-x].  (From 10^21 on
    JavaScript falls back to exponent notation, which the model does
    not follow.) *)
Definition toFixed (digits : nat) (x : Number) : string :=
  match x with
  | NaN => "NaN"
  | Inf true => "-Infinity"
  | Inf false => "Infinity"
  | Fin q =>
      let n := Qfloor (Qabs q * inject_Z (10 ^ Z.of_nat digits) + (1 # 2))%Q in
      let text := showZ n in
      let m := zeros (S digits - String.length text) ++ text in
      let k := (String.length m - digits)%nat in
      (if Qneg_bool q then "-" else "") ++
      (match digits with
       | O => m
       | S _ => substring 0 k m ++ "." ++ substring k digits m
       end)
  end.

(** The interpolation of [Math.floor(x)] in a template literal. *)
Definition showFloor (x : Number) : string :=
  match x with
  | NaN => "NaN"
  | Inf true => "-Infinity"
  | Inf false => "Infinity"
  | Fin q => showZ (Qfloor q)
  end.

(** [text.replace(/\//g, '-')]. *)
Fixpoint dashSlashes (text : string) : string :=
  match text with
  | EmptyString => EmptyString
  | String c rest =>
      String (if Ascii.eqb c "/" then "-"%char else c) (dashSlashes rest)
  end.

(** ** Reading documents back *)

(** [c] does not occur in [s]. *)
Fixpoint free (c : ascii) (s : string) : bool :=
  match s with
  | EmptyString => true
  | String a rest => negb (Ascii.eqb a c) && free c rest
  end.

(** Every character of [s] occurs in [allowed]. *)
Fixpoint only (allowed s : string) : bool :=
  match s with
  | EmptyString => true
  | String a rest => negb (free a allowed) && only allowed rest
  end.

(** The characters number formatting can produce. *)
Definition numeric : string := "-.0123456789NaInfity".

(** [s.split(c)] for a one-character separator. *)
Fixpoint split (c : ascii) (s : string) : list string :=
  match s with
  | EmptyString => [EmptyString]
  | String a rest =>
      if Ascii.eqb a c then EmptyString :: split c rest
      else match split c rest with
           | piece :: pieces => String a piece :: pieces
           | [] => [String a EmptyString]
           end
  end.

(** [needle] is a contiguous part of [hay]. *)
Definition occursIn (needle hay : string) : Prop :=
  exists before after, hay = before ++ needle ++ after.

(** [hay.includes(needle)]. *)
Fixpoint includes (needle hay : string) : bool :=
  String.prefix needle hay
  || match hay with
     | EmptyString => false
     | String _ rest => includes needle rest
     end.

End Show.

Import Show.

(* ================================================================== *)
(** * Reports (src/components/Reports.tsx) *)
(* ================================================================== *)

Module Reports.

Record ReportData := mkReportData {
  date : string;
  totalWaterUsed : Number;
  irrigationTime : Number;
  pumpCycles : Z;            (* an integer count: Math.floor(...) + 2 *)
  avgSoilMoisture : Number;
  alerts : Z;                (* an integer count: Math.floor(...) *)
  efficiency : Number
}.

(** What [getTotalStats] returns. *)
Record TotalStats := mkTotalStats {
  totalWater : Number;
  totalTime : Number;
  totalCycles : Z;
  avgEfficiency : Number;
  totalAlerts : Z
}.

(** The component's state and the two module-level datasets. *)
Record View := mkView {
  reportType : string;
  dailyReports : list ReportData;
  weeklyReports : list ReportData
}.

Definition getCurrentData (v : View) : list ReportData :=
  if String.eqb (reportType v) "daily" then dailyReports v
  else weeklyReports v.

(** [data.reduce((sum, item) => sum + f(item), 0)]. *)
Definition sumOf (f : ReportData -> Number) (data : list ReportData)
  : Number :=
  fold_left (fun sum item => (sum + f item)%js) data (num 0).

Definition countOf (f : ReportData -> Z) (data : list ReportData) : Z :=
  fold_left (fun sum item => (sum + f item)%Z) data 0%Z.

Definition getTotalStats (v : View) : TotalStats :=
  let data := getCurrentData v in
  {| totalWater := sumOf totalWaterUsed data;
     totalTime := sumOf irrigationTime data;
     totalCycles := countOf pumpCycles data;
     avgEfficiency :=
       (sumOf efficiency data / ofZ (Z.of_nat (length data)))%js;
     totalAlerts := countOf alerts data |}.

(** What the download link carries. *)
Record Download := mkDownload {
  content : string;
  mimeType : string;
  filename : string
}.

Definition headers : list string :=
  [ "Date"; "Water Used (L)"; "Runtime (min)"; "Pump Cycles";
    "Avg Soil Moisture (%)"; "Alerts"; "Efficiency (%)" ].

(** The cells of one table row, as both delimited exports print them. *)
Definition cells (row : ReportData) : list string :=
  [ date row;
    toFixed 2 (totalWaterUsed row);
    toFixed 1 (irrigationTime row);
    showZ (pumpCycles row);
    toFixed 1 (avgSoilMoisture row);
    showZ (alerts row);
    toFixed 1 (efficiency row) ].

Definition csvRow (row : ReportData) : string := String.concat "," (cells row).

Definition typeLabel (reportType : string) : string :=
  if String.eqb reportType "daily" then "Daily" else "Weekly".

Definition runtime (stats : TotalStats) : string :=
  showFloor (totalTime stats / num 60)%js ++ "h " ++
  showFloor (rem (totalTime stats) (num 60)) ++ "m".

Definition downloadName (reportType date extension : string) : string :=
  "AgroSmart_" ++ reportType ++ "_Report_" ++ dashSlashes date ++ extension.

Definition exportToCSV (reportType : string) (data : list ReportData)
           (stats : TotalStats) (date : string) : Download :=
  let csvContent :=
    String.concat nl (String.concat "," headers :: map csvRow data) in
  {| content := csvContent;
     mimeType := "text/csv;charset=utf-8;";
     filename := downloadName reportType date ".csv" |}.

Definition exportToExcel (reportType : string) (data : list ReportData)
           (stats : TotalStats) (date : string) : Download :=
  let csvContent :=
    String.concat nl
      ([ "AgroSmart Irrigation Report";
         "Generated: " ++ date;
         "Report Type: " ++ typeLabel reportType ++ " Report";
         "Total Water: " ++ toFixed 1 (totalWater stats) ++ "L";
         "Total Runtime: " ++ runtime stats;
         "Total Cycles: " ++ showZ (totalCycles stats);
         "Average Efficiency: " ++ toFixed 1 (avgEfficiency stats) ++ "%";
         "Total Alerts: " ++ showZ (totalAlerts stats);
         "";
         String.concat "," headers ] ++ map csvRow data) in
  {| content := csvContent;
     mimeType := "text/csv;charset=utf-8;";
     filename := downloadName reportType date ".xlsx" |}.

(** The fixed text of the template literal of [exportToPDF], cut at its
    interpolations. *)
Definition htmlHead : string :=
  "
      <!DOCTYPE html>
      <html>
      <head>
        <title>AgroSmart Irrigation Report</title>
        <style>
          body { font-family: Arial, sans-serif; margin: 20px; }
          .header { text-align: center; margin-bottom: 30px; }
          .title { font-size: 24px; font-weight: bold; color: #2d5a27; }
          .subtitle { font-size: 16px; color: #666; margin-top: 10px; }
          .summary { background: #f5f5f5; padding: 15px; border-radius: 5px; margin-bottom: 20px; }
          .summary h3 { margin-top: 0; color: #2d5a27; }
          .summary-grid { display: grid; grid-template-columns: repeat(auto-fit, minmax(200px, 1fr)); gap: 15px; }
          .summary-item { text-align: center; }
          .summary-value { font-size: 20px; font-weight: bold; color: #2d5a27; }
          .summary-label { font-size: 12px; color: #666; margin-top: 5px; }
          table { width: 100%; border-collapse: collapse; margin-top: 20px; }
          th, td { border: 1px solid #ddd; padding: 8px; text-align: left; }
          th { background-color: #2d5a27; color: white; }
          tr:nth-child(even) { background-color: #f9f9f9; }
          .footer { margin-top: 30px; text-align: center; font-size: 12px; color: #666; }
        </style>
      </head>
      <body>
        <div class=" ++ dq ++ "header" ++ dq ++ ">
          <div class=" ++ dq ++ "title" ++ dq ++ ">AgroSmart Irrigation Report</div>
          <div class=" ++ dq ++ "subtitle" ++ dq ++ ">Generated on ".

Definition htmlAfterDate : string :=
  "</div>
          <div class=" ++ dq ++ "subtitle" ++ dq ++ ">".

Definition htmlAfterType : string :=
  " Report</div>
        </div>
        
        <div class=" ++ dq ++ "summary" ++ dq ++ ">
          <h3>Summary Statistics</h3>
          <div class=" ++ dq ++ "summary-grid" ++ dq ++ ">
            <div class=" ++ dq ++ "summary-item" ++ dq ++ ">
              <div class=" ++ dq ++ "summary-value" ++ dq ++ ">".

Definition htmlAfterWater : string :=
  "L</div>
              <div class=" ++ dq ++ "summary-label" ++ dq ++ ">Total Water Used</div>
            </div>
            <div class=" ++ dq ++ "summary-item" ++ dq ++ ">
              <div class=" ++ dq ++ "summary-value" ++ dq ++ ">".

Definition htmlAfterRuntime : string :=
  "</div>
              <div class=" ++ dq ++ "summary-label" ++ dq ++ ">Total Runtime</div>
            </div>
            <div class=" ++ dq ++ "summary-item" ++ dq ++ ">
              <div class=" ++ dq ++ "summary-value" ++ dq ++ ">".

Definition htmlAfterCycles : string :=
  "</div>
              <div class=" ++ dq ++ "summary-label" ++ dq ++ ">Pump Cycles</div>
            </div>
            <div class=" ++ dq ++ "summary-item" ++ dq ++ ">
              <div class=" ++ dq ++ "summary-value" ++ dq ++ ">".

Definition htmlAfterEfficiency : string :=
  "%</div>
              <div class=" ++ dq ++ "summary-label" ++ dq ++ ">Avg Efficiency</div>
            </div>
            <div class=" ++ dq ++ "summary-item" ++ dq ++ ">
              <div class=" ++ dq ++ "summary-value" ++ dq ++ ">".

Definition htmlAfterAlerts : string :=
  "</div>
              <div class=" ++ dq ++ "summary-label" ++ dq ++ ">Total Alerts</div>
            </div>
          </div>
        </div>
        
        <table>
          <thead>
            <tr>
              <th>Date</th>
              <th>Water Used (L)</th>
              <th>Runtime (min)</th>
              <th>Pump Cycles</th>
              <th>Avg Soil Moisture (%)</th>
              <th>Alerts</th>
              <th>Efficiency (%)</th>
            </tr>
          </thead>
          <tbody>
            ".

Definition htmlTail : string :=
  "
          </tbody>
        </table>
        
        <div class=" ++ dq ++ "footer" ++ dq ++ ">
          <p>Generated by AgroSmart Smart Irrigation Management System</p>
          <p>For more information, visit the AgroSmart dashboard</p>
        </div>
      </body>
      </html>
    ".

(** The fixed text of the row template. *)
Definition htmlRowOpen : string :=
  "
              <tr>
                <td>".

Definition htmlCellBreak : string :=
  "</td>
                <td>".

Definition htmlRowClose : string :=
  "</td>
              </tr>
            ".
Definition htmlRow (row : ReportData) : string :=
  htmlRowOpen ++ String.concat htmlCellBreak (cells row) ++ htmlRowClose.

Definition exportToPDF (reportType : string) (data : list ReportData)
           (stats : TotalStats) (date : string) : Download :=
  let htmlContent :=
    htmlHead ++ date ++
    htmlAfterDate ++ typeLabel reportType ++
    htmlAfterType ++ toFixed 1 (totalWater stats) ++
    htmlAfterWater ++ runtime stats ++
    htmlAfterRuntime ++ showZ (totalCycles stats) ++
    htmlAfterCycles ++ toFixed 1 (avgEfficiency stats) ++
    htmlAfterEfficiency ++ showZ (totalAlerts stats) ++
    htmlAfterAlerts ++ String.concat "" (map htmlRow data) ++
    htmlTail in
  {| content := htmlContent;
     mimeType := "text/html";
     filename := downloadName reportType date ".html" |}.

Inductive Format := pdf | csv | excel.

(** [exportReport]: [today] is [new Date().toLocaleDateString()].  The
    three export functions do not throw, so the toast is always the
    success one; the toast and the click on the download link are left
    out. *)
Definition exportReport (v : View) (today : string) (format : Format)
  : Download :=
  let data := getCurrentData v in
  let stats := getTotalStats v in
  let currentDate := today in
  match format with
  | csv => exportToCSV (reportType v) data stats currentDate
  | excel => exportToExcel (reportType v) data stats currentDate
  | pdf => exportToPDF (reportType v) data stats currentDate
  end.

(** The five aggregate figures as the two richer exports print them. *)
Definition summaryFigures (stats : TotalStats) : list string :=
  [ toFixed 1 (totalWater stats);
    runtime stats;
    showZ (totalCycles stats);
    toFixed 1 (avgEfficiency stats);
    showZ (totalAlerts stats) ].

(** A one-day dataset for worked examples. *)
Definition sampleDay : ReportData :=
  {| date := "2025-01-01";
     totalWaterUsed := num 20.456;
     irrigationTime := num 30;
     pumpCycles := 2;
     avgSoilMoisture := num 50.25;
     alerts := 0;
     efficiency := num 75 |}.

Definition sampleView : View :=
  {| reportType := "daily";
     dailyReports := [sampleDay];
     weeklyReports := [] |}.

End Reports.

(* ================================================================== *)
(** * The dashboard view: what is drawn from the state *)
(* ================================================================== *)

Module DashboardView.

Import Dashboard.

Definition getSoilMoistureColor (value : Number) : string :=
  if lt value (num 40) then "text-irrigation-danger"
  else if lt value (num 60) then "text-irrigation-warning"
  else "text-irrigation-success".

Definition getTankLevelColor (value : Number) : string :=
  if lt value (num 20) then "text-irrigation-danger"
  else if lt value (num 50) then "text-irrigation-warning"
  else "text-irrigation-blue".

(** The line under the soil moisture bar. *)
Definition soilMoistureHint (s : SensorData) : string :=
  if lt (soilMoisture s) (num 40) then "Needs watering"
  else if lt (soilMoisture s) (num 60) then "Moderate"
  else "Optimal".

(** The line under the tank level bar. *)
Definition tankLevelHint (s : SensorData) : string :=
  if lt (tankLevel s) (num 20) then "Low water - Refill needed"
  else "Water available".

(** The [value] of the five progress bars. *)
Definition soilMoistureProgress (s : SensorData) : Number := soilMoisture s.

Definition sunlightProgress (s : SensorData) : Number :=
  (((sunlight s - num 15) / num 20) * num 100)%js.

Definition rainfallProgress (s : SensorData) : Number := rainfall s.

Definition tankLevelProgress (s : SensorData) : Number := tankLevel s.

Definition phProgress (s : SensorData) : Number :=
  (((phLevel s - num 5) / num 3.5) * num 100)%js.

(** The main pump line of the control card. *)
Definition mainPumpLine (s : SensorData) : string :=
  "Main pump: " ++ (if pumpStatus s then "ON" else "OFF") ++ " "
  ++ (if pumpStatus s then " (supplying active zones)" else "").

(** [Math.random()] returns a number of [[0, 1)]. *)
Definition unitDraws (random : Random) : Prop :=
  forall i : nat, exists q : Q, random i = Fin q /\ (0 <= q)%Q /\ (q < 1)%Q.

Definition fairEvent (e : Event) : Prop :=
  match e with
  | Click _ => True
  | Interval random _ => unitDraws random
  end.

(** The intervals the simulation clamps its five readings to. *)
Definition withinSimulatedRanges (s : SensorData) : Prop :=
  between 30 100 (soilMoisture s)
  /\ between 15 35 (sunlight s)
  /\ between 40 90 (rainfall s)
  /\ between 0 100 (tankLevel s)
  /\ between 5 8.5 (phLevel s).

(** The state once all the events were handled, in order. *)
Definition stateAfter (events : list Event) (s : SensorData) : SensorData :=
  fold_left (fun state e => handle e state) events s.

(** How many of the events are clicks on zone [z]. *)
Fixpoint clicksOn (z : Zone) (events : list Event) : nat :=
  match events with
  | [] => 0
  | Click z' :: rest =>
      match z, z' with
      | Zone1, Zone1 | Zone2, Zone2 => S (clicksOn z rest)
      | _, _ => clicksOn z rest
      end
  | Interval _ _ :: rest => clicksOn z rest
  end.

End DashboardView.

(* ================================================================== *)
(** * DataService.checkConnection *)
(* ================================================================== *)

Module Connectivity.

(** [a === true]. *)
Definition isTrue (v : JsValue) : bool :=
  match v with JBoolean true => true | _ => false end.

(** [info] is the value the store holds at [.info/connected]. *)
Definition checkConnection (info : JsValue) : M bool :=
  tryCatch
    (bind (request (fun _ => info) (fun w => w)) (fun value =>
     ret (isTrue value)))
    (fun error =>
       bind (consoleError "Connection check failed:") (fun _ => ret false)).

End Connectivity.

(* ================================================================== *)
(** * React hooks: component state beside the remote store *)
(* ================================================================== *)

Module Hook.

(** Hook code: it updates the component state [S], talks to the store,
    and may throw; state updates made before a throw stay. *)
Definition H (S A : Type) : Type := S -> World -> Completion A * S * World.

Definition hret {S A} (a : A) : H S A := fun s w => (Normal a, s, w).

Definition hbind {S A B} (m : H S A) (k : A -> H S B) : H S B :=
  fun s w =>
    match m s w with
    | (Normal a, s', w') => k a s' w'
    | (Throw e, s', w') => (Throw e, s', w')
    end.

(** [setState(prev => update(prev))]. *)
Definition setState {S} (update : S -> S) : H S unit :=
  fun s w => (Normal tt, update s, w).

(** [await] on a service call. *)
Definition await {S A} (m : M A) : H S A :=
  fun s w => let '(c, w') := m w in (c, s, w').

Definition hthrow {S A} (e : Thrown) : H S A := fun s w => (Throw e, s, w).

Definition htry {S A} (body : H S A) (handler : Thrown -> H S A) : H S A :=
  fun s w =>
    match body s w with
    | (Normal a, s', w') => (Normal a, s', w')
    | (Throw e, s', w') => handler e s' w'
    end.

Declare Scope hook_scope.
Delimit Scope hook_scope with hook.
Notation "x <- m ;; k" := (hbind m (fun x => k))
  (at level 100, m at next level, right associativity) : hook_scope.
Notation "m ;; k" := (hbind m (fun _ => k))
  (at level 100, right associativity) : hook_scope.

End Hook.

Import Hook.

(* ================================================================== *)
(** * usePumpControl (src/hooks/usePumpControl.ts) *)
(* ================================================================== *)

Module PumpControl.

Local Open Scope hook_scope.

(** [pumpStatus] is typed ['ON' | 'OFF'] but holds whatever the service
    returned: the casts do not check. *)
Record PumpControlState := mkPumpControlState {
  pumpStatus : JsValue;
  loading : bool;
  error : option string;
  connected : bool
}.

Definition initialState : PumpControlState :=
  {| pumpStatus := JString "OFF";
     loading := true;
     error := None;
     connected := false |}.

Definition updatePumpStatus (status : JsValue) (prev : PumpControlState)
  : PumpControlState :=
  {| pumpStatus := status;
     loading := false;
     error := None;
     connected := connected prev |}.

Definition handleError (message : string) (prev : PumpControlState)
  : PumpControlState :=
  {| pumpStatus := pumpStatus prev;
     loading := false;
     error := Some message;
     connected := connected prev |}.

Definition updateConnectionStatus (isConnected : bool)
           (prev : PumpControlState) : PumpControlState :=
  {| pumpStatus := pumpStatus prev;
     loading := loading prev;
     error := error prev;
     connected := isConnected |}.

(** [prev => ({ ...prev, loading: true, error: null })]. *)
Definition startLoading (prev : PumpControlState) : PumpControlState :=
  {| pumpStatus := pumpStatus prev;
     loading := true;
     error := None;
     connected := connected prev |}.

(** [status === 'ON']. *)
Definition isON (status : JsValue) : bool :=
  match status with
  | JString s => String.eqb s "ON"
  | _ => false
  end.

(** The body of the mount effect up to the subscription; [info] is the
    value at [.info/connected]. *)
Definition initializePumpControl (info : JsValue)
  : H PumpControlState unit :=
  htry
    (isConnected <- await (Connectivity.checkConnection info) ;;
     setState (updateConnectionStatus isConnected) ;;
     initialStatus <- await DataService.getPumpState ;;
     setState (updatePumpStatus initialStatus))
    (fun error =>
       setState (handleError "Failed to initialize pump control") ;;
       await (consoleError "Error initializing pump control:")).

(** [shown] is [pumpState.pumpStatus] as the callback captured it at the
    last render. *)
Definition togglePump (shown : JsValue) : H PumpControlState unit :=
  htry
    (setState startLoading ;;
     let newStatus := if isON shown then "OFF" else "ON" in
     success <- await (DataService.setPumpState newStatus) ;;
     if success : bool
     then setState (updatePumpStatus (JString newStatus))
     else setState (handleError "Failed to update pump status"))
    (fun error =>
       setState (handleError "Failed to toggle pump") ;;
       await (consoleError "Error toggling pump:")).

Definition setPumpStatus (status : string) : H PumpControlState unit :=
  htry
    (setState startLoading ;;
     success <- await (DataService.setPumpState status) ;;
     if success : bool
     then setState (updatePumpStatus (JString status))
     else setState (handleError "Failed to set pump status"))
    (fun error =>
       setState (handleError "Failed to set pump state") ;;
       await (consoleError "Error setting pump state:")).

Definition refreshStatus : H PumpControlState unit :=
  htry
    (setState startLoading ;;
     status <- await DataService.getPumpState ;;
     setState (updatePumpStatus status))
    (fun error => setState (handleError "Failed to refresh pump status")).

End PumpControl.

(* ================================================================== *)
(** * useSensorData (unnamed/part_000) *)
(* ================================================================== *)

Module SensorHook.

Local Open Scope hook_scope.

Record SensorDataState := mkSensorDataState {
  data : DataService.SensorData;
  loading : bool;
  error : option string;
  connected : bool
}.

Definition initialState : SensorDataState :=
  {| data := DataService.mkSensorData (num 0) (num 0) (num 0) (num 0) (num 0);
     loading := true;
     error := None;
     connected := false |}.

Definition updateSensorData (newData : DataService.SensorData)
           (prev : SensorDataState) : SensorDataState :=
  {| data := newData;
     loading := false;
     error := None;
     connected := connected prev |}.

Definition handleError (message : string) (prev : SensorDataState)
  : SensorDataState :=
  {| data := data prev;
     loading := false;
     error := Some message;
     connected := connected prev |}.

Definition updateConnectionStatus (isConnected : bool)
           (prev : SensorDataState) : SensorDataState :=
  {| data := data prev;
     loading := loading prev;
     error := error prev;
     connected := isConnected |}.

Definition startLoading (prev : SensorDataState) : SensorDataState :=
  {| data := data prev;
     loading := true;
     error := None;
     connected := connected prev |}.

(** The body of the mount effect up to the subscription. *)
Definition initializeData (info : JsValue) : H SensorDataState unit :=
  htry
    (isConnected <- await (Connectivity.checkConnection info) ;;
     setState (updateConnectionStatus isConnected) ;;
     initialData <- await DataService.getSensorData ;;
     setState (updateSensorData initialData))
    (fun error =>
       setState (handleError "Failed to initialize sensor data") ;;
       await (consoleError "Error initializing sensor data:")).

Definition refreshData : H SensorDataState unit :=
  htry
    (setState startLoading ;;
     newData <- await DataService.getSensorData ;;
     setState (updateSensorData newData))
    (fun error => setState (handleError "Failed to refresh sensor data")).

End SensorHook.

(* ================================================================== *)
(** * Reading numerals *)
(* ================================================================== *)

Module Numeral.

(** The number written by the digits [d], continuing the numeral [acc]. *)
Fixpoint uintValue (d : Decimal.uint) (acc : Z) : Z :=
  match d with
  | Decimal.Nil => acc
  | Decimal.D0 l => uintValue l (10 * acc)
  | Decimal.D1 l => uintValue l (10 * acc + 1)
  | Decimal.D2 l => uintValue l (10 * acc + 2)
  | Decimal.D3 l => uintValue l (10 * acc + 3)
  | Decimal.D4 l => uintValue l (10 * acc + 4)
  | Decimal.D5 l => uintValue l (10 * acc + 5)
  | Decimal.D6 l => uintValue l (10 * acc + 6)
  | Decimal.D7 l => uintValue l (10 * acc + 7)
  | Decimal.D8 l => uintValue l (10 * acc + 8)
  | Decimal.D9 l => uintValue l (10 * acc + 9)
  end%Z.

(** Text made of white space only. *)
Fixpoint blank (s : string) : bool :=
  match s with
  | EmptyString => true
  | String c rest => isWhiteSpace c && blank rest
  end.

(** Text that cannot continue an integer numeral: it is empty, or its
    first character is not a digit, a decimal point or an exponent
    letter. *)
Definition endsNumeral (s : string) : bool :=
  match s with
  | EmptyString => true
  | String c _ =>
      match digitValue c with
      | Some _ => false
      | None =>
          negb (Ascii.eqb c "." || Ascii.eqb c "e" || Ascii.eqb c "E")%char
      end
  end.

End Numeral.

(* ================================================================== *)
(** * useAuth (src/hooks/useAuth.ts) *)
(* ================================================================== *)

Module AuthHook.

Local Open Scope hook_scope.

(** [error] holds whatever was caught. *)
Record AuthState := mkAuthState {
  user : option AuthService.User;
  loading : bool;
  error : option Thrown
}.

Definition initialState : AuthState :=
  {| user := None; loading := true; error := None |}.

(** The listener given to [onAuthStateChanged]. *)
Definition onAuthStateChanged (current : option AuthService.User)
  : H AuthState unit :=
  setState (fun _ => {| user := current; loading := false; error := None |}).

(** [prev => ({ ...prev, loading: true, error: null })]. *)
Definition startLoading (prev : AuthState) : AuthState :=
  {| user := user prev; loading := true; error := None |}.

(** [prev => ({ ...prev, loading: false, error })]. *)
Definition failWith (caught : Thrown) (prev : AuthState) : AuthState :=
  {| user := user prev; loading := false; error := Some caught |}.

Definition signIn (p : AuthService.Provider) (email password : string)
  : H AuthState unit :=
  htry
    (setState startLoading ;;
     _ <- await (lift (AuthService.signIn p email password)) ;;
     hret tt)
    (fun caught => setState (failWith caught) ;; hthrow caught).

Definition signUp (p : AuthService.Provider) (email password : string)
           (displayName : option string) : H AuthState unit :=
  htry
    (setState startLoading ;;
     _ <- await (lift (AuthService.signUp p email password displayName)) ;;
     hret tt)
    (fun caught => setState (failWith caught) ;; hthrow caught).

Definition signOut (p : AuthService.Provider) : H AuthState unit :=
  htry
    (setState startLoading ;;
     await (lift (AuthService.signOut p)))
    (fun caught => setState (failWith caught) ;; hthrow caught).

Definition sendPasswordReset (p : AuthService.Provider) (email : string)
  : H AuthState unit :=
  htry
    (setState startLoading ;;
     await (lift (AuthService.sendPasswordResetEmail p email)))
    (fun caught => setState (failWith caught) ;; hthrow caught).

Definition updateProfile (p : AuthService.Provider)
           (displayName photoURL : option string) : H AuthState unit :=
  htry
    (setState startLoading ;;
     await (lift (AuthService.updateUserProfile p displayName photoURL)))
    (fun caught => setState (failWith caught) ;; hthrow caught).

Definition changePassword (p : AuthService.Provider)
           (currentPassword newPassword : string) : H AuthState unit :=
  htry
    (setState startLoading ;;
     await (lift (AuthService.changePassword p currentPassword newPassword)))
    (fun caught => setState (failWith caught) ;; hthrow caught).

Definition deleteAccount (p : AuthService.Provider) (password : string)
  : H AuthState unit :=
  htry
    (setState startLoading ;;
     await (lift (AuthService.deleteAccount p password)))
    (fun caught => setState (failWith caught) ;; hthrow caught).

(** [isLoggedIn: !!authState.user]. *)
Definition isLoggedIn (s : AuthState) : bool :=
  match user s with Some _ => true | None => false end.

End AuthHook.

(* ================================================================== *)
(** * AuthService: the two validators *)
(* ================================================================== *)

Module Validation.

(** Regular expressions without captures or look-around: [test] on an
    expression anchored at both ends asks whether the whole text belongs
    to its language. *)
Inductive Regex :=
| Never
| Empty
| Class (allowed : ascii -> bool)
| Seq (r1 r2 : Regex)
| Alt (r1 r2 : Regex)
| Star (r : Regex).

(** [r+] and [r{2,4}]. *)
Definition Plus (r : Regex) : Regex := Seq r (Star r).

Definition TwoToFour (r : Regex) : Regex :=
  Seq r (Seq r (Alt Empty (Seq r (Alt Empty r)))).

Fixpoint nullable (r : Regex) : bool :=
  match r with
  | Never => false
  | Empty => true
  | Class _ => false
  | Seq r1 r2 => nullable r1 && nullable r2
  | Alt r1 r2 => nullable r1 || nullable r2
  | Star _ => true
  end.

(** What remains to be matched after reading [c]. *)
Fixpoint derivative (c : ascii) (r : Regex) : Regex :=
  match r with
  | Never => Never
  | Empty => Never
  | Class allowed => if allowed c then Empty else Never
  | Seq r1 r2 =>
      if nullable r1
      then Alt (Seq (derivative c r1) r2) (derivative c r2)
      else Seq (derivative c r1) r2
  | Alt r1 r2 => Alt (derivative c r1) (derivative c r2)
  | Star r1 => Seq (derivative c r1) (Star r1)
  end.

(** [/^r$/.test(text)]. *)
Fixpoint test (r : Regex) (text : string) : bool :=
  match text with
  | EmptyString => nullable r
  | String c rest => test (derivative c r) rest
  end.

(** The language of an expression. *)
Inductive Matches : Regex -> string -> Prop :=
| MEmpty : Matches Empty EmptyString
| MClass allowed c :
    allowed c = true -> Matches (Class allowed) (String c EmptyString)
| MSeq r1 r2 s1 s2 :
    Matches r1 s1 -> Matches r2 s2 -> Matches (Seq r1 r2) (s1 ++ s2)
| MAltL r1 r2 s : Matches r1 s -> Matches (Alt r1 r2) s
| MAltR r1 r2 s : Matches r2 s -> Matches (Alt r1 r2) s
| MStarNil r : Matches (Star r) EmptyString
| MStarApp r s1 s2 :
    Matches r s1 -> Matches (Star r) s2 -> Matches (Star r) (s1 ++ s2).

Definition inRange (lo hi : nat) (c : ascii) : bool :=
  let n := nat_of_ascii c in ((lo <=? n) && (n <=? hi))%nat.

Definition isUpper (c : ascii) : bool := inRange 65 90 c.
Definition isLower (c : ascii) : bool := inRange 97 122 c.
Definition isDigit (c : ascii) : bool := inRange 48 57 c.

(** [\w] *)
Definition isWord (c : ascii) : bool :=
  isUpper c || isLower c || isDigit c || Ascii.eqb c "_".

(** [[\w-\.]] and [[\w-]] *)
Definition isLocalChar (c : ascii) : bool :=
  isWord c || Ascii.eqb c "-" || Ascii.eqb c ".".

Definition isLabelChar (c : ascii) : bool := isWord c || Ascii.eqb c "-".

Definition isChar (x : ascii) (c : ascii) : bool := Ascii.eqb c x.

(** [/^[\w-\.]+@([\w-]+\.)+[\w-]{2,4}$/] *)
Definition emailRegex : Regex :=
  Seq (Plus (Class isLocalChar))
      (Seq (Class (isChar "@"))
           (Seq (Plus (Seq (Plus (Class isLabelChar)) (Class (isChar "."))))
                (TwoToFour (Class isLabelChar)))).

Definition isValidEmail (email : string) : bool := test emailRegex email.

(** [text.match(/[...]/)] is truthy: some character is in the class. *)
Fixpoint hasChar (allowed : ascii -> bool) (text : string) : bool :=
  match text with
  | EmptyString => false
  | String c rest => allowed c || hasChar allowed rest
  end.

(** Every character is in the class. *)
Fixpoint allChars (allowed : ascii -> bool) (text : string) : bool :=
  match text with
  | EmptyString => true
  | String c rest => allowed c && allChars allowed rest
  end.

(** The labels of a domain, each followed by its dot. *)
Fixpoint dotted (labels : list string) : string :=
  match labels with
  | [] => EmptyString
  | label :: rest => label ++ "." ++ dotted rest
  end.

(** A non-empty run of characters of one class. *)
Definition isRun (allowed : ascii -> bool) (text : string) : Prop :=
  text <> EmptyString /\ allChars allowed text = true.

(** [null] is [None]. *)
Definition validatePassword (password : string) : option string :=
  if (String.length password <? 6)%nat then
    Some "Password must be at least 6 characters long."
  else if negb (hasChar isUpper password) then
    Some "Password must contain at least one uppercase letter."
  else if negb (hasChar isLower password) then
    Some "Password must contain at least one lowercase letter."
  else if negb (hasChar isDigit password) then
    Some "Password must contain at least one number."
  else None.

End Validation.

(* ================================================================== *)
(** * Reports: the generated datasets and the report cards *)
(* ================================================================== *)

Module ReportCards.

Import Reports.

(** One record of [generateReportData]: [i] days before [now], from six
    draws of [Math.random()] starting at draw [k].  [isoDay] stands for
    [new Date(ms).toISOString().split('T')[0]]; the draws are finite, as
    [Math.random()] returns them. *)
Definition generatedRecord (random : nat -> Q) (isoDay : Z -> string)
           (now : Z) (i : nat) (k : nat) : ReportData :=
  {| date := isoDay (now - Z.of_nat i * 24 * 60 * 60 * 1000)%Z;
     totalWaterUsed := (Fin (random k) * num 50 + num 20)%js;
     irrigationTime := (Fin (random (k + 1)%nat) * num 120 + num 30)%js;
     pumpCycles := (Qfloor (random (k + 2)%nat * 8) + 2)%Z;
     avgSoilMoisture := (Fin (random (k + 3)%nat) * num 30 + num 50)%js;
     alerts := Qfloor (random (k + 4)%nat * 3);
     efficiency := (Fin (random (k + 5)%nat) * num 20 + num 75)%js |}.

(** The loop [for (let i = days; i >= 0; i--)], entered with [i] and the
    index [k] of the next draw. *)
Fixpoint generateFrom (random : nat -> Q) (isoDay : Z -> string) (now : Z)
         (i : nat) (k : nat) : list ReportData :=
  generatedRecord random isoDay now i k
  :: match i with
     | O => []
     | S i' => generateFrom random isoDay now i' (k + 6)
     end.

Definition generateReportData (random : nat -> Q) (isoDay : Z -> string)
           (now : Z) (days : nat) : list ReportData :=
  generateFrom random isoDay now days 0.

(** [list.filter((_, i) => i % 7 === 0)], with [i] counted from
    [index]. *)
Fixpoint everySeventh {A} (index : nat) (l : list A) : list A :=
  match l with
  | [] => []
  | x :: rest =>
      if (index mod 7 =? 0)%nat then x :: everySeventh (S index) rest
      else everySeventh (S index) rest
  end.

(** The two module-level datasets; [random] is the part of the stream
    of random numbers the call consumes. *)
Definition dailyReports (random : nat -> Q) (isoDay : Z -> string) (now : Z)
  : list ReportData :=
  generateReportData random isoDay now 7.

Definition weeklyReports (random : nat -> Q) (isoDay : Z -> string)
           (now : Z) : list ReportData :=
  everySeventh 0 (generateReportData random isoDay now 30).

(** The variant of the efficiency badge of a report row. *)
Definition efficiencyBadge (report : ReportData) : string :=
  if lt (num 85) (efficiency report) then "default"
  else if lt (num 70) (efficiency report) then "secondary"
  else "destructive".

(** Whether a weekly row shows the upward and the downward trend icon. *)
Definition showsTrendingUp (report : ReportData) : bool :=
  lt (num 600) (irrigationTime report).

Definition showsTrendingDown (report : ReportData) : bool :=
  lt (irrigationTime report) (num 300).

(** Whether a daily row shows the alerts badge. *)
Definition showsAlerts (report : ReportData) : bool := (0 <? alerts report)%Z.

(** Draws of [[0, 1)]. *)
Definition unitStream (random : nat -> Q) : Prop :=
  forall k : nat, (0 <= random k)%Q /\ (random k < 1)%Q.

(** The bounds of the fields of a generated record. *)
Definition generatedBounds (report : ReportData) : Prop :=
  between 20%Q 70%Q (totalWaterUsed report)
  /\ between 30%Q 150%Q (irrigationTime report)
  /\ (2 <= pumpCycles report <= 9)%Z
  /\ between 50%Q 80%Q (avgSoilMoisture report)
  /\ (0 <= alerts report <= 2)%Z
  /\ between 75%Q 95%Q (efficiency report).

End ReportCards.

(* ================================================================== *)
(** * Facts about numbers *)
(* ================================================================== *)

Section NumFacts.

Lemma Qlt_bool_true (a b : Q) : Qlt_bool a b = true <-> (a < b)%Q.
Proof.
  unfold Qlt_bool. rewrite negb_true_iff.
  split.
  - intros H. apply Qnot_le_lt. intros Hle.
    apply Qle_bool_iff in Hle. congruence.
  - intros H. destruct (Qle_bool b a) eqn:E; [|reflexivity].
    apply Qle_bool_iff in E. exfalso. apply (Qlt_not_le _ _ H E).
Qed.

Lemma Qlt_bool_false (a b : Q) : Qlt_bool a b = false <-> (b <= a)%Q.
Proof.
  unfold Qlt_bool. rewrite negb_false_iff. apply Qle_bool_iff.
Qed.

Lemma between_num (lo hi q : Q) :
  (lo <= q)%Q -> (q <= hi)%Q -> between lo hi (num q).
Proof.
  intros H1 H2. unfold num, between. rewrite Qred_correct. split; assumption.
Qed.

(** [Math.max(lo, Math.min(hi, v))] lands in [[lo, hi]] whenever [v] is
    not [NaN]. *)
Lemma clamp_between (lo hi : Q) (v : Number) :
  (lo <= hi)%Q -> isNaN v = false ->
  between lo hi (max (num lo) (min (num hi) v)).
Proof.
  intros Hle Hnan.
  assert (Hlo : between lo hi (num lo)) by (apply between_num; lra).
  assert (Hhi : between lo hi (num hi)) by (apply between_num; lra).
  destruct v as [| [|] | a]; [discriminate | | |].
  - exact Hlo.
  - unfold max, min, num in *. cbn [isNaN orb lt].
    destruct (Qlt_bool (Qred lo) (Qred hi)); assumption.
  - unfold max, min, num in *. cbn [isNaN orb lt].
    destruct (Qlt_bool a (Qred hi)) eqn:Ea; cbn [isNaN orb lt].
    + destruct (Qlt_bool (Qred lo) a) eqn:Eb; [|assumption].
      apply Qlt_bool_true in Ea, Eb. rewrite Qred_correct in Ea, Eb.
      cbn [between]. lra.
    + destruct (Qlt_bool (Qred lo) (Qred hi)); assumption.
Qed.



End NumFacts.

(* ================================================================== *)
(** * The dashboard: main pump derived from the zones *)
(* ================================================================== *)

Section DashboardFacts.

Import Dashboard.

Lemma toggleZone_derives (z : Zone) (prev : SensorData) :
  pumpDerived (toggleZone z prev).
Proof. destruct z; reflexivity. Qed.

Lemma simulatedUpdate_keeps_controls random now prev :
  controls (simulatedUpdate random now prev) = controls prev.
Proof. reflexivity. Qed.

Lemma handle_preserves (e : Event) (prev : SensorData) :
  pumpDerived prev -> pumpDerived (handle e prev).
Proof.
  destruct e as [z | random now]; intros H.
  - apply toggleZone_derives.
  - exact H.
Qed.

Lemma renders_preserve (events : list Event) :
  forall s, pumpDerived s -> Forall pumpDerived (renders events s).
Proof.
  induction events as [| e rest IH]; intros s Hs; cbn [renders].
  - constructor.
  - constructor.
    + apply handle_preserves, Hs.
    + apply IH, handle_preserves, Hs.
Qed.

Lemma initialState_derived now : pumpDerived (initialState now).
Proof. reflexivity. Qed.

(** C1. Whatever zone buttons are clicked, in whatever order, starting
    from the initial state (both zones off, pump off): the initial state
    and the state rendered after each click have the main pump flag equal
    to the OR of the two zone flags; and the four clicks zone 1, zone 2,
    zone 1, zone 2 show exactly the four steps of the documented trace. *)
Theorem pump_is_or_of_zones_after_every_toggle :
  forall (now : string) (clicks : list Zone),
    Forall pumpDerived
           (initialState now :: renders (map Click clicks) (initialState now))
    /\ controls (initialState now) = (false, false, false)
    /\ map controls
           (renders (map Click [Zone1; Zone2; Zone1; Zone2])
                    (initialState now))
       = [ (true, false, true);
           (true, true, true);
           (false, true, true);
           (false, false, false) ].
Proof.
  intros now clicks. split; [| split; reflexivity].
  constructor.
  - apply initialState_derived.
  - apply renders_preserve, initialState_derived.
Qed.

(** C10. The simulated sensor update leaves zone1Status, zone2Status,
    pumpStatus and isConnected as they were, for every previous state,
    every outcome of the random draws and every clock reading; hence it
    carries the pump-equals-OR-of-zones invariant from the previous state
    to the next, and the invariant holds at every render of any
    interleaving of clicks and simulated updates. *)
Theorem simulated_update_frames_controls :
  forall (random : Random) (now : string) (prev : SensorData),
    zone1Status (simulatedUpdate random now prev) = zone1Status prev
    /\ zone2Status (simulatedUpdate random now prev) = zone2Status prev
    /\ pumpStatus (simulatedUpdate random now prev) = pumpStatus prev
    /\ isConnected (simulatedUpdate random now prev) = isConnected prev
    /\ (pumpDerived prev -> pumpDerived (simulatedUpdate random now prev))
    /\ (forall (mounted : string) (events : list Event),
           Forall pumpDerived (renders events (initialState mounted))).
Proof.
  intros random now prev.
  repeat split; try reflexivity.
  - intros H. exact H.
  - intros mounted events. apply renders_preserve, initialState_derived.
Qed.

Lemma simulated_update_frames_controls_witness :
  pumpDerived (toggleZone1 (initialState "10:00:00"))
  /\ pumpDerived
       (simulatedUpdate (fun _ => num 0.25) "10:00:03"
                        (toggleZone1 (initialState "10:00:00"))).
Proof.
  split; [reflexivity |].
  apply (simulated_update_frames_controls
           (fun _ => num 0.25) "10:00:03"
           (toggleZone1 (initialState "10:00:00"))).
  reflexivity.
Defined.

End DashboardFacts.

(* ================================================================== *)
(** * DataService: normalisation of sensor readings *)
(* ================================================================== *)

Section NormalisationFacts.

Import DataService.

(** The count of digits read never decreases. *)
Lemma takeDigits_count (s : string) :
  forall acc count,
    (count <= snd (fst (takeDigits s acc count)))%nat.
Proof.
  induction s as [| c rest IH]; intros acc count; cbn; [lia |].
  destruct (digitValue c) as [d |]; cbn; [| lia].
  specialize (IH (10 * acc + d)%Z (S count)). lia.
Qed.

Lemma isDigit_digitValue (c : ascii) :
  isDigit c = match digitValue c with Some _ => true | None => false end.
Proof. unfold isDigit, digitValue. destruct (_ && _); reflexivity. Qed.

(** The sign is read off the head of the text. *)
Lemma sign_afterSign (trimmed : string) :
  exists negative : bool,
    match trimmed with
    | String "+"%char r => (false, r)
    | String "-"%char r => (true, r)
    | _ => (false, trimmed)
    end = (negative, afterSign trimmed).
Proof.
  destruct trimmed as [| c r]; [exists false; reflexivity |].
  destruct c as [[] [] [] [] [] [] [] []]; eexists; reflexivity.
Qed.

(** A numeral is read exactly where the text has the shape of one. *)
Lemma unsignedDecimal_shape (body : string) :
  match unsignedDecimal body with
  | Some _ => headsNumeral body = true
  | None => headsNumeral body = false
  end.
Proof.
  unfold unsignedDecimal, headsNumeral.
  destruct body as [| c rest]; [reflexivity |].
  rewrite isDigit_digitValue. cbn [takeDigits].
  destruct (digitValue c) as [d |] eqn:Hd.
  - pose proof (takeDigits_count rest (10 * 0 + d) 1) as Hcount.
    destruct (takeDigits rest (10 * 0 + d) 1) as [[i ni] afterInt].
    cbn [fst snd] in Hcount.
    destruct (match afterInt with
              | String "."%char r => takeDigits r i 0
              | _ => (i, 0%nat, afterInt)
              end) as [[m nf] afterFrac].
    destruct ni as [| ni]; [lia | reflexivity].
  - cbn [orb].
    destruct (Ascii.eqb_spec c ".") as [-> | Hne].
    + cbn [andb]. destruct rest as [| d' rest']; [reflexivity |].
      rewrite isDigit_digitValue. cbn [takeDigits].
      destruct (digitValue d') as [v |] eqn:Hd'; [| reflexivity].
      pose proof (takeDigits_count rest' (10 * 0 + v) 1) as Hcount.
      destruct (takeDigits rest' (10 * 0 + v) 1) as [[m nf] afterFrac].
      cbn [fst snd] in Hcount.
      destruct nf as [| nf]; [lia | reflexivity].
    + cbn [andb].
      destruct c as [[] [] [] [] [] [] [] []];
        first [reflexivity | contradiction Hne; reflexivity].
Qed.

Lemma parseFloatString_shape (s : string) :
  isNaN (parseFloatString s) = negb (beginsNumeral s).
Proof.
  unfold parseFloatString, beginsNumeral.
  destruct (sign_afterSign (trimStart s)) as [negative ->].
  destruct (String.prefix "Infinity" (afterSign (trimStart s)));
    [reflexivity |].
  pose proof (unsignedDecimal_shape (afterSign (trimStart s))) as H.
  destruct (unsignedDecimal (afterSign (trimStart s))); rewrite H;
    reflexivity.
Qed.

(** [isNaN(parseFloat(v))] is decided by the shape of [v]. *)
Lemma parseFloat_shape : forall v : JsValue,
  isNaN (parseFloat v) = unreadable v.
Proof.
  fix IH 1. intros [| | b | x | s | items | props]; try reflexivity.
  - apply parseFloatString_shape.
  - destruct items as [| first rest]; [reflexivity |].
    cbn [unreadable]. rewrite <- (IH first).
    destruct first; reflexivity.
Qed.

Lemma default_is_zero (key : FirebaseSensorFields) :
  field DEFAULT_SENSOR_DATA (mapFirebaseToSensorData key) = num 0.
Proof. destruct key; reflexivity. Qed.

(** A truthy value can be read from without a throw. *)
Lemma readField_truthy (data : JsValue) (key : FirebaseSensorFields) :
  truthy data = true -> exists raw, readField data key = Normal raw.
Proof.
  destruct data; cbn; intros H; try discriminate; eauto.
Qed.

Lemma parseAndValidate_falsy (data : JsValue) (key : FirebaseSensorFields) :
  truthy data = false ->
  parseAndValidateSensorValue data key = Normal (num 0).
Proof.
  intros H. unfold parseAndValidateSensorValue. rewrite H. cbn.
  rewrite default_is_zero. reflexivity.
Qed.

(** The three outcomes of a read that went through. *)
Lemma parseAndValidate_read (data : JsValue) (key : FirebaseSensorFields)
      (raw : JsValue) :
  truthy data = true -> readField data key = Normal raw ->
  parseAndValidateSensorValue data key =
  Normal
    (if isNull raw || isUndefined raw || isNaN (parseFloat raw)
     then num 0
     else match VALIDATION_RANGES (mapFirebaseToSensorData key) with
          | Some range =>
              Num.max (min range) (Num.min (max range) (parseFloat raw))
          | None => parseFloat raw
          end).
Proof.
  intros Ht Hr. unfold parseAndValidateSensorValue.
  rewrite Ht, Hr. cbn [negb cbind].
  destruct (isNull raw) eqn:En; cbn [cbind orb].
  - rewrite default_is_zero. reflexivity.
  - destruct (isUndefined raw) eqn:Eu; cbn [cbind orb].
    + rewrite default_is_zero. reflexivity.
    + destruct (isNaN (parseFloat raw)).
      * rewrite default_is_zero. reflexivity.
      * destruct (VALIDATION_RANGES (mapFirebaseToSensorData key));
          reflexivity.
Qed.

Lemma ranges_declared (key : FirebaseSensorFields) :
  exists lo hi,
    VALIDATION_RANGES (mapFirebaseToSensorData key)
    = Some (mkRange (num lo) (num hi))
    /\ (lo <= 0)%Q /\ (0 <= hi)%Q.
Proof.
  destruct key; cbn; eexists _, _; (split; [reflexivity | split; lra]).
Qed.

Lemma parseAndValidate_total (data : JsValue) (key : FirebaseSensorFields) :
  exists y, parseAndValidateSensorValue data key = Normal y.
Proof.
  destruct (truthy data) eqn:Ht.
  - destruct (readField_truthy data key Ht) as [raw Hr].
    rewrite (parseAndValidate_read data key raw Ht Hr). eauto.
  - rewrite (parseAndValidate_falsy data key Ht). eauto.
Qed.

Lemma unreadable_absent (raw : JsValue) :
  isNull raw || isUndefined raw = true -> unreadable raw = true.
Proof. destruct raw; cbn; congruence. Qed.

(** C2, as amended.  For each of the five fields and every snapshot
    value the normalisation of the field returns normally, and the
    field's default is 0.  It returns that default when the snapshot
    value is absent (falsy), and when the value of the field is one in
    which no number can be read: [undefined] (the field is absent),
    [null], a boolean, an object, [NaN], or text that does not begin,
    after leading white space and at most one sign, with a digit, with a
    point followed by a digit, or with [Infinity].  For every other value
    of the field the default is not substituted: the number read at the
    head of the value, whatever follows it, is clamped into the field's
    range. *)
Theorem missing_or_unparsable_field_yields_default :
  forall (data : JsValue) (key : FirebaseSensorFields),
    (exists y, parseAndValidateSensorValue data key = Normal y)
    /\ field DEFAULT_SENSOR_DATA (mapFirebaseToSensorData key) = Fin 0
    /\ (truthy data = false ->
        parseAndValidateSensorValue data key
        = Normal (field DEFAULT_SENSOR_DATA (mapFirebaseToSensorData key)))
    /\ (forall raw : JsValue,
           readField data key = Normal raw ->
           unreadable raw = true ->
           parseAndValidateSensorValue data key
           = Normal (field DEFAULT_SENSOR_DATA
                           (mapFirebaseToSensorData key)))
    /\ (forall raw : JsValue,
           truthy data = true ->
           readField data key = Normal raw ->
           unreadable raw = false ->
           isNaN (parseFloat raw) = false
           /\ exists range : Range,
                VALIDATION_RANGES (mapFirebaseToSensorData key) = Some range
                /\ parseAndValidateSensorValue data key
                   = Normal (Num.max (min range)
                                     (Num.min (max range) (parseFloat raw))))
    /\ (forall s : string,
           unreadable (JString s) = negb (beginsNumeral s))
    /\ unreadable JUndefined = true
    /\ unreadable JNull = true
    /\ (forall b : bool, unreadable (JBoolean b) = true)
    /\ (forall props, unreadable (JObject props) = true).
Proof.
  intros data key. split; [apply parseAndValidate_total |].
  split; [destruct key; reflexivity |].
  rewrite default_is_zero.
  split; [apply parseAndValidate_falsy |].
  split; [| split; [| repeat split]].
  - intros raw Hr Hraw.
    destruct (truthy data) eqn:Ht.
    + rewrite (parseAndValidate_read data key raw Ht Hr).
      rewrite (parseFloat_shape raw), Hraw, !orb_true_r. reflexivity.
    + apply parseAndValidate_falsy, Ht.
  - intros raw Ht Hr Hraw.
    rewrite (parseFloat_shape raw). split; [exact Hraw |].
    destruct (ranges_declared key) as (lo & hi & Hdecl & _).
    eexists. split; [exact Hdecl |].
    rewrite (parseAndValidate_read data key raw Ht Hr).
    destruct (isNull raw || isUndefined raw) eqn:Habsent.
    + rewrite (unreadable_absent raw Habsent) in Hraw. discriminate.
    + rewrite (parseFloat_shape raw), Hraw, Hdecl. reflexivity.
Qed.

Lemma missing_or_unparsable_field_yields_default_witness :
  parseAndValidateSensorValue scenarioReading FlowRate_LperMin
  = Normal (Fin 0)
  /\ parseAndValidateSensorValue JNull Humidity = Normal (Fin 0)
  /\ parseAndValidateSensorValue scenarioReading Humidity
     = Normal (Fin (111 # 2))
  /\ parseAndValidateSensorValue paddedReading Humidity
     = Normal (Fin 42).
Proof.
  split; [| split; [| split]].
  - destruct (missing_or_unparsable_field_yields_default
                scenarioReading FlowRate_LperMin) as (_ & _ & _ & H & _).
    apply (H (JString "abc")); reflexivity.
  - destruct (missing_or_unparsable_field_yields_default
                JNull Humidity) as (_ & _ & H & _).
    apply H. reflexivity.
  - destruct (missing_or_unparsable_field_yields_default
                scenarioReading Humidity) as (_ & _ & _ & _ & H & _).
    destruct (H (JString "55.5") eq_refl eq_refl eq_refl)
      as (_ & range & Hrange & ->).
    injection Hrange as <-. reflexivity.
  - destruct (missing_or_unparsable_field_yields_default
                paddedReading Humidity) as (_ & _ & _ & _ & H & _).
    destruct (H (JString (String "160"%char "42")) eq_refl eq_refl eq_refl)
      as (_ & range & Hrange & ->).
    injection Hrange as <-. reflexivity.
Defined.

(** C2 as stated fails.  The text [12abc] is not a number, yet the field
    holding it does not normalise to the default 0: the numeral at its
    head is read, and the field normalises to 12. *)
Lemma text_after_a_numeral_is_ignored :
  readField prefixedReading SoilMoisture = Normal (JString "12abc")
  /\ parseAndValidateSensorValue prefixedReading SoilMoisture
     = Normal (Fin 12)
  /\ field DEFAULT_SENSOR_DATA (mapFirebaseToSensorData SoilMoisture)
     = Fin 0
  /\ Fin 12 <> Fin 0.
Proof.
  split; [reflexivity |]. split; [vm_compute; reflexivity |].
  split; [reflexivity | discriminate].
Qed.

End NormalisationFacts.

Section RangeFacts.

Import DataService.

Lemma parseAndValidate_between (data : JsValue) (key : FirebaseSensorFields)
      (lo hi : Q) :
  VALIDATION_RANGES (mapFirebaseToSensorData key)
  = Some (mkRange (num lo) (num hi)) ->
  (lo <= 0)%Q -> (0 <= hi)%Q ->
  exists y, parseAndValidateSensorValue data key = Normal y
            /\ between lo hi y.
Proof.
  intros Hrange Hlo Hhi.
  assert (Hzero : between lo hi (num 0)) by (apply between_num; assumption).
  destruct (truthy data) eqn:Ht.
  - destruct (readField_truthy data key Ht) as [raw Hr].
    rewrite (parseAndValidate_read data key raw Ht Hr), Hrange.
    eexists; split; [reflexivity |].
    destruct (isNull raw || isUndefined raw) ; cbn [orb]; [exact Hzero |].
    destruct (isNaN (parseFloat raw)) eqn:En; [exact Hzero |].
    cbn [min max]. apply clamp_between; [lra | exact En].
  - rewrite (parseAndValidate_falsy data key Ht). eauto.
Qed.



Lemma parseFloat_number_present (raw : JsValue) :
  isNaN (parseFloat raw) = false ->
  isNull raw || isUndefined raw = false.
Proof. destruct raw; cbn; congruence. Qed.

Lemma sensorDataLiteral_within (data : JsValue) :
  exists r : SensorData,
    sensorDataLiteral data = Normal r /\ withinDeclaredRanges r.
Proof.
  unfold sensorDataLiteral, withinDeclaredRanges.
  destruct (parseAndValidate_between data SoilMoisture 0 100 eq_refl)
    as (a & -> & Ha); [lra | lra |].
  destruct (parseAndValidate_between data Temperature (-50) 100 eq_refl)
    as (b & -> & Hb); [lra | lra |].
  destruct (parseAndValidate_between data Humidity 0 100 eq_refl)
    as (c & -> & Hc); [lra | lra |].
  destruct (parseAndValidate_between data TankLevel 0 100 eq_refl)
    as (d & -> & Hd); [lra | lra |].
  destruct (parseAndValidate_between data FlowRate_LperMin 0 1000 eq_refl)
    as (e & -> & He); [lra | lra |].
  cbn [cbind]. eexists. split; [reflexivity |].
  cbn. repeat split; tauto.
Qed.



(** C4. The raw reading SoilMoisture "150", Temperature null, Humidity
    "55.5", TankLevel "-10", FlowRate_LperMin "abc" normalises to the
    record soilMoisture 100, temperature 0, humidity 55.5, tankLevel 0,
    flowRate 0, and that record is what the stream listener hands to the
    subscriber's callback. *)
Theorem scenario_reading_normalises :
  sensorDataLiteral scenarioReading = Normal scenarioCanonical
  /\ scenarioCanonical
     = mkSensorData (Fin 100) (Fin 0) (Fin (111 # 2)) (Fin 0) (Fin 0)
  /\ (111 # 2 == 55.5)%Q
  /\ forall (callback : SensorData -> M unit) (w : World),
       handleData callback scenarioReading w
       = tryCatch (callback scenarioCanonical)
                  (fun _ => bind (consoleError "Error parsing sensor data:")
                                 (fun _ => callback DEFAULT_SENSOR_DATA))
                  w.
Proof.
  assert (H : sensorDataLiteral scenarioReading = Normal scenarioCanonical)
    by (vm_compute; reflexivity).
  split; [exact H |].
  split; [reflexivity |].
  split; [reflexivity |].
  intros callback w. unfold handleData, tryCatch, bind, lift.
  rewrite H. reflexivity.
Qed.

End RangeFacts.

(* ================================================================== *)
(** * DataService: the pull variants and the remote pump flag *)
(* ================================================================== *)

Section RemoteFacts.

Import DataService.

Lemma request_served {A} (answer : World -> A) (effect : World -> World)
      (w : World) :
  served w (requests w) = true ->
  request answer effect w = (Normal (answer (counted w)), effect (counted w)).
Proof. intros H. unfold request. rewrite H. reflexivity. Qed.

Lemma request_rejected {A} (answer : World -> A) (effect : World -> World)
      (w : World) :
  served w (requests w) = false ->
  request answer effect w = (Throw transportError, counted w).
Proof. intros H. unfold request. rewrite H. reflexivity. Qed.

Lemma sensorDataLiteral_falsy (data : JsValue) :
  truthy data = false ->
  sensorDataLiteral data = Normal DEFAULT_SENSOR_DATA.
Proof.
  intros H. unfold sensorDataLiteral.
  rewrite !(parseAndValidate_falsy data _ H). reflexivity.
Qed.

Lemma getSensorData_rejected (w : World) :
  served w (requests w) = false ->
  getSensorData w
  = (Normal DEFAULT_SENSOR_DATA,
     mkWorld (sensors w) (pump w) (actions w) (served w) (S (requests w))
             (clock w) (console w ++ ["Error getting sensor data:"])).
Proof.
  intros H. unfold getSensorData, tryCatch, bind, getSensors.
  rewrite (request_rejected _ _ w H). reflexivity.
Qed.

Lemma getSensorData_served (w : World) :
  served w (requests w) = true ->
  exists r, sensorDataLiteral (sensors w) = Normal r
            /\ getSensorData w = (Normal r, counted w).
Proof.
  intros H. unfold getSensorData, tryCatch, bind, getSensors.
  rewrite (request_served _ _ w H). cbn [sensors counted].
  destruct (truthy (sensors w)) eqn:Ht; cbn [negb].
  - destruct (sensorDataLiteral_within (sensors w)) as (r & Hr & _).
    exists r. split; [exact Hr |]. unfold lift. rewrite Hr. reflexivity.
  - exists DEFAULT_SENSOR_DATA. split; [| reflexivity].
    apply sensorDataLiteral_falsy, Ht.
Qed.

(** C7. [getSensorData] always resolves.  When the request is rejected
    it resolves to the all-defaults record, every field 0, and so it does
    when the request is served and the upstream record is absent.  When
    the request is served it resolves to the record that the stream
    listener would hand to its callback for the same snapshot value. *)
Theorem fetch_once_normalises_or_falls_back :
  forall w : World,
    (exists r w', getSensorData w = (Normal r, w'))
    /\ DEFAULT_SENSOR_DATA
       = mkSensorData (Fin 0) (Fin 0) (Fin 0) (Fin 0) (Fin 0)
    /\ (served w (requests w) = false ->
        fst (getSensorData w) = Normal DEFAULT_SENSOR_DATA)
    /\ (served w (requests w) = true ->
        truthy (sensors w) = false ->
        fst (getSensorData w) = Normal DEFAULT_SENSOR_DATA)
    /\ (served w (requests w) = true ->
        exists r : SensorData,
          fst (getSensorData w) = Normal r
          /\ sensorDataLiteral (sensors w) = Normal r
          /\ forall (callback : SensorData -> M unit) (w0 : World),
               handleData callback (sensors w) w0
               = tryCatch (callback r)
                   (fun _ =>
                      bind (consoleError "Error parsing sensor data:")
                           (fun _ => callback DEFAULT_SENSOR_DATA))
                   w0).
Proof.
  intros w. split; [| split; [reflexivity |]].
  - destruct (served w (requests w)) eqn:Hs.
    + destruct (getSensorData_served w Hs) as (r & _ & ->). eauto.
    + rewrite (getSensorData_rejected w Hs). eauto.
  - split; [| split].
    + intros Hs. rewrite (getSensorData_rejected w Hs). reflexivity.
    + intros Hs Ht.
      destruct (getSensorData_served w Hs) as (r & Hr & ->).
      rewrite (sensorDataLiteral_falsy _ Ht) in Hr.
      cbn [fst]. congruence.
    + intros Hs.
      destruct (getSensorData_served w Hs) as (r & Hr & ->).
      exists r. split; [reflexivity |]. split; [exact Hr |].
      intros callback w0. unfold handleData, tryCatch, bind, lift.
      rewrite Hr. reflexivity.
Qed.

Lemma fetch_once_normalises_or_falls_back_witness :
  fst (getSensorData (mkWorld scenarioReading JNull [] offline 0 "" []))
  = Normal DEFAULT_SENSOR_DATA
  /\ fst (getSensorData (mkWorld JNull JNull [] online 0 "" []))
     = Normal DEFAULT_SENSOR_DATA
  /\ exists r,
       fst (getSensorData (mkWorld scenarioReading JNull [] online 0 "" []))
       = Normal r
       /\ sensorDataLiteral scenarioReading = Normal r.
Proof.
  split; [| split].
  - destruct (fetch_once_normalises_or_falls_back
                (mkWorld scenarioReading JNull [] offline 0 "" []))
      as (_ & _ & H & _).
    apply H. reflexivity.
  - destruct (fetch_once_normalises_or_falls_back
                (mkWorld JNull JNull [] online 0 "" []))
      as (_ & _ & _ & H & _).
    apply H; reflexivity.
  - destruct (fetch_once_normalises_or_falls_back
                (mkWorld scenarioReading JNull [] online 0 "" []))
      as (_ & _ & _ & _ & H).
    destruct (H eq_refl) as (r & H1 & H2 & _).
    exists r. split; assumption.
Defined.

Lemma getPumpState_rejected (w : World) :
  served w (requests w) = false ->
  getPumpState w
  = (Normal (JString "OFF"),
     mkWorld (sensors w) (pump w) (actions w) (served w) (S (requests w))
             (clock w) (console w ++ ["Error getting pump state:"])).
Proof.
  intros H. unfold getPumpState, tryCatch, bind, getPump.
  rewrite (request_rejected _ _ w H). reflexivity.
Qed.

Lemma getPumpState_served (w : World) :
  served w (requests w) = true ->
  getPumpState w = (Normal (orElse (pump w) (JString "OFF")), counted w).
Proof.
  intros H. unfold getPumpState, tryCatch, bind, getPump.
  rewrite (request_served _ _ w H). reflexivity.
Qed.

(** C8. [getPumpState] always resolves, and leaves the store as it was.
    When the request is rejected it resolves to "OFF".  When the request
    is served it resolves to "OFF" if the remote value is absent, and to
    the remote value itself if that value is truthy, as every non-empty
    text is, "ON" and "OFF" included; any other falsy value reads as
    "OFF" too. *)
Theorem read_pump_state_defaults_to_off :
  forall w : World,
    (exists v w', getPumpState w = (Normal v, w')
                  /\ pump w' = pump w /\ actions w' = actions w)
    /\ (served w (requests w) = false ->
        fst (getPumpState w) = Normal (JString "OFF"))
    /\ (served w (requests w) = true ->
        pump w = JNull ->
        fst (getPumpState w) = Normal (JString "OFF"))
    /\ (served w (requests w) = true ->
        truthy (pump w) = true ->
        fst (getPumpState w) = Normal (pump w))
    /\ (served w (requests w) = true ->
        forall c rest,
          pump w = JString (String c rest) ->
          fst (getPumpState w) = Normal (JString (String c rest)))
    /\ (served w (requests w) = true ->
        truthy (pump w) = false ->
        fst (getPumpState w) = Normal (JString "OFF")).
Proof.
  intros w. split; [| split; [| split; [| split; [| split]]]].
  - destruct (served w (requests w)) eqn:Hs.
    + rewrite (getPumpState_served w Hs). eauto.
    + rewrite (getPumpState_rejected w Hs). eauto.
  - intros Hs. rewrite (getPumpState_rejected w Hs). reflexivity.
  - intros Hs Hp. rewrite (getPumpState_served w Hs), Hp. reflexivity.
  - intros Hs Ht. rewrite (getPumpState_served w Hs).
    unfold orElse. rewrite Ht. reflexivity.
  - intros Hs c rest Hp. rewrite (getPumpState_served w Hs), Hp.
    reflexivity.
  - intros Hs Ht. rewrite (getPumpState_served w Hs).
    unfold orElse. rewrite Ht. reflexivity.
Qed.

Lemma read_pump_state_defaults_to_off_witness :
  fst (getPumpState (mkWorld JNull (JString "ON") [] offline 0 "" []))
  = Normal (JString "OFF")
  /\ fst (getPumpState (mkWorld JNull JNull [] online 0 "" []))
     = Normal (JString "OFF")
  /\ fst (getPumpState (mkWorld JNull (JString "ON") [] online 0 "" []))
     = Normal (JString "ON")
  /\ fst (getPumpState (mkWorld JNull (JString "OFF") [] online 0 "" []))
     = Normal (JString "OFF").
Proof.
  split; [| split; [| split]].
  - destruct (read_pump_state_defaults_to_off
                (mkWorld JNull (JString "ON") [] offline 0 "" []))
      as (_ & H & _).
    apply H. reflexivity.
  - destruct (read_pump_state_defaults_to_off
                (mkWorld JNull JNull [] online 0 "" []))
      as (_ & _ & H & _).
    apply H; reflexivity.
  - destruct (read_pump_state_defaults_to_off
                (mkWorld JNull (JString "ON") [] online 0 "" []))
      as (_ & _ & _ & H & _).
    apply H; reflexivity.
  - destruct (read_pump_state_defaults_to_off
                (mkWorld JNull (JString "OFF") [] online 0 "" []))
      as (_ & _ & _ & _ & H & _).
    apply (H eq_refl "O"%char "FF"). reflexivity.
Defined.

(** ** Writing the pump flag *)

Lemma not_pump_literal (state : string) :
  state <> "ON" -> state <> "OFF" ->
  negb (String.eqb state "ON") && negb (String.eqb state "OFF") = true.
Proof.
  intros H1 H2.
  apply String.eqb_neq in H1, H2. rewrite H1, H2. reflexivity.
Qed.

Lemma pump_literal (state : string) :
  state = "ON" \/ state = "OFF" ->
  negb (String.eqb state "ON") && negb (String.eqb state "OFF") = false.
Proof. intros [-> | ->]; reflexivity. Qed.

(** Anything but the two literals: nothing is requested. *)
Lemma setPumpState_invalid (state : string) (w : World) :
  state <> "ON" -> state <> "OFF" ->
  setPumpState state w
  = (Normal false,
     mkWorld (sensors w) (pump w) (actions w) (served w) (requests w)
             (clock w) (console w ++ ["Error setting pump state:"])).
Proof.
  intros H1 H2. unfold setPumpState, tryCatch.
  rewrite (not_pump_literal state H1 H2). reflexivity.
Qed.

(** The pump write is rejected: nothing is logged. *)
Lemma setPumpState_rejected (state : string) (w : World) :
  state = "ON" \/ state = "OFF" ->
  served w (requests w) = false ->
  setPumpState state w
  = (Normal false,
     mkWorld (sensors w) (pump w) (actions w) (served w) (S (requests w))
             (clock w) (console w ++ ["Error setting pump state:"])).
Proof.
  intros Hv Hs. unfold setPumpState, tryCatch.
  rewrite (pump_literal state Hv). unfold bind, setPump.
  rewrite (request_rejected _ _ w Hs). reflexivity.
Qed.

(** Both writes are served. *)
Lemma setPumpState_logged (state : string) (w : World) :
  state = "ON" \/ state = "OFF" ->
  served w (requests w) = true ->
  served w (S (requests w)) = true ->
  setPumpState state w
  = (Normal true,
     mkWorld (sensors w) (JString state)
             (actions w ++ [mkAction ("Pump:" ++ state) (clock w) "web_app"])
             (served w) (S (S (requests w))) (clock w) (console w)).
Proof.
  intros Hv Hs1 Hs2. unfold setPumpState, tryCatch.
  rewrite (pump_literal state Hv). unfold bind, setPump.
  rewrite (request_served _ _ w Hs1). cbn [counted sensors pump actions
    served requests clock console].
  unfold logAction, tryCatch, bind, now, pushAction.
  cbn [clock]. unfold request at 1.
  cbn [served requests]. rewrite Hs2. reflexivity.
Qed.

(** The pump write is served, the audit write is rejected: the
    rejection is absorbed by [logAction]. *)
Lemma setPumpState_unlogged (state : string) (w : World) :
  state = "ON" \/ state = "OFF" ->
  served w (requests w) = true ->
  served w (S (requests w)) = false ->
  setPumpState state w
  = (Normal true,
     mkWorld (sensors w) (JString state) (actions w)
             (served w) (S (S (requests w))) (clock w)
             (console w ++ ["Error logging action:"])).
Proof.
  intros Hv Hs1 Hs2. unfold setPumpState, tryCatch.
  rewrite (pump_literal state Hv). unfold bind, setPump.
  rewrite (request_served _ _ w Hs1). cbn [counted sensors pump actions
    served requests clock console].
  unfold logAction, tryCatch, bind, now, pushAction.
  cbn [clock]. unfold request at 1.
  cbn [served requests]. rewrite Hs2. reflexivity.
Qed.

(** C5, as amended.  [setPumpState] always resolves to a boolean.
    Called with anything but "ON" or "OFF" it resolves to false without
    issuing a request: the remote flag and the audit log are as before.
    When the pump write is rejected it resolves to false, flag and log
    unchanged.  When the pump write is served it resolves to true and the
    flag holds the new state; the audit log then gains exactly one entry,
    with the action, the clock reading and the user web_app, if the audit
    write is served too, and gains none if the audit write is rejected. *)
Theorem write_pump_state_outcomes :
  forall (state : string) (w : World),
    (exists b w', setPumpState state w = (Normal b, w'))
    /\ (state <> "ON" -> state <> "OFF" ->
        exists w', setPumpState state w = (Normal false, w')
                   /\ pump w' = pump w
                   /\ actions w' = actions w
                   /\ requests w' = requests w)
    /\ (state = "ON" \/ state = "OFF" ->
        served w (requests w) = false ->
        exists w', setPumpState state w = (Normal false, w')
                   /\ pump w' = pump w
                   /\ actions w' = actions w)
    /\ (state = "ON" \/ state = "OFF" ->
        served w (requests w) = true ->
        served w (S (requests w)) = true ->
        exists w', setPumpState state w = (Normal true, w')
                   /\ pump w' = JString state
                   /\ actions w'
                      = (actions w
                         ++ [mkAction ("Pump:" ++ state) (clock w)
                                      "web_app"])%list)
    /\ (state = "ON" \/ state = "OFF" ->
        served w (requests w) = true ->
        served w (S (requests w)) = false ->
        exists w', setPumpState state w = (Normal true, w')
                   /\ pump w' = JString state
                   /\ actions w' = actions w).
Proof.
  intros state w.
  assert (Hcases : (state = "ON" \/ state = "OFF")
                   \/ (state <> "ON" /\ state <> "OFF")).
  { destruct (String.eqb_spec state "ON") as [-> | H1]; [tauto |].
    destruct (String.eqb_spec state "OFF") as [-> | H2]; tauto. }
  split; [| split; [| split; [| split]]].
  - destruct Hcases as [Hv | [H1 H2]].
    + destruct (served w (requests w)) eqn:Hs1.
      * destruct (served w (S (requests w))) eqn:Hs2.
        -- rewrite (setPumpState_logged state w Hv Hs1 Hs2). eauto.
        -- rewrite (setPumpState_unlogged state w Hv Hs1 Hs2). eauto.
      * rewrite (setPumpState_rejected state w Hv Hs1). eauto.
    + rewrite (setPumpState_invalid state w H1 H2). eauto.
  - intros H1 H2. rewrite (setPumpState_invalid state w H1 H2).
    eexists. repeat split.
  - intros Hv Hs. rewrite (setPumpState_rejected state w Hv Hs).
    eexists. repeat split.
  - intros Hv Hs1 Hs2. rewrite (setPumpState_logged state w Hv Hs1 Hs2).
    eexists. repeat split.
  - intros Hv Hs1 Hs2. rewrite (setPumpState_unlogged state w Hv Hs1 Hs2).
    eexists. repeat split.
Qed.

Lemma write_pump_state_outcomes_witness :
  (exists w', setPumpState "MAYBE" firstRequestOnly = (Normal false, w')
              /\ pump w' = JString "OFF" /\ actions w' = []
              /\ requests w' = 0%nat)
  /\ (exists w',
         setPumpState "ON" (mkWorld JNull JNull [] offline 0 "" [])
         = (Normal false, w')
         /\ pump w' = JNull /\ actions w' = [])
  /\ (exists w',
         setPumpState "ON"
           (mkWorld JNull JNull [] online 0 "2025-06-01T06:00:00.000Z" [])
         = (Normal true, w')
         /\ pump w' = JString "ON"
         /\ actions w'
            = [mkAction "Pump:ON" "2025-06-01T06:00:00.000Z" "web_app"])
  /\ (exists w', setPumpState "ON" firstRequestOnly = (Normal true, w')
                 /\ pump w' = JString "ON" /\ actions w' = []).
Proof.
  split; [| split; [| split]].
  - destruct (write_pump_state_outcomes "MAYBE" firstRequestOnly)
      as (_ & H & _).
    apply H; discriminate.
  - destruct (write_pump_state_outcomes
                "ON" (mkWorld JNull JNull [] offline 0 "" []))
      as (_ & _ & H & _).
    apply H; [left; reflexivity | reflexivity].
  - destruct (write_pump_state_outcomes
                "ON" (mkWorld JNull JNull [] online 0
                              "2025-06-01T06:00:00.000Z" []))
      as (_ & _ & _ & H & _).
    apply H; [left; reflexivity | reflexivity | reflexivity].
  - destruct (write_pump_state_outcomes "ON" firstRequestOnly)
      as (_ & _ & _ & _ & H).
    apply H; [left; reflexivity | reflexivity | reflexivity].
Defined.

(** C5 as stated fails: with the pump write served and the audit write
    rejected, a transport failure occurred and the pump write succeeded,
    yet the call resolves to true and no entry was appended. *)
Lemma pump_write_true_without_audit_entry :
  served firstRequestOnly 0 = true
  /\ served firstRequestOnly 1 = false
  /\ fst (setPumpState "ON" firstRequestOnly) = Normal true
  /\ pump (snd (setPumpState "ON" firstRequestOnly)) = JString "ON"
  /\ actions (snd (setPumpState "ON" firstRequestOnly))
     = actions firstRequestOnly
  /\ ~ (exists entry,
          actions (snd (setPumpState "ON" firstRequestOnly))
          = (actions firstRequestOnly ++ [entry])%list).
Proof.
  repeat split.
  intros [entry H]. vm_compute in H. discriminate H.
Qed.

End RemoteFacts.

(* ================================================================== *)
(** * AuthService: what an authentication failure surfaces as *)
(* ================================================================== *)

Section AuthFacts.

Import AuthService.

Lemma switch_Some (cases : list (string * string)) (code message : string) :
  switch cases code = Some message -> In (code, message) cases.
Proof.
  induction cases as [| [label text] rest IH]; cbn; [discriminate |].
  destruct (String.eqb_spec code label) as [-> | Hne].
  - intros [= ->]. left. reflexivity.
  - intros H. right. apply IH, H.
Qed.

Lemma switch_known (code message : string) :
  In (code, message) knownErrors -> switch knownErrors code = Some message.
Proof.
  unfold knownErrors. cbn [In].
  intros H.
  repeat (destruct H as [[= <- <-] | H]; [reflexivity |]).
  destruct H.
Qed.

Lemma rethrowMapped_text {A} (body : Completion A) :
  throwsOnlyText (rethrowMapped body).
Proof. destruct body as [a | error]; cbn; eauto. Qed.

(** C6, as amended.  The switch has the ten listed codes, each with its
    fixed message, and for an error carrying one of them the message is
    the one of that code.
    For an error carrying none of them the message is the error's own
    message, unchanged, when it has one that is not empty, and the
    catch-all otherwise.  Whenever a call to the provider made by one of
    the seven operations throws an error, the operation throws the
    message computed from that very error, as a string; the two checks of
    the signed-in user throw their own text, [No user logged in], the
    same way.  No operation ever throws an error object. *)
Theorem auth_errors_surface_as_messages :
  forall error : Thrown,
    knownErrors
    = [ ("auth/user-not-found",
         "No user found with this email address.");
        ("auth/wrong-password",
         "Incorrect password. Please try again.");
        ("auth/email-already-in-use",
         "An account already exists with this email address.");
        ("auth/weak-password",
         "Password is too weak. Please choose a stronger password.");
        ("auth/invalid-email",
         "Invalid email address. Please check your email.");
        ("auth/user-disabled",
         "This account has been disabled. Please contact support.");
        ("auth/too-many-requests",
         "Too many failed attempts. Please try again later.");
        ("auth/operation-not-allowed",
         "This sign-in method is not allowed. Please contact support.");
        ("auth/invalid-credential",
         "Invalid credentials. Please check your email and password.");
        ("auth/requires-recent-login",
         "Please sign in again to perform this action.") ]
    /\ (forall code message : string,
           codeOf error = Some code ->
           In (code, message) knownErrors ->
           getAuthErrorMessage error = message)
    /\ ((forall code : string,
            codeOf error = Some code -> ~ In code (map fst knownErrors)) ->
        (forall message : string,
            messageOf error = Some message -> message <> "" ->
            getAuthErrorMessage error = message)
        /\ (messageOf error = None \/ messageOf error = Some "" ->
            getAuthErrorMessage error
            = "An authentication error occurred."))
    /\ (forall p email password,
           signInWithEmailAndPassword p email password = Throw error ->
           signIn p email password
           = Throw (ThrownString (getAuthErrorMessage error)))
    /\ (forall p email password displayName,
           createUserWithEmailAndPassword p email password = Throw error ->
           signUp p email password displayName
           = Throw (ThrownString (getAuthErrorMessage error)))
    /\ (forall p email password displayName user,
           createUserWithEmailAndPassword p email password = Normal user ->
           nonEmpty displayName = true ->
           updateProfile p user displayName None = Throw error ->
           signUp p email password displayName
           = Throw (ThrownString (getAuthErrorMessage error)))
    /\ (forall p,
           providerSignOut p = Throw error ->
           signOut p = Throw (ThrownString (getAuthErrorMessage error)))
    /\ (forall p email,
           providerSendPasswordResetEmail p email = Throw error ->
           sendPasswordResetEmail p email
           = Throw (ThrownString (getAuthErrorMessage error)))
    /\ (forall p displayName photoURL user,
           currentUser p = Some user ->
           updateProfile p user
             (if nonEmpty displayName then displayName else None)
             (if nonEmpty photoURL then photoURL else None)
           = Throw error ->
           updateUserProfile p displayName photoURL
           = Throw (ThrownString (getAuthErrorMessage error)))
    /\ (forall p currentPassword newPassword user address,
           loggedInWithEmail p = Some (user, address) ->
           reauthenticateWithCredential p user address currentPassword
           = Throw error
           \/ (reauthenticateWithCredential p user address currentPassword
               = Normal tt
               /\ updatePassword p user newPassword = Throw error) ->
           changePassword p currentPassword newPassword
           = Throw (ThrownString (getAuthErrorMessage error)))
    /\ (forall p password user address,
           loggedInWithEmail p = Some (user, address) ->
           reauthenticateWithCredential p user address password
           = Throw error
           \/ (reauthenticateWithCredential p user address password
               = Normal tt
               /\ deleteUser p user = Throw error) ->
           deleteAccount p password
           = Throw (ThrownString (getAuthErrorMessage error)))
    /\ (forall p displayName photoURL,
           currentUser p = None ->
           updateUserProfile p displayName photoURL
           = Throw (ThrownString "No user logged in"))
    /\ (forall p currentPassword newPassword password,
           loggedInWithEmail p = None ->
           changePassword p currentPassword newPassword
           = Throw (ThrownString "No user logged in")
           /\ deleteAccount p password
              = Throw (ThrownString "No user logged in"))
    /\ (forall p email password displayName photoURL newPassword,
           throwsOnlyText (signIn p email password)
           /\ throwsOnlyText (signUp p email password displayName)
           /\ throwsOnlyText (signOut p)
           /\ throwsOnlyText (sendPasswordResetEmail p email)
           /\ throwsOnlyText (updateUserProfile p displayName photoURL)
           /\ throwsOnlyText (changePassword p password newPassword)
           /\ throwsOnlyText (deleteAccount p password)).
Proof.
  intros error. split; [reflexivity |]. split; [| split].
  - intros code message Hcode Hin. unfold getAuthErrorMessage.
    rewrite Hcode, (switch_known code message Hin). reflexivity.
  - intros Hother.
    assert (Hswitch : match codeOf error with
                      | Some code => switch knownErrors code
                      | None => None
                      end = None).
    { destruct (codeOf error) as [code |] eqn:Hcode; [| reflexivity].
      destruct (switch knownErrors code) as [message |] eqn:Hs;
        [| reflexivity].
      apply switch_Some in Hs. apply (in_map fst) in Hs.
      destruct (Hother code eq_refl Hs). }
    unfold getAuthErrorMessage. rewrite Hswitch. split.
    + intros message -> Hne.
      destruct (String.eqb_spec message ""); [contradiction | reflexivity].
    + intros [-> | ->]; reflexivity.
  - split; [intros p e pw H; unfold signIn; rewrite H; reflexivity |].
    split; [intros p e pw d H; unfold signUp; rewrite H; reflexivity |].
    split; [intros p e pw d u H Hd Hu; unfold signUp;
            rewrite H; cbn [cbind]; rewrite Hd, Hu; reflexivity |].
    split; [intros p H; unfold signOut; rewrite H; reflexivity |].
    split; [intros p e H; unfold sendPasswordResetEmail; rewrite H;
            reflexivity |].
    split; [intros p d ph u Hu H; unfold updateUserProfile;
            rewrite Hu, H; reflexivity |].
    split; [intros p c n u a Hl [H | [H1 H2]]; unfold changePassword;
            rewrite Hl, ?H, ?H1; cbn [cbind]; rewrite ?H2; reflexivity |].
    split; [intros p pw u a Hl [H | [H1 H2]]; unfold deleteAccount;
            rewrite Hl, ?H, ?H1; cbn [cbind]; rewrite ?H2; reflexivity |].
    split; [intros p d ph Hu; unfold updateUserProfile; rewrite Hu;
            reflexivity |].
    split; [intros p c n pw Hl; unfold changePassword, deleteAccount;
            rewrite Hl; split; reflexivity |].
    intros p e pw d ph n. repeat split; apply rethrowMapped_text.
Qed.

Lemma auth_errors_surface_as_messages_witness :
  getAuthErrorMessage
    (ThrownError (mkError "FirebaseError" (Some "auth/wrong-password")
                          "Firebase: Error (auth/wrong-password)."))
  = "Incorrect password. Please try again."
  /\ signIn (failingWith networkFailure) "user@example.com" "secret"
     = Throw (ThrownString (getAuthErrorMessage networkFailure))
  /\ getAuthErrorMessage networkFailure
     = "Firebase: Error (auth/network-request-failed).".
Proof.
  split; [| split].
  - destruct (auth_errors_surface_as_messages
                (ThrownError
                   (mkError "FirebaseError" (Some "auth/wrong-password")
                            "Firebase: Error (auth/wrong-password).")))
      as (_ & H & _).
    apply (H "auth/wrong-password").
    + reflexivity.
    + right. left. reflexivity.
  - destruct (auth_errors_surface_as_messages networkFailure)
      as (_ & _ & _ & H & _).
    apply H. reflexivity.
  - destruct (auth_errors_surface_as_messages networkFailure)
      as (_ & _ & H & _).
    destruct H as (H & _).
    + intros code [= <-]. cbn [map fst knownErrors].
      intros Hin. cbn [In] in Hin.
      repeat (destruct Hin as [Hin | Hin]; [discriminate Hin |]).
      exact Hin.
    + apply H; [reflexivity | discriminate].
Defined.

(** C6 as stated fails: a network failure during sign-in carries a code
    outside the ten, and the provider's own message is what the caller
    receives; that message is not in the vocabulary. *)
Lemma provider_message_reaches_caller :
  signIn (failingWith networkFailure) "user@example.com" "secret"
  = Throw (ThrownString "Firebase: Error (auth/network-request-failed).")
  /\ ~ In "Firebase: Error (auth/network-request-failed)." vocabulary.
Proof.
  split; [reflexivity |].
  unfold vocabulary, knownErrors. cbn [map snd app In].
  intros H.
  repeat (destruct H as [H | H]; [discriminate H |]).
  exact H.
Qed.

End AuthFacts.

(* ================================================================== *)
(** * Facts about text *)
(* ================================================================== *)

Section TextFacts.

Lemma append_assoc (a b c : string) : (a ++ b) ++ c = a ++ (b ++ c).
Proof.
  induction a as [| x a IH]; cbn; [reflexivity |].
  f_equal. exact IH.
Qed.

Lemma free_app (c : ascii) (a b : string) :
  free c (a ++ b) = free c a && free c b.
Proof.
  induction a as [| x a IH]; cbn; [reflexivity |].
  rewrite IH, andb_assoc. reflexivity.
Qed.

Lemma only_app (allowed a b : string) :
  only allowed (a ++ b) = only allowed a && only allowed b.
Proof.
  induction a as [| x a IH]; cbn; [reflexivity |].
  rewrite IH, andb_assoc. reflexivity.
Qed.

(** A character outside the allowed ones occurs in no text made of
    allowed characters. *)
Lemma only_free (allowed s : string) (c : ascii) :
  only allowed s = true -> free c allowed = true -> free c s = true.
Proof.
  intros Hs Hc. induction s as [| x s IH]; cbn in *; [reflexivity |].
  apply andb_true_iff in Hs as [Hx Hs].
  rewrite (IH Hs), andb_true_r.
  destruct (Ascii.eqb_spec x c) as [-> | Hne]; [| reflexivity].
  rewrite Hc in Hx. discriminate Hx.
Qed.

Lemma only_substring (allowed s : string) (n m : nat) :
  only allowed s = true -> only allowed (substring n m s) = true.
Proof.
  revert n m. induction s as [| x s IH]; intros n m Hs.
  - destruct n, m; reflexivity.
  - cbn in Hs. apply andb_true_iff in Hs as [Hx Hs].
    destruct n as [| n]; cbn.
    + destruct m as [| m]; cbn; [reflexivity |].
      rewrite Hx. apply (IH 0%nat m Hs).
    + apply (IH n m Hs).
Qed.

Lemma only_zeros (k : nat) : only numeric (zeros k) = true.
Proof. induction k as [| k IH]; cbn; [reflexivity | exact IH]. Qed.

Lemma only_uint (d : Decimal.uint) :
  only numeric (NilEmpty.string_of_uint d) = true.
Proof. induction d; cbn; try reflexivity; assumption. Qed.

Lemma only_showZ (z : Z) : only numeric (showZ z) = true.
Proof.
  unfold showZ, NilZero.string_of_int, NilZero.string_of_uint.
  destruct (Z.to_int z) as [d | d]; destruct d; cbn;
    try reflexivity; apply only_uint.
Qed.

Lemma only_toFixed (digits : nat) (x : Number) :
  only numeric (toFixed digits x) = true.
Proof.
  destruct x as [| [|] | q]; try reflexivity.
  unfold toFixed.
  set (text := showZ _).
  assert (Hm : only numeric (zeros (S digits - String.length text) ++ text)
               = true).
  { rewrite only_app, only_zeros. apply only_showZ. }
  rewrite only_app. apply andb_true_iff. split.
  - destruct (Qneg_bool q); reflexivity.
  - destruct digits as [| digits]; [exact Hm |].
    rewrite !only_app, !only_substring by exact Hm. reflexivity.
Qed.

Lemma only_showFloor (x : Number) : only numeric (showFloor x) = true.
Proof. destruct x as [| [|] | q]; try reflexivity. apply only_showZ. Qed.

(** ** Splitting what was joined *)

Lemma split_free (c : ascii) (s : string) :
  free c s = true -> split c s = [s].
Proof.
  induction s as [| x s IH]; cbn; [reflexivity |].
  intros H. apply andb_true_iff in H as [Hx Hs].
  apply negb_true_iff in Hx. rewrite Hx, (IH Hs). reflexivity.
Qed.

Lemma split_app (c : ascii) (a rest : string) :
  free c a = true -> split c (a ++ String c rest) = a :: split c rest.
Proof.
  induction a as [| x a IH]; cbn.
  - intros _. rewrite Ascii.eqb_refl. reflexivity.
  - intros H. apply andb_true_iff in H as [Hx Ha].
    apply negb_true_iff in Hx. rewrite Hx, (IH Ha). reflexivity.
Qed.

(** Joining pieces with a separator none of them contains, then
    splitting at the separator, gives the pieces back in order. *)
Lemma split_concat (c : ascii) (pieces : list string) :
  pieces <> [] ->
  Forall (fun s => free c s = true) pieces ->
  split c (String.concat (String c EmptyString) pieces) = pieces.
Proof.
  induction pieces as [| a rest IH]; [congruence |].
  intros _ Hall. inversion Hall as [| ? ? Ha Hrest]; subst.
  destruct rest as [| b rest].
  - cbn. apply split_free, Ha.
  - change (String.concat (String c EmptyString) (a :: b :: rest))
      with (a ++ String c (String.concat (String c EmptyString) (b :: rest))).
    rewrite (split_app c a _ Ha), IH; [reflexivity | congruence | exact Hrest].
Qed.

Lemma free_concat (c : ascii) (sep : string) (pieces : list string) :
  free c sep = true ->
  Forall (fun s => free c s = true) pieces ->
  free c (String.concat sep pieces) = true.
Proof.
  intros Hsep Hall. induction Hall as [| a rest Ha Hrest IH]; [reflexivity |].
  destruct rest as [| b rest]; cbn; [exact Ha |].
  rewrite !free_app, Ha, Hsep. exact IH.
Qed.

(** ** Occurrences *)

Lemma append_empty_r (s : string) : s ++ EmptyString = s.
Proof. induction s as [| x s IH]; cbn; congruence. Qed.

Lemma occursIn_refl (s : string) : occursIn s s.
Proof.
  exists EmptyString, EmptyString. cbn. rewrite append_empty_r. reflexivity.
Qed.

Lemma occursIn_here (needle rest : string) : occursIn needle (needle ++ rest).
Proof. exists EmptyString, rest. reflexivity. Qed.

Lemma occursIn_skip (needle before hay : string) :
  occursIn needle hay -> occursIn needle (before ++ hay).
Proof.
  intros (b & a & ->). exists (before ++ b), a.
  rewrite append_assoc. reflexivity.
Qed.

Lemma occursIn_left (needle hay rest : string) :
  occursIn needle hay -> occursIn needle (hay ++ rest).
Proof.
  intros (b & a & ->). exists b, (a ++ rest).
  rewrite !append_assoc. reflexivity.
Qed.

Lemma prefix_app (needle rest : string) :
  String.prefix needle (needle ++ rest) = true.
Proof.
  induction needle as [| x needle IH]; cbn.
  - destruct rest; reflexivity.
  - destruct (ascii_dec x x); [exact IH | congruence].
Qed.

Lemma occursIn_includes (needle hay : string) :
  occursIn needle hay -> includes needle hay = true.
Proof.
  intros (before & after & ->).
  induction before as [| x before IH]; cbn [append].
  - destruct (needle ++ after) eqn:E; cbn [includes];
      rewrite <- E, prefix_app; reflexivity.
  - cbn [includes]. rewrite IH. apply orb_true_r.
Qed.

End TextFacts.

(* ================================================================== *)
(** * Reports: what the three exports contain *)
(* ================================================================== *)

Section ReportFacts.

Import Reports.

Lemma occursIn_trans (a b c : string) :
  occursIn a b -> occursIn b c -> occursIn a c.
Proof.
  intros (b1 & a1 & ->) (b2 & a2 & ->).
  exists (b2 ++ b1), (a1 ++ a2).
  rewrite !append_assoc. reflexivity.
Qed.

Lemma occursIn_concat (sep piece : string) (pieces : list string) :
  In piece pieces -> occursIn piece (String.concat sep pieces).
Proof.
  induction pieces as [| a rest IH]; [intros [] |].
  intros [-> | Hin].
  - destruct rest as [| b rest]; cbn [String.concat].
    + apply occursIn_refl.
    + apply occursIn_here.
  - destruct rest as [| b rest]; [destruct Hin |].
    change (String.concat sep (a :: b :: rest))
      with (a ++ sep ++ String.concat sep (b :: rest)).
    apply occursIn_skip, occursIn_skip, IH, Hin.
Qed.

Lemma numeric_free_lf : free lf numeric = true.
Proof. reflexivity. Qed.

Lemma numeric_free_comma : free ","%char numeric = true.
Proof. reflexivity. Qed.

(** A row's cells are free of any character that is neither in the
    date nor producible by number formatting. *)
Lemma cells_free (c : ascii) (row : ReportData) :
  free c numeric = true -> free c (date row) = true ->
  Forall (fun s => free c s = true) (cells row).
Proof.
  intros Hn Hd. unfold cells.
  repeat constructor; try exact Hd;
    (apply (only_free numeric); [| exact Hn]);
    first [apply only_toFixed | apply only_showZ].
Qed.

Lemma csvRow_free_lf (row : ReportData) :
  free lf (date row) = true -> free lf (csvRow row) = true.
Proof.
  intros Hd. unfold csvRow. apply free_concat; [reflexivity |].
  apply cells_free; [reflexivity | exact Hd].
Qed.

Lemma table_lines_free (data : list ReportData) :
  Forall (fun row => free lf (date row) = true) data ->
  Forall (fun s => free lf s = true)
         (String.concat "," headers :: map csvRow data).
Proof.
  intros Hall. constructor; [reflexivity |].
  induction Hall as [| row rest Hrow Hrest IH]; cbn [map]; constructor.
  - apply csvRow_free_lf, Hrow.
  - exact IH.
Qed.

Lemma typeLabel_free_lf (reportType : string) :
  free lf (typeLabel reportType) = true.
Proof. unfold typeLabel. destruct (String.eqb _ _); reflexivity. Qed.

Lemma runtime_free_lf (stats : TotalStats) : free lf (runtime stats) = true.
Proof.
  unfold runtime. rewrite !free_app.
  rewrite !(only_free numeric _ lf (only_showFloor _) numeric_free_lf).
  reflexivity.
Qed.

(** The aggregate figures are computed from the current dataset only. *)
Lemma getTotalStats_of_data (v v' : View) :
  getCurrentData v' = getCurrentData v -> getTotalStats v' = getTotalStats v.
Proof. intros H. unfold getTotalStats. rewrite H. reflexivity. Qed.

Lemma csv_lines (reportType today : string) (data : list ReportData)
      (stats : TotalStats) :
  Forall (fun row => free lf (date row) = true) data ->
  split lf (content (exportToCSV reportType data stats today))
  = String.concat "," headers :: map csvRow data.
Proof.
  intros Hall. cbn [exportToCSV content]. unfold nl.
  apply split_concat; [discriminate |].
  apply table_lines_free, Hall.
Qed.

Lemma excel_lines (reportType today : string) (data : list ReportData)
      (stats : TotalStats) :
  free lf today = true ->
  Forall (fun row => free lf (date row) = true) data ->
  split lf (content (exportToExcel reportType data stats today))
  = ([ "AgroSmart Irrigation Report";
       ("Generated: " ++ today)%string;
       ("Report Type: " ++ typeLabel reportType ++ " Report")%string;
       ("Total Water: " ++ toFixed 1 (totalWater stats) ++ "L")%string;
       ("Total Runtime: " ++ runtime stats)%string;
       ("Total Cycles: " ++ showZ (totalCycles stats))%string;
       ("Average Efficiency: " ++ toFixed 1 (avgEfficiency stats)
                               ++ "%")%string;
       ("Total Alerts: " ++ showZ (totalAlerts stats))%string;
       "";
       String.concat "," headers ]
     ++ map csvRow data)%list.
Proof.
  intros Htoday Hall. cbn [exportToExcel content]. unfold nl.
  apply split_concat; [discriminate |].
  apply Forall_app. split; [| apply table_lines_free in Hall;
                              inversion Hall; assumption].
  repeat constructor; rewrite ?free_app;
    rewrite ?Htoday, ?typeLabel_free_lf, ?runtime_free_lf,
      ?(only_free numeric _ lf (only_toFixed _ _) numeric_free_lf),
      ?(only_free numeric _ lf (only_showZ _) numeric_free_lf);
    reflexivity.
Qed.

Lemma csvRow_cells (row : ReportData) :
  free ","%char (date row) = true -> split ","%char (csvRow row) = cells row.
Proof.
  intros Hd. unfold csvRow.
  apply (split_concat ","%char); [discriminate |].
  apply cells_free; [reflexivity | exact Hd].
Qed.

(** Where each summary figure sits in the header block. *)
Lemma excel_figures (reportType today : string) (data : list ReportData)
      (stats : TotalStats) :
  Forall (fun figure =>
            occursIn figure
                     (content (exportToExcel reportType data stats today)))
         (summaryFigures stats).
Proof.
  cbn [exportToExcel content]. unfold summaryFigures.
  repeat constructor.
  - apply (occursIn_trans _
             ("Total Water: " ++ toFixed 1 (totalWater stats) ++ "L")).
    + apply occursIn_skip, occursIn_here.
    + apply occursIn_concat, in_or_app. left. cbn [In]. tauto.
  - apply (occursIn_trans _ ("Total Runtime: " ++ runtime stats)).
    + apply occursIn_skip, occursIn_refl.
    + apply occursIn_concat, in_or_app. left. cbn [In]. tauto.
  - apply (occursIn_trans _ ("Total Cycles: " ++ showZ (totalCycles stats))).
    + apply occursIn_skip, occursIn_refl.
    + apply occursIn_concat, in_or_app. left. cbn [In]. tauto.
  - apply (occursIn_trans _
             ("Average Efficiency: " ++ toFixed 1 (avgEfficiency stats)
                                     ++ "%")).
    + apply occursIn_skip, occursIn_here.
    + apply occursIn_concat, in_or_app. left. cbn [In]. tauto.
  - apply (occursIn_trans _ ("Total Alerts: " ++ showZ (totalAlerts stats))).
    + apply occursIn_skip, occursIn_refl.
    + apply occursIn_concat, in_or_app. left. cbn [In]. tauto.
Qed.

(** Where each summary figure sits in the hypertext document. *)
Lemma html_figures (reportType today : string) (data : list ReportData)
      (stats : TotalStats) :
  Forall (fun figure =>
            occursIn figure
                     (content (exportToPDF reportType data stats today)))
         (summaryFigures stats).
Proof.
  cbn [exportToPDF content]. unfold summaryFigures.
  repeat constructor.
  - do 5 apply occursIn_skip. apply occursIn_here.
  - do 7 apply occursIn_skip. apply occursIn_here.
  - do 9 apply occursIn_skip. apply occursIn_here.
  - do 11 apply occursIn_skip. apply occursIn_here.
  - do 13 apply occursIn_skip. apply occursIn_here.
Qed.

Lemma html_rows (reportType today : string) (data : list ReportData)
      (stats : TotalStats) :
  occursIn (String.concat "" (map htmlRow data))
           (content (exportToPDF reportType data stats today)).
Proof.
  cbn [exportToPDF content].
  do 15 apply occursIn_skip. apply occursIn_here.
Qed.

Lemma htmlRow_lines (row : ReportData) :
  free lf (date row) = true ->
  split lf (htmlRow row)
  = [ "";
    "              <tr>";
    ("                <td>" ++ date row ++ "</td>")%string;
    ("                <td>" ++ toFixed 2 (totalWaterUsed row)
                            ++ "</td>")%string;
    ("                <td>" ++ toFixed 1 (irrigationTime row)
                            ++ "</td>")%string;
    ("                <td>" ++ showZ (pumpCycles row) ++ "</td>")%string;
    ("                <td>" ++ toFixed 1 (avgSoilMoisture row)
                            ++ "</td>")%string;
    ("                <td>" ++ showZ (alerts row) ++ "</td>")%string;
    ("                <td>" ++ toFixed 1 (efficiency row)
                            ++ "</td>")%string;
    "              </tr>";
    "            " ].
Proof.
  intros Hd.
  set (lines := [ "";
                  "              <tr>";
                  ("                <td>" ++ date row ++ "</td>")%string;
                  ("                <td>" ++ toFixed 2 (totalWaterUsed row)
                                          ++ "</td>")%string;
                  ("                <td>" ++ toFixed 1 (irrigationTime row)
                                          ++ "</td>")%string;
                  ("                <td>" ++ showZ (pumpCycles row) ++ "</td>")%string;
                  ("                <td>" ++ toFixed 1 (avgSoilMoisture row)
                                          ++ "</td>")%string;
                  ("                <td>" ++ showZ (alerts row) ++ "</td>")%string;
                  ("                <td>" ++ toFixed 1 (efficiency row)
                                          ++ "</td>")%string;
                  "              </tr>";
                  "            " ]).
  assert (E : htmlRow row = String.concat nl lines).
  { unfold htmlRow, cells, htmlRowOpen, htmlCellBreak, htmlRowClose, lines.
    cbn [String.concat]. rewrite !append_assoc. reflexivity. }
  rewrite E. unfold nl. apply split_concat; [discriminate |].
  unfold lines.
  repeat constructor; rewrite ?free_app;
    rewrite ?Hd,
      ?(only_free numeric _ lf (only_toFixed _ _) numeric_free_lf),
      ?(only_free numeric _ lf (only_showZ _) numeric_free_lf);
    reflexivity.
Qed.

(** C9, as amended.  Each export is a function of the current dataset,
    the report type label and the generation date: two views with the same
    dataset and label export the same content on the same date.  The
    plain comma-delimited document depends on the dataset alone: it is
    the line of the seven column names followed by one row per record in
    dataset order, joined by line feeds, and nothing else.  The variant
    with a header block is the title, the generation date, the report type
    and the five summary figures, an empty line, and then the same table.
    When no date contains a line feed both documents read back line by
    line as exactly these lines, and a row whose date has no comma reads
    back at its commas as the seven cells of its record.  The hypertext
    document is the fixed template around the date, the type label, the
    five summary figures and one table row per record in dataset order;
    a table row whose date has no line feed reads back line by line as
    the opening tag of the row, the seven cells of its record, each
    between the tags of a cell, and the closing tag of the row. *)
Theorem exports_follow_dataset_type_and_date :
  forall (v : View) (today : string),
    (forall (v' : View) (format : Format),
        getCurrentData v' = getCurrentData v ->
        typeLabel (reportType v') = typeLabel (reportType v) ->
        content (exportReport v' today format)
        = content (exportReport v today format))
    /\ (forall (v' : View) (today' : string),
           getCurrentData v' = getCurrentData v ->
           content (exportReport v' today' csv)
           = content (exportReport v today csv))
    /\ content (exportReport v today csv)
       = String.concat nl
           (String.concat "," headers :: map csvRow (getCurrentData v))
    /\ content (exportReport v today excel)
       = String.concat nl
           ([ "AgroSmart Irrigation Report";
              ("Generated: " ++ today)%string;
              ("Report Type: " ++ typeLabel (reportType v)
                               ++ " Report")%string;
              ("Total Water: "
                 ++ toFixed 1 (totalWater (getTotalStats v)) ++ "L")%string;
              ("Total Runtime: " ++ runtime (getTotalStats v))%string;
              ("Total Cycles: "
                 ++ showZ (totalCycles (getTotalStats v)))%string;
              ("Average Efficiency: "
                 ++ toFixed 1 (avgEfficiency (getTotalStats v))
                 ++ "%")%string;
              ("Total Alerts: "
                 ++ showZ (totalAlerts (getTotalStats v)))%string;
              "";
              String.concat "," headers ]
            ++ map csvRow (getCurrentData v))%list
    /\ (Forall (fun row => free lf (date row) = true) (getCurrentData v) ->
        split lf (content (exportReport v today csv))
        = String.concat "," headers :: map csvRow (getCurrentData v))
    /\ (forall row : ReportData,
           free ","%char (date row) = true ->
           split ","%char (csvRow row)
           = [ date row;
               toFixed 2 (totalWaterUsed row);
               toFixed 1 (irrigationTime row);
               showZ (pumpCycles row);
               toFixed 1 (avgSoilMoisture row);
               showZ (alerts row);
               toFixed 1 (efficiency row) ])
    /\ split ","%char (String.concat "," headers)
       = [ "Date"; "Water Used (L)"; "Runtime (min)"; "Pump Cycles";
           "Avg Soil Moisture (%)"; "Alerts"; "Efficiency (%)" ]
    /\ (free lf today = true ->
        Forall (fun row => free lf (date row) = true) (getCurrentData v) ->
        split lf (content (exportReport v today excel))
        = ([ "AgroSmart Irrigation Report";
             ("Generated: " ++ today)%string;
             ("Report Type: " ++ typeLabel (reportType v)
                              ++ " Report")%string;
             ("Total Water: "
                ++ toFixed 1 (totalWater (getTotalStats v)) ++ "L")%string;
             ("Total Runtime: " ++ runtime (getTotalStats v))%string;
             ("Total Cycles: "
                ++ showZ (totalCycles (getTotalStats v)))%string;
             ("Average Efficiency: "
                ++ toFixed 1 (avgEfficiency (getTotalStats v))
                ++ "%")%string;
             ("Total Alerts: "
                ++ showZ (totalAlerts (getTotalStats v)))%string;
             "" ]
           ++ split lf (content (exportReport v today csv)))%list)
    /\ content (exportReport v today pdf)
       = htmlHead ++ today ++
         htmlAfterDate ++ typeLabel (reportType v) ++
         htmlAfterType ++ toFixed 1 (totalWater (getTotalStats v)) ++
         htmlAfterWater ++ runtime (getTotalStats v) ++
         htmlAfterRuntime ++ showZ (totalCycles (getTotalStats v)) ++
         htmlAfterCycles ++ toFixed 1 (avgEfficiency (getTotalStats v)) ++
         htmlAfterEfficiency ++ showZ (totalAlerts (getTotalStats v)) ++
         htmlAfterAlerts ++
         String.concat "" (map htmlRow (getCurrentData v)) ++
         htmlTail
    /\ (forall row : ReportData,
           free lf (date row) = true ->
           split lf (htmlRow row)
           = [ "";
             "              <tr>";
             ("                <td>" ++ date row ++ "</td>")%string;
             ("                <td>" ++ toFixed 2 (totalWaterUsed row)
                                     ++ "</td>")%string;
             ("                <td>" ++ toFixed 1 (irrigationTime row)
                                     ++ "</td>")%string;
             ("                <td>" ++ showZ (pumpCycles row) ++ "</td>")%string;
             ("                <td>" ++ toFixed 1 (avgSoilMoisture row)
                                     ++ "</td>")%string;
             ("                <td>" ++ showZ (alerts row) ++ "</td>")%string;
             ("                <td>" ++ toFixed 1 (efficiency row)
                                     ++ "</td>")%string;
             "              </tr>";
             "            " ])
    /\ Forall (fun figure =>
                 occursIn figure (content (exportReport v today excel))
                 /\ occursIn figure (content (exportReport v today pdf)))
              (summaryFigures (getTotalStats v)).
Proof.
  intros v today.
  split; [| split; [| split; [reflexivity | split; [reflexivity |]]]];
    [| | split; [| split; [| split; [| split; [| split; [| split]]]]]].
  - intros v' format Hdata Hlabel. unfold exportReport.
    rewrite (getTotalStats_of_data v v' Hdata), Hdata.
    destruct format; cbn [content exportToCSV exportToExcel exportToPDF];
      rewrite ?Hlabel; reflexivity.
  - intros v' today' Hdata. unfold exportReport.
    cbn [content exportToCSV]. rewrite Hdata. reflexivity.
  - intros Hall. apply csv_lines, Hall.
  - intros row Hrow. apply (csvRow_cells row Hrow).
  - reflexivity.
  - intros Htoday Hall. unfold exportReport.
    rewrite (csv_lines _ _ _ _ Hall).
    apply (excel_lines _ _ _ _ Htoday Hall).
  - reflexivity.
  - intros row Hrow. apply (htmlRow_lines row Hrow).
  - unfold exportReport.
    pose proof (excel_figures (reportType v) today (getCurrentData v)
                              (getTotalStats v)) as He.
    pose proof (html_figures (reportType v) today (getCurrentData v)
                             (getTotalStats v)) as Hh.
    rewrite Forall_forall in *. intros figure Hin. split; auto.
Qed.

Lemma exports_follow_dataset_type_and_date_witness :
  split lf (content (exportReport sampleView "1/1/2025" csv))
  = [ "Date,Water Used (L),Runtime (min),Pump Cycles,Avg Soil Moisture (%),Alerts,Efficiency (%)";
      "2025-01-01,20.46,30.0,2,50.3,0,75.0" ]
  /\ split lf (content (exportReport sampleView "1/1/2025" excel))
     = [ "AgroSmart Irrigation Report";
         "Generated: 1/1/2025";
         "Report Type: Daily Report";
         "Total Water: 20.5L";
         "Total Runtime: 0h 30m";
         "Total Cycles: 2";
         "Average Efficiency: 75.0%";
         "Total Alerts: 0";
         "";
         "Date,Water Used (L),Runtime (min),Pump Cycles,Avg Soil Moisture (%),Alerts,Efficiency (%)";
         "2025-01-01,20.46,30.0,2,50.3,0,75.0" ]
  /\ split lf (htmlRow sampleDay)
     = [ "";
         "              <tr>";
         "                <td>2025-01-01</td>";
         "                <td>20.46</td>";
         "                <td>30.0</td>";
         "                <td>2</td>";
         "                <td>50.3</td>";
         "                <td>0</td>";
         "                <td>75.0</td>";
         "              </tr>";
         "            " ].
Proof.
  destruct (exports_follow_dataset_type_and_date sampleView "1/1/2025")
    as (_ & _ & _ & _ & Hcsv & _ & _ & Hexcel & _ & Hrow & _).
  assert (Hdates : Forall (fun row => free lf (date row) = true)
                          (getCurrentData sampleView))
    by (repeat constructor).
  split; [| split].
  - rewrite (Hcsv Hdates). reflexivity.
  - rewrite (Hexcel eq_refl Hdates), (Hcsv Hdates). reflexivity.
  - rewrite (Hrow sampleDay eq_refl). reflexivity.
Defined.

(** C9 as stated fails.  The dataset of the sample view is one record.
    On two different days the variant with a header block differs, and so
    does the hypertext document, although the dataset is the same; and the
    plain comma-delimited document is the table alone: the total runtime
    figure, which both other exports print, does not occur in it. *)
Lemma exports_need_more_than_the_dataset :
  getCurrentData sampleView = [sampleDay]
  /\ content (exportReport sampleView "1/1/2025" excel)
     <> content (exportReport sampleView "1/2/2025" excel)
  /\ content (exportReport sampleView "1/1/2025" pdf)
     <> content (exportReport sampleView "1/2/2025" pdf)
  /\ In "0h 30m" (summaryFigures (getTotalStats sampleView))
  /\ ~ occursIn "0h 30m" (content (exportReport sampleView "1/1/2025" csv)).
Proof.
  split; [reflexivity |].
  split; [apply String.eqb_neq; vm_compute; reflexivity |].
  split; [apply String.eqb_neq; vm_compute; reflexivity |].
  split; [right; left; reflexivity |].
  intros H. apply occursIn_includes in H. vm_compute in H. discriminate H.
Qed.

End ReportFacts.

(* ================================================================== *)
(** * The dashboard: simulated readings, gauges, colours, clicks *)
(* ================================================================== *)

Section DashboardViewFacts.

Import Dashboard DashboardView.

(** One simulated reading: the previous value moved by a centred draw
    scaled by [k], clamped to [[lo, hi]].  It stays in the interval and
    moves to the side of the draw. *)
Lemma simulated_reading (lo hi k a r : Q) :
  (lo <= hi)%Q -> (0 <= k)%Q -> (0 <= r)%Q -> (r < 1)%Q ->
  (lo <= a)%Q -> (a <= hi)%Q ->
  exists b : Q,
    max (num lo) (min (num hi) (Fin a + (Fin r - num 0.5) * num k)%js) = Fin b
    /\ (lo <= b)%Q /\ (b <= hi)%Q
    /\ ((1 # 2 <= r)%Q -> (a <= b)%Q) /\ ((r <= 1 # 2)%Q -> (b <= a)%Q).
Proof.
  intros Hle Hk Hr0 Hr1 Hlo Hhi.
  set (moved := (Fin a + (Fin r - num 0.5) * num k)%js).
  assert (Hmoved : exists c, moved = Fin c
                             /\ (c == a + (r - (1 # 2)) * k)%Q).
  { eexists. split; [reflexivity |].
    rewrite !Qred_correct. field. }
  destruct Hmoved as (c & -> & Hc).
  unfold max, min, num. cbn [isNaN orb lt].
  destruct (Qlt_bool c (Qred hi)) eqn:E1; cbn [isNaN orb lt].
  - destruct (Qlt_bool (Qred lo) c) eqn:E2.
    + apply Qlt_bool_true in E1, E2. rewrite Qred_correct in E1, E2.
      exists c. split; [reflexivity |]. rewrite Hc in *. nra.
    + apply Qlt_bool_true in E1. apply Qlt_bool_false in E2.
      rewrite Qred_correct in E1, E2.
      exists (Qred lo). split; [reflexivity |].
      rewrite Qred_correct. rewrite Hc in *. nra.
  - apply Qlt_bool_false in E1. rewrite Qred_correct in E1.
    destruct (Qlt_bool (Qred lo) (Qred hi)) eqn:E2.
    + exists (Qred hi). split; [reflexivity |].
      rewrite Qred_correct. rewrite Hc in *. nra.
    + apply Qlt_bool_false in E2. rewrite !Qred_correct in E2.
      exists (Qred lo). split; [reflexivity |].
      rewrite Qred_correct. rewrite Hc in *. nra.
Qed.

Lemma simulatedUpdate_within (random : Random) (now : string)
      (prev : SensorData) :
  unitDraws random -> withinSimulatedRanges prev ->
  withinSimulatedRanges (simulatedUpdate random now prev).
Proof.
  intros Hdraws (H1 & H2 & H3 & H4 & H5).
  destruct prev as [soil sun rain tank ph p z1 z2 c t]; cbn in *.
  destruct soil as [| | a1]; [contradiction | contradiction |].
  destruct sun as [| | a2]; [contradiction | contradiction |].
  destruct rain as [| | a3]; [contradiction | contradiction |].
  destruct tank as [| | a4]; [contradiction | contradiction |].
  destruct ph as [| | a5]; [contradiction | contradiction |].
  cbn [between] in *.
  destruct (Hdraws 0%nat) as (r0 & E0 & ? & ?).
  destruct (Hdraws 1%nat) as (r1 & E1 & ? & ?).
  destruct (Hdraws 2%nat) as (r2 & E2 & ? & ?).
  destruct (Hdraws 3%nat) as (r3 & E3 & ? & ?).
  destruct (Hdraws 4%nat) as (r4 & E4 & ? & ?).
  unfold withinSimulatedRanges, simulatedUpdate; cbn [soilMoisture sunlight
    rainfall tankLevel phLevel].
  rewrite E0, E1, E2, E3, E4.
  destruct (simulated_reading 30 100 10 a1 r0) as (b1 & -> & ? & ? & _);
    try lra.
  destruct (simulated_reading 15 35 2 a2 r1) as (b2 & -> & ? & ? & _);
    try lra.
  destruct (simulated_reading 40 90 5 a3 r2) as (b3 & -> & ? & ? & _);
    try lra.
  destruct (simulated_reading 0 100 3 a4 r3) as (b4 & -> & ? & ? & _);
    try lra.
  destruct (simulated_reading 5.0 8.5 0.3 a5 r4) as (b5 & -> & ? & ? & _);
    try lra.
  cbn [between]. repeat split; lra.
Qed.

Lemma handle_within (e : Event) (prev : SensorData) :
  fairEvent e -> withinSimulatedRanges prev ->
  withinSimulatedRanges (handle e prev).
Proof.
  destruct e as [[|] | random now]; cbn [handle fairEvent toggleZone].
  - intros _ H. exact H.
  - intros _ H. exact H.
  - apply simulatedUpdate_within.
Qed.

(** The two computed gauges of a state whose readings are in range. *)
Lemma gauges_within (s : SensorData) :
  withinSimulatedRanges s ->
  between 0 100 (sunlightProgress s) /\ between 0 100 (phProgress s).
Proof.
  intros (_ & H2 & _ & _ & H5).
  unfold sunlightProgress, phProgress.
  destruct (sunlight s) as [| | a]; [contradiction | contradiction |].
  destruct (phLevel s) as [| | b]; [contradiction | contradiction |].
  cbn [between] in *.
  split.
  - assert (E : exists c, (((Fin a - num 15) / num 20) * num 100)%js = Fin c
                          /\ (c == (a - 15) * 5)%Q).
    { eexists. split; [reflexivity |]. rewrite !Qred_correct. field. }
    destruct E as (c & -> & Hc). cbn [between]. rewrite Hc. lra.
  - assert (E : exists c, (((Fin b - num 5) / num 3.5) * num 100)%js = Fin c
                          /\ (c == (b - 5) * (200 # 7))%Q).
    { eexists. split; [reflexivity |]. rewrite !Qred_correct. field. }
    destruct E as (c & -> & Hc). cbn [between]. rewrite Hc. lra.
Qed.

(** X1. From the initial state, whatever is clicked and whenever the
    simulation ticks, with every random draw in [[0, 1)]: at every render
    soil moisture is within 30-100, sunlight within 15-35, rainfall within
    40-90, tank level within 0-100 and pH within 5-8.5, and all five
    progress bars show a value between 0 and 100. *)
Theorem simulated_readings_and_gauges_stay_in_range :
  forall (mounted : string) (events : list Event),
    Forall fairEvent events ->
    Forall (fun s =>
              withinSimulatedRanges s
              /\ between 0 100 (soilMoistureProgress s)
              /\ between 0 100 (sunlightProgress s)
              /\ between 0 100 (rainfallProgress s)
              /\ between 0 100 (tankLevelProgress s)
              /\ between 0 100 (phProgress s))
           (initialState mounted :: renders events (initialState mounted)).
Proof.
  intros mounted events Hfair.
  assert (Hinit : withinSimulatedRanges (initialState mounted)).
  { unfold withinSimulatedRanges, initialState, num; cbn.
    repeat split; try discriminate; lra. }
  assert (Hall : Forall withinSimulatedRanges
                        (initialState mounted
                         :: renders events (initialState mounted))).
  { constructor; [exact Hinit |].
    revert Hinit. generalize (initialState mounted) as s.
    induction Hfair as [| e rest He Hrest IH]; intros s Hs; cbn [renders];
      constructor.
    - apply handle_within; assumption.
    - apply IH, handle_within; assumption. }
  eapply Forall_impl; [exact Hall |].
  intros s Hs. split; [exact Hs |].
  destruct (gauges_within s Hs) as (Hsun & Hph).
  destruct Hs as (H1 & H2 & H3 & H4 & H5).
  unfold soilMoistureProgress, rainfallProgress, tankLevelProgress.
  split; [| split; [exact Hsun | split; [| split; [exact H4 | exact Hph]]]].
  - destruct (soilMoisture s); cbn [between] in *; try contradiction. lra.
  - destruct (rainfall s); cbn [between] in *; try contradiction. lra.
Qed.

Lemma simulated_readings_and_gauges_stay_in_range_witness :
  between 0 100
    (phProgress
       (simulatedUpdate (fun _ => num 0.9) "10:00:03"
                        (toggleZone1 (initialState "10:00:00")))).
Proof.
  pose proof (simulated_readings_and_gauges_stay_in_range
                "10:00:00"
                [Click Zone1; Interval (fun _ => num 0.9) "10:00:03"]) as H.
  assert (Hfair : Forall fairEvent
                    [Click Zone1; Interval (fun _ => num 0.9) "10:00:03"]).
  { repeat constructor.
    intros i. exists (9 # 10).
    split; [reflexivity | split; [discriminate | reflexivity]]. }
  specialize (H Hfair).
  inversion H as [| ? ? _ Hrest1]. inversion Hrest1 as [| ? ? _ Hrest2].
  inversion Hrest2 as [| ? ? Hlast _]. apply Hlast.
Defined.

Lemma reading_follows_draw (lo hi k a r : Q) :
  (lo <= hi)%Q -> (0 <= k)%Q -> (0 <= r)%Q -> (r < 1)%Q ->
  (lo <= a)%Q -> (a <= hi)%Q ->
  let next :=
    max (num lo) (min (num hi) (Fin a + (Fin r - num 0.5) * num k)%js) in
  (lt (Fin r) (num 0.5) = false -> lt next (Fin a) = false)
  /\ (lt (num 0.5) (Fin r) = false -> lt (Fin a) next = false).
Proof.
  intros Hle Hk Hr0 Hr1 Hlo Hhi next. subst next.
  destruct (simulated_reading lo hi k a r Hle Hk Hr0 Hr1 Hlo Hhi)
    as (b & -> & _ & _ & Hup & Hdown).
  unfold num. cbn [lt]. split; intros Hdraw.
  - apply Qlt_bool_false in Hdraw. rewrite Qred_correct in Hdraw.
    apply Qlt_bool_false. apply Hup. lra.
  - apply Qlt_bool_false in Hdraw. rewrite Qred_correct in Hdraw.
    apply Qlt_bool_false. apply Hdown. lra.
Qed.

(** X2. In a state whose readings are within the simulated ranges, one
    simulated update moves each reading to the side of its own random
    draw: a draw that is not below one half does not lower the reading,
    and a draw that is not above one half does not raise it.  The
    clamping never reverses the direction. *)
Theorem simulated_reading_follows_its_draw :
  forall (random : Random) (now : string) (prev : SensorData),
    unitDraws random ->
    withinSimulatedRanges prev ->
    let next := simulatedUpdate random now prev in
    ((lt (random 0%nat) (num 0.5) = false ->
      lt (soilMoisture next) (soilMoisture prev) = false)
     /\ (lt (num 0.5) (random 0%nat) = false ->
         lt (soilMoisture prev) (soilMoisture next) = false))
    /\ ((lt (random 1%nat) (num 0.5) = false ->
         lt (sunlight next) (sunlight prev) = false)
        /\ (lt (num 0.5) (random 1%nat) = false ->
            lt (sunlight prev) (sunlight next) = false))
    /\ ((lt (random 2%nat) (num 0.5) = false ->
         lt (rainfall next) (rainfall prev) = false)
        /\ (lt (num 0.5) (random 2%nat) = false ->
            lt (rainfall prev) (rainfall next) = false))
    /\ ((lt (random 3%nat) (num 0.5) = false ->
         lt (tankLevel next) (tankLevel prev) = false)
        /\ (lt (num 0.5) (random 3%nat) = false ->
            lt (tankLevel prev) (tankLevel next) = false))
    /\ ((lt (random 4%nat) (num 0.5) = false ->
         lt (phLevel next) (phLevel prev) = false)
        /\ (lt (num 0.5) (random 4%nat) = false ->
            lt (phLevel prev) (phLevel next) = false)).
Proof.
  intros random now prev Hdraws (H1 & H2 & H3 & H4 & H5).
  destruct prev as [soil sun rain tank ph p z1 z2 c t]; cbn in *.
  destruct soil as [| | a1]; [contradiction | contradiction |].
  destruct sun as [| | a2]; [contradiction | contradiction |].
  destruct rain as [| | a3]; [contradiction | contradiction |].
  destruct tank as [| | a4]; [contradiction | contradiction |].
  destruct ph as [| | a5]; [contradiction | contradiction |].
  cbn [between] in *.
  destruct (Hdraws 0%nat) as (r0 & E0 & ? & ?).
  destruct (Hdraws 1%nat) as (r1 & E1 & ? & ?).
  destruct (Hdraws 2%nat) as (r2 & E2 & ? & ?).
  destruct (Hdraws 3%nat) as (r3 & E3 & ? & ?).
  destruct (Hdraws 4%nat) as (r4 & E4 & ? & ?).
  rewrite E0, E1, E2, E3, E4.
  split; [apply (reading_follows_draw 30 100 10 a1 r0); lra |].
  split; [apply (reading_follows_draw 15 35 2 a2 r1); lra |].
  split; [apply (reading_follows_draw 40 90 5 a3 r2); lra |].
  split; [apply (reading_follows_draw 0 100 3 a4 r3); lra |].
  apply (reading_follows_draw 5.0 8.5 0.3 a5 r4); lra.
Qed.

Lemma simulated_reading_follows_its_draw_witness :
  lt (soilMoisture (simulatedUpdate (fun _ => num 0.9) "10:00:03"
                                    (initialState "10:00:00")))
     (Fin 65)
  = false.
Proof.
  destruct (simulated_reading_follows_its_draw
              (fun _ => num 0.9) "10:00:03" (initialState "10:00:00"))
    as ((H & _) & _).
  - intros i. exists (9 # 10).
    split; [reflexivity | split; [discriminate | reflexivity]].
  - unfold withinSimulatedRanges, initialState, num; cbn.
    repeat split; try discriminate; lra.
  - apply H. reflexivity.
Defined.

Lemma stateAfter_controls (events : list Event) :
  forall s : SensorData,
    pumpDerived s ->
    controls (stateAfter events s)
    = (xorb (zone1Status s) (Nat.odd (clicksOn Zone1 events)),
       xorb (zone2Status s) (Nat.odd (clicksOn Zone2 events)),
       xorb (zone1Status s) (Nat.odd (clicksOn Zone1 events))
       || xorb (zone2Status s) (Nat.odd (clicksOn Zone2 events))).
Proof.
  induction events as [| e rest IH]; intros s Hs.
  - unfold stateAfter, controls. cbn. rewrite !xorb_false_r, Hs. reflexivity.
  - change (stateAfter (e :: rest) s) with (stateAfter rest (handle e s)).
    rewrite (IH (handle e s) (handle_preserves e s Hs)).
    destruct e as [[|] | random now]; cbn [handle toggleZone toggleZone1
      toggleZone2 simulatedUpdate zone1Status zone2Status clicksOn];
      rewrite ?Nat.odd_succ, <- ?Nat.negb_odd;
      destruct (zone1Status s), (zone2Status s),
        (Nat.odd (clicksOn Zone1 rest)), (Nat.odd (clicksOn Zone2 rest));
      reflexivity.
Qed.

(** X3. Starting from the initial state, after any sequence of clicks
    and simulated updates a zone is active exactly when it was clicked an
    odd number of times, and the main pump is on exactly when at least one
    zone was clicked an odd number of times; the order of the clicks and
    the simulated updates in between do not matter. *)
Theorem zones_follow_click_parity :
  forall (mounted : string) (events : list Event),
    controls (stateAfter events (initialState mounted))
    = (Nat.odd (clicksOn Zone1 events),
       Nat.odd (clicksOn Zone2 events),
       Nat.odd (clicksOn Zone1 events) || Nat.odd (clicksOn Zone2 events)).
Proof.
  intros mounted events.
  rewrite (stateAfter_controls events (initialState mounted)
                               (initialState_derived mounted)).
  reflexivity.
Qed.

(** X4. In a state whose pump flag is the OR of its zones, clicking the
    same zone twice gives back the very same state. *)
Theorem double_click_restores_state :
  forall (z : Zone) (s : SensorData),
    pumpDerived s -> toggleZone z (toggleZone z s) = s.
Proof.
  intros z [soil sun rain tank ph p z1 z2 c t] H.
  unfold pumpDerived in H. cbn in H. subst p.
  destruct z, z1, z2; reflexivity.
Qed.

Lemma double_click_restores_state_witness :
  toggleZone Zone2 (toggleZone Zone2 (toggleZone1 (initialState "10:00:00")))
  = toggleZone1 (initialState "10:00:00").
Proof.
  apply (double_click_restores_state
           Zone2 (toggleZone1 (initialState "10:00:00"))).
  reflexivity.
Defined.

(** X5. The colour of the soil moisture figure and the hint under its
    bar always agree: red with "Needs watering", amber with "Moderate",
    green with "Optimal"; and the tank figure is red exactly when the hint
    reads "Low water - Refill needed".  This holds for every state, a
    reading that is not a number included (it is drawn green, "Optimal"). *)
Theorem colours_agree_with_hints :
  forall s : SensorData,
    (getSoilMoistureColor (soilMoisture s) = "text-irrigation-danger"
     <-> soilMoistureHint s = "Needs watering")
    /\ (getSoilMoistureColor (soilMoisture s) = "text-irrigation-warning"
        <-> soilMoistureHint s = "Moderate")
    /\ (getSoilMoistureColor (soilMoisture s) = "text-irrigation-success"
        <-> soilMoistureHint s = "Optimal")
    /\ (getTankLevelColor (tankLevel s) = "text-irrigation-danger"
        <-> tankLevelHint s = "Low water - Refill needed")
    /\ (isNaN (soilMoisture s) = true ->
        getSoilMoistureColor (soilMoisture s) = "text-irrigation-success"
        /\ soilMoistureHint s = "Optimal").
Proof.
  intros s.
  unfold getSoilMoistureColor, soilMoistureHint, getTankLevelColor,
    tankLevelHint.
  repeat split;
    try (destruct (lt (soilMoisture s) (num 40)),
           (lt (soilMoisture s) (num 60)); intros H;
         first [reflexivity | discriminate H]);
    try (destruct (lt (tankLevel s) (num 20)), (lt (tankLevel s) (num 50));
         intros H; first [reflexivity | discriminate H]);
    destruct (soilMoisture s); try discriminate; reflexivity.
Qed.

Lemma colours_agree_with_hints_witness :
  getSoilMoistureColor (soilMoisture (initialState "10:00:00"))
  = "text-irrigation-success"
  /\ soilMoistureHint (initialState "10:00:00") = "Optimal".
Proof.
  destruct (colours_agree_with_hints (initialState "10:00:00"))
    as (_ & _ & (_ & H) & _).
  split; [apply H |]; reflexivity.
Defined.

End DashboardViewFacts.

(* ================================================================== *)
(** * Reading numerals back *)
(* ================================================================== *)

Section NumeralFacts.

Import Numeral.

Lemma uintValue_pos (d : Decimal.uint) (p : positive) :
  uintValue d (Zpos p) = Zpos (Pos.of_uint_acc d p).
Proof.
  revert p. induction d; intros p; cbn [uintValue Pos.of_uint_acc];
    try reflexivity;
    rewrite <- IHd; f_equal; lia.
Qed.

Lemma uintValue_zero (d : Decimal.uint) :
  uintValue d 0 = Z.of_N (Pos.of_uint d).
Proof.
  induction d; cbn; try reflexivity; try exact IHd;
    match goal with
    | |- _ = Z.pos (Pos.of_uint_acc d ?p) => exact (uintValue_pos d p)
    end.
Qed.

Lemma takeDigits_uint (d : Decimal.uint) (tail : string) :
  endsNumeral tail = true ->
  forall (acc : Z) (count : nat),
    takeDigits (NilEmpty.string_of_uint d ++ tail) acc count
    = (uintValue d acc, (count + Decimal.nb_digits d)%nat, tail).
Proof.
  intros Htail.
  induction d; intros acc count;
    cbn [NilEmpty.string_of_uint append uintValue Decimal.nb_digits
         takeDigits];
    [ rewrite Nat.add_0_r;
      destruct tail as [| c rest]; [reflexivity |];
      cbn [takeDigits]; cbn [endsNumeral] in Htail;
      destruct (digitValue c); [discriminate | reflexivity]
    | match goal with
      | |- context [digitValue ?c] =>
          let v := eval vm_compute in (digitValue c) in
          change (digitValue c) with v
      end;
      cbv iota beta; rewrite IHd, ?Z.add_0_r, Nat.add_succ_comm;
      reflexivity .. ].
Qed.

(** A numeral followed by text that cannot continue it reads as the
    number it writes. *)
Lemma unsignedDecimal_uint (d : Decimal.uint) (tail : string) :
  d <> Decimal.Nil -> endsNumeral tail = true ->
  unsignedDecimal (NilEmpty.string_of_uint d ++ tail)
  = Some (inject_Z (uintValue d 0) * Qpower 10 0)%Q.
Proof.
  intros Hd Htail. unfold unsignedDecimal.
  rewrite (takeDigits_uint d tail Htail).
  assert (Hdot : match tail with
                 | String "."%char r => takeDigits r (uintValue d 0) 0%nat
                 | _ => (uintValue d 0, 0%nat, tail)
                 end = (uintValue d 0, 0%nat, tail)).
  { destruct tail as [| c rest]; [reflexivity |].
    cbn [endsNumeral] in Htail.
    destruct c as [[] [] [] [] [] [] [] []];
      first [reflexivity | discriminate Htail]. }
  rewrite Hdot.
  assert (Hexp : exponentPart tail = 0%Z).
  { destruct tail as [| c rest]; [reflexivity |].
    cbn [endsNumeral] in Htail.
    destruct c as [[] [] [] [] [] [] [] []];
      first [reflexivity | discriminate Htail]. }
  rewrite Hexp.
  destruct d; try congruence; cbn [Decimal.nb_digits Nat.add]; reflexivity.
Qed.

Lemma trimStart_blank (ws s : string) :
  blank ws = true -> trimStart (ws ++ s) = trimStart s.
Proof.
  induction ws as [| c ws IH]; cbn; [reflexivity |].
  intros H. apply andb_true_iff in H as [Hc Hws].
  rewrite Hc. apply IH, Hws.
Qed.

(** How a numeral starts: no white space, no sign, not [Infinity]. *)
Lemma numeral_head (d : Decimal.uint) (tail : string) :
  d <> Decimal.Nil ->
  let s := NilEmpty.string_of_uint d ++ tail in
  trimStart s = s
  /\ match s with
     | String "+"%char r => (false, r)
     | String "-"%char r => (true, r)
     | _ => (false, s)
     end = (false, s)
  /\ String.prefix "Infinity" s = false.
Proof.
  intros Hd. destruct d; [congruence | ..]; cbn; repeat split.
Qed.

Lemma num_integer (v : Z) : num (inject_Z v * Qpower 10 0) = ofZ v.
Proof.
  unfold num, ofZ. f_equal.
  transitivity (Qred (inject_Z v)).
  - apply Qred_complete. change (Qpower 10 0) with 1%Q. ring.
  - apply Qcanon.Qred_identity. cbn. apply Z.gcd_1_r.
Qed.

Lemma num_integer_opp (v : Z) :
  num (- (inject_Z v * Qpower 10 0)) = ofZ (- v).
Proof.
  unfold num, ofZ. f_equal.
  transitivity (Qred (inject_Z (- v))).
  - apply Qred_complete. rewrite inject_Z_opp.
    change (Qpower 10 0) with 1%Q. ring.
  - apply Qcanon.Qred_identity. cbn. apply Z.gcd_1_r.
Qed.

Lemma parseFloatString_uint (d : Decimal.uint) (tail : string) :
  d <> Decimal.Nil -> endsNumeral tail = true ->
  parseFloatString (NilEmpty.string_of_uint d ++ tail)
  = ofZ (Z.of_uint d)
  /\ parseFloatString (String "-" (NilEmpty.string_of_uint d ++ tail))
     = ofZ (- Z.of_uint d).
Proof.
  intros Hd Htail.
  destruct (numeral_head d tail Hd) as (Htrim & Hsign & Hinf).
  assert (Hvalue : uintValue d 0 = Z.of_uint d)
    by (rewrite uintValue_zero; reflexivity).
  split.
  - unfold parseFloatString. rewrite Htrim, Hsign, Hinf.
    rewrite (unsignedDecimal_uint d tail Hd Htail), num_integer, Hvalue.
    reflexivity.
  - unfold parseFloatString. cbn [trimStart isWhiteSpace].
    change (isWhiteSpace "-") with false. cbv iota.
    rewrite Hinf.
    rewrite (unsignedDecimal_uint d tail Hd Htail), num_integer_opp, Hvalue.
    reflexivity.
Qed.

Lemma to_int_shape (z : Z) :
  exists d : Decimal.uint,
    d <> Decimal.Nil
    /\ ((showZ z = NilEmpty.string_of_uint d /\ z = Z.of_uint d)
        \/ (showZ z = String "-" (NilEmpty.string_of_uint d)
            /\ z = (- Z.of_uint d)%Z)).
Proof.
  pose proof (DecimalZ.of_to z) as Hz.
  unfold showZ, NilZero.string_of_int.
  destruct z as [| p | p]; cbn [Z.to_int] in *.
  - exists (Decimal.D0 Decimal.Nil). split; [discriminate |].
    left. split; reflexivity.
  - exists (Pos.to_uint p).
    split; [apply DecimalPos.Unsigned.to_uint_nonnil |].
    left. split; [| symmetry; exact Hz].
    unfold NilZero.string_of_uint.
    destruct (Pos.to_uint p) eqn:E; try reflexivity.
    exfalso. eapply DecimalPos.Unsigned.to_uint_nonnil, E.
  - exists (Pos.to_uint p).
    split; [apply DecimalPos.Unsigned.to_uint_nonnil |].
    right. split; [| symmetry; exact Hz].
    unfold NilZero.string_of_uint.
    destruct (Pos.to_uint p) eqn:E; try reflexivity.
    exfalso. eapply DecimalPos.Unsigned.to_uint_nonnil, E.
Qed.

Lemma parseFloatString_numeral (ws : string) (z : Z) (tail : string) :
  blank ws = true -> endsNumeral tail = true ->
  parseFloatString (ws ++ showZ z ++ tail) = ofZ z.
Proof.
  intros Hws Htail.
  assert (Htrim : forall s, parseFloatString (ws ++ s) = parseFloatString s).
  { intros s. unfold parseFloatString.
    rewrite (trimStart_blank ws s Hws). reflexivity. }
  rewrite Htrim.
  destruct (to_int_shape z) as (d & Hd & [(-> & ->) | (-> & ->)]).
  - apply (parseFloatString_uint d tail Hd Htail).
  - cbn [append]. apply (parseFloatString_uint d tail Hd Htail).
Qed.

End NumeralFacts.

(* ================================================================== *)
(** * DataService: more about readings and the pump flag *)
(* ================================================================== *)

Section ServiceFacts.

Import DataService Numeral Connectivity.

(** X6. Text that holds the numeral of an integer of magnitude at most
    2^53 (the integers that binary64 holds exactly), possibly after white
    space and possibly followed by other text that does not continue the
    numeral (a unit, a percent sign, letters), is read by [parseFloat] as
    that integer; a sensor field holding such text is normalised exactly
    as if it held the number itself. *)
Theorem text_with_numeric_prefix_reads_as_number :
  forall (ws : string) (z : Z) (tail : string),
    (Z.abs z <= 2 ^ 53)%Z ->
    blank ws = true ->
    endsNumeral tail = true ->
    parseFloat (JString (ws ++ showZ z ++ tail)) = ofZ z
    /\ forall (data : JsValue) (key : FirebaseSensorFields),
         truthy data = true ->
         readField data key = Normal (JString (ws ++ showZ z ++ tail)) ->
         parseAndValidateSensorValue data key
         = Normal
             match VALIDATION_RANGES (mapFirebaseToSensorData key) with
             | Some range =>
                 Num.max (min range) (Num.min (max range) (ofZ z))
             | None => ofZ z
             end.
Proof.
  intros ws z tail _ Hws Htail.
  assert (Hparse : parseFloat (JString (ws ++ showZ z ++ tail)) = ofZ z)
    by (apply parseFloatString_numeral; assumption).
  split; [exact Hparse |].
  intros data key Ht Hr.
  rewrite (parseAndValidate_read data key _ Ht Hr), Hparse. reflexivity.
Qed.

Lemma text_with_numeric_prefix_reads_as_number_witness :
  parseAndValidateSensorValue
    (JObject (<["TankLevel" := JString " 45%"]> ∅)) TankLevel
  = Normal (Fin 45).
Proof.
  assert (Hexact : (Z.abs 45 <= 2 ^ 53)%Z) by (vm_compute; discriminate).
  destruct (text_with_numeric_prefix_reads_as_number " " 45 "%"
              Hexact eq_refl eq_refl) as (_ & H).
  apply (H (JObject (<["TankLevel" := JString " 45%"]> ∅)) TankLevel);
    reflexivity.
Defined.

Lemma clamp_inside_value (lo hi a : Q) :
  (lo <= a)%Q -> (a <= hi)%Q ->
  exists b : Q,
    Num.max (num lo) (Num.min (num hi) (Fin a)) = Fin b /\ (b == a)%Q.
Proof.
  intros Hlo Hhi. unfold Num.max, Num.min, num. cbn [isNaN orb lt].
  destruct (Qlt_bool a (Qred hi)) eqn:E1; cbn [isNaN orb lt].
  - destruct (Qlt_bool (Qred lo) a) eqn:E2.
    + exists a. split; reflexivity.
    + apply Qlt_bool_false in E2. rewrite Qred_correct in E2.
      exists (Qred lo). split; [reflexivity |]. rewrite Qred_correct. lra.
  - apply Qlt_bool_false in E1. rewrite Qred_correct in E1.
    destruct (Qlt_bool (Qred lo) (Qred hi)) eqn:E2.
    + exists (Qred hi). split; [reflexivity |]. rewrite Qred_correct. lra.
    + apply Qlt_bool_false in E2. rewrite !Qred_correct in E2.
      exists (Qred lo). split; [reflexivity |]. rewrite Qred_correct. lra.
Qed.

(** X7. A field whose parsed value already lies within the field's
    declared range comes out of the normalisation with the same value:
    clamping changes nothing inside the range. *)
Theorem in_range_values_pass_unchanged :
  forall (data : JsValue) (key : FirebaseSensorFields) (raw : JsValue)
         (lo hi a : Q),
    truthy data = true ->
    readField data key = Normal raw ->
    parseFloat raw = Fin a ->
    VALIDATION_RANGES (mapFirebaseToSensorData key)
    = Some (mkRange (num lo) (num hi)) ->
    (lo <= a)%Q -> (a <= hi)%Q ->
    exists b : Q,
      parseAndValidateSensorValue data key = Normal (Fin b) /\ (b == a)%Q.
Proof.
  intros data key raw lo hi a Ht Hr Hp Hrange Hlo Hhi.
  rewrite (parseAndValidate_read data key raw Ht Hr), Hp, Hrange.
  assert (Hpresent : isNull raw || isUndefined raw = false).
  { apply parseFloat_number_present. rewrite Hp. reflexivity. }
  rewrite Hpresent. cbn [orb isNaN min max].
  destruct (clamp_inside_value lo hi a Hlo Hhi) as (b & -> & Hb).
  exists b. split; [reflexivity | exact Hb].
Qed.

Lemma in_range_values_pass_unchanged_witness :
  exists b : Q,
    parseAndValidateSensorValue scenarioReading Humidity = Normal (Fin b)
    /\ (b == 111 # 2)%Q.
Proof.
  apply (in_range_values_pass_unchanged
           scenarioReading Humidity (JString "55.5") 0 100 (111 # 2));
    try reflexivity; discriminate.
Defined.

Lemma defaults_within : withinDeclaredRanges DEFAULT_SENSOR_DATA.
Proof.
  unfold withinDeclaredRanges, DEFAULT_SENSOR_DATA, num; cbn.
  repeat split; discriminate.
Qed.

Lemma fetch_once_total (w : World) :
  exists (r : SensorData) (w' : World),
    getSensorData w = (Normal r, w')
    /\ withinDeclaredRanges r
    /\ (served w (requests w) = false -> r = DEFAULT_SENSOR_DATA).
Proof.
  destruct (served w (requests w)) eqn:Hs.
  - destruct (getSensorData_served w Hs) as (r & Hr & ->).
    exists r, (counted w). split; [reflexivity |].
    split; [| discriminate].
    destruct (sensorDataLiteral_within (sensors w)) as (r' & Hr' & Hin).
    congruence.
  - rewrite (getSensorData_rejected w Hs).
    eexists _, _. split; [reflexivity |].
    split; [apply defaults_within | reflexivity].
Qed.

(** X8. [getSensorData] issues exactly one request, changes nothing in
    the store, and whatever the store holds and whether or not the request
    is served, the record it resolves to has every field within its
    declared range. *)
Theorem fetch_once_is_in_range_and_read_only :
  forall w : World,
    exists (r : SensorData) (w' : World),
      getSensorData w = (Normal r, w')
      /\ withinDeclaredRanges r
      /\ sensors w' = sensors w
      /\ pump w' = pump w
      /\ actions w' = actions w
      /\ requests w' = S (requests w).
Proof.
  intros w. destruct (served w (requests w)) eqn:Hs.
  - destruct (getSensorData_served w Hs) as (r & Hr & ->).
    exists r, (counted w). split; [reflexivity |].
    split; [| repeat split].
    destruct (sensorDataLiteral_within (sensors w)) as (r' & Hr' & Hin).
    congruence.
  - rewrite (getSensorData_rejected w Hs).
    eexists _, _. split; [reflexivity |].
    split; [apply defaults_within | repeat split].
Qed.

Lemma orElse_truthy (v : JsValue) : truthy (orElse v (JString "OFF")) = true.
Proof. unfold orElse. destruct (truthy v) eqn:E; [exact E | reflexivity]. Qed.

(** X9. The pump state read by [getPumpState], and every state the
    stream listener passes to its callback, is truthy: never [null],
    [undefined], the empty text, zero or [false]. *)
Theorem pump_state_is_never_empty :
  (forall w : World,
      exists (v : JsValue) (w' : World),
        getPumpState w = (Normal v, w') /\ truthy v = true)
  /\ (forall (callback : JsValue -> M unit) (state : JsValue) (w : World),
         exists v : JsValue,
           truthy v = true
           /\ handlePumpData callback state w
              = tryCatch (callback v)
                  (fun _ =>
                     bind (consoleError "Error parsing pump state:")
                          (fun _ => callback (JString "OFF")))
                  w).
Proof.
  split.
  - intros w. destruct (served w (requests w)) eqn:Hs.
    + rewrite (getPumpState_served w Hs).
      eexists _, _. split; [reflexivity | apply orElse_truthy].
    + rewrite (getPumpState_rejected w Hs).
      eexists _, _. split; reflexivity.
  - intros callback state w.
    exists (orElse state (JString "OFF")).
    split; [apply orElse_truthy | reflexivity].
Qed.

(** X10. A pump state written with [setPumpState] is what
    [getPumpState] reads next, whenever the pump write and the later read
    are served; the audit write in between may fail. *)
Theorem written_pump_state_is_read_back :
  forall (state : string) (w : World),
    state = "ON" \/ state = "OFF" ->
    served w (requests w) = true ->
    served w (S (S (requests w))) = true ->
    fst (setPumpState state w) = Normal true
    /\ fst (getPumpState (snd (setPumpState state w)))
       = Normal (JString state).
Proof.
  intros state w Hv Hs1 Hs3.
  assert (Hstate : orElse (JString state) (JString "OFF") = JString state)
    by (destruct Hv as [-> | ->]; reflexivity).
  destruct (served w (S (requests w))) eqn:Hs2.
  - rewrite (setPumpState_logged state w Hv Hs1 Hs2). cbn [fst snd].
    split; [reflexivity |].
    rewrite getPumpState_served; [| exact Hs3].
    cbn [fst pump]. rewrite Hstate. reflexivity.
  - rewrite (setPumpState_unlogged state w Hv Hs1 Hs2). cbn [fst snd].
    split; [reflexivity |].
    rewrite getPumpState_served; [| exact Hs3].
    cbn [fst pump]. rewrite Hstate. reflexivity.
Qed.

Lemma written_pump_state_is_read_back_witness :
  fst (getPumpState
         (snd (setPumpState "ON" (mkWorld JNull JNull [] online 0 "" []))))
  = Normal (JString "ON").
Proof.
  apply (written_pump_state_is_read_back
           "ON" (mkWorld JNull JNull [] online 0 "" []));
    [left; reflexivity | reflexivity | reflexivity].
Defined.

(** X11. [checkConnection] never throws and changes nothing in the
    store; it resolves to true exactly when its request is served and the
    value at [.info/connected] is the boolean true.  A rejected request and
    any other value, truthy ones such as 1 or "true" included, give
    false. *)
Theorem connection_check_is_strict :
  forall (info : JsValue) (w : World),
    exists (b : bool) (w' : World),
      checkConnection info w = (Normal b, w')
      /\ (b = true
          <-> served w (requests w) = true /\ info = JBoolean true)
      /\ sensors w' = sensors w
      /\ pump w' = pump w
      /\ actions w' = actions w.
Proof.
  intros info w. unfold checkConnection, tryCatch, bind, request.
  destruct (served w (requests w)) eqn:Hs.
  - eexists _, _. split; [reflexivity |]. split; [| repeat split].
    split.
    + intros H. split; [reflexivity |].
      destruct info as [| | [|] | | | |]; cbn in H;
        first [discriminate H | reflexivity].
    + intros [_ ->]. reflexivity.
  - eexists _, _. split; [reflexivity |]. split; [| repeat split].
    split; [discriminate | intros [? _]; discriminate].
Qed.

Lemma connection_check_total (info : JsValue) (w : World) :
  exists b : bool,
    checkConnection info w
    = (Normal b,
       if served w (requests w) then counted w
       else mkWorld (sensors w) (pump w) (actions w) (served w)
                    (S (requests w)) (clock w)
                    (console w ++ ["Connection check failed:"]))
    /\ (b = true
        <-> served w (requests w) = true /\ info = JBoolean true).
Proof.
  unfold checkConnection, tryCatch, bind, request.
  destruct (served w (requests w)) eqn:Hs.
  - eexists. split; [reflexivity |]. split.
    + intros H. split; [reflexivity |].
      destruct info as [| | [|] | | | |]; cbn in H;
        first [discriminate H | reflexivity].
    + intros [_ ->]. reflexivity.
  - eexists. split; [reflexivity |].
    split; [discriminate | intros [? _]; discriminate].
Qed.

End ServiceFacts.

(* ================================================================== *)
(** * usePumpControl and useSensorData *)
(* ================================================================== *)

Section PumpControlFacts.

Import PumpControl.

Lemma flipped_is_literal (shown : JsValue) :
  (if isON shown then "OFF" else "ON") = "ON"
  \/ (if isON shown then "OFF" else "ON") = "OFF".
Proof. destruct (isON shown); [right | left]; reflexivity. Qed.

Lemma togglePump_served (shown : JsValue) (ui : PumpControlState)
      (w : World) :
  served w (requests w) = true ->
  exists w',
    togglePump shown ui w
    = (Normal tt,
       updatePumpStatus (JString (if isON shown then "OFF" else "ON"))
                        (startLoading ui),
       w')
    /\ pump w' = JString (if isON shown then "OFF" else "ON").
Proof.
  intros Hs. unfold togglePump, htry, hbind, setState, await.
  destruct (served w (S (requests w))) eqn:Hs2.
  - rewrite (setPumpState_logged _ w (flipped_is_literal shown) Hs Hs2).
    eexists. split; reflexivity.
  - rewrite (setPumpState_unlogged _ w (flipped_is_literal shown) Hs Hs2).
    eexists. split; reflexivity.
Qed.

Lemma togglePump_rejected (shown : JsValue) (ui : PumpControlState)
      (w : World) :
  served w (requests w) = false ->
  exists w',
    togglePump shown ui w
    = (Normal tt,
       handleError "Failed to update pump status" (startLoading ui),
       w')
    /\ pump w' = pump w /\ actions w' = actions w.
Proof.
  intros Hs. unfold togglePump, htry, hbind, setState, await.
  rewrite (setPumpState_rejected _ w (flipped_is_literal shown) Hs).
  eexists. repeat split.
Qed.

(** X12. [togglePump] never throws and always ends with [loading]
    false.  It always sends "ON" or "OFF", whatever status is shown, so the
    write never fails validation.  If the pump write is served, the shown
    status becomes the opposite literal, the error is cleared and the
    remote flag equals the shown status; if it is rejected, the shown
    status and the remote flag stay as they were and the error reads
    "Failed to update pump status".  The "Failed to toggle pump" branch is
    never taken. *)
Theorem toggle_pump_outcomes :
  forall (ui : PumpControlState) (w : World),
    exists (ui' : PumpControlState) (w' : World),
      togglePump (pumpStatus ui) ui w = (Normal tt, ui', w')
      /\ loading ui' = false
      /\ connected ui' = connected ui
      /\ error ui' <> Some "Failed to toggle pump"
      /\ (served w (requests w) = true ->
          error ui' = None
          /\ pumpStatus ui'
             = JString (if isON (pumpStatus ui) then "OFF" else "ON")
          /\ pump w' = pumpStatus ui')
      /\ (served w (requests w) = false ->
          error ui' = Some "Failed to update pump status"
          /\ pumpStatus ui' = pumpStatus ui
          /\ pump w' = pump w
          /\ actions w' = actions w).
Proof.
  intros ui w. destruct (served w (requests w)) eqn:Hs.
  - destruct (togglePump_served (pumpStatus ui) ui w Hs) as (w' & -> & Hp).
    eexists _, w'. split; [reflexivity |].
    cbn [loading connected error pumpStatus updatePumpStatus startLoading].
    repeat split; try discriminate; try assumption.
  - destruct (togglePump_rejected (pumpStatus ui) ui w Hs)
      as (w' & -> & Hp & Ha).
    eexists _, w'. split; [reflexivity |].
    cbn [loading connected error pumpStatus handleError startLoading].
    repeat split; try discriminate; try assumption.
Qed.

Lemma toggle_pump_outcomes_witness :
  exists (ui' : PumpControlState) (w' : World),
    togglePump (JString "OFF") initialState
               (mkWorld JNull (JString "OFF") [] online 0 "" [])
    = (Normal tt, ui', w')
    /\ pumpStatus ui' = JString "ON"
    /\ pump w' = JString "ON".
Proof.
  destruct (toggle_pump_outcomes
              initialState (mkWorld JNull (JString "OFF") [] online 0 "" []))
    as (ui' & w' & Hrun & _ & _ & _ & Hok & _).
  destruct (Hok eq_refl) as (_ & Hshown & Hremote).
  exists ui', w'. split; [exact Hrun |].
  split; [exact Hshown |]. rewrite Hremote. exact Hshown.
Defined.

(** X13. [setPumpStatus] called with anything but "ON" or "OFF" sends
    nothing to the store: the shown status and the remote flag stay as they
    were, [loading] ends false and the error reads "Failed to set pump
    status".  Called with "ON" or "OFF" over a served pump write it shows
    the requested status, which is then also the remote flag. *)
Theorem set_pump_status_outcomes :
  forall (status : string) (ui : PumpControlState) (w : World),
    exists (ui' : PumpControlState) (w' : World),
      setPumpStatus status ui w = (Normal tt, ui', w')
      /\ loading ui' = false
      /\ (status <> "ON" -> status <> "OFF" ->
          error ui' = Some "Failed to set pump status"
          /\ pumpStatus ui' = pumpStatus ui
          /\ requests w' = requests w
          /\ pump w' = pump w
          /\ actions w' = actions w)
      /\ (status = "ON" \/ status = "OFF" ->
          served w (requests w) = true ->
          error ui' = None
          /\ pumpStatus ui' = JString status
          /\ pump w' = JString status).
Proof.
  intros status ui w.
  unfold setPumpStatus, htry, hbind, setState, await.
  destruct (String.eqb_spec status "ON") as [-> | H1];
    [| destruct (String.eqb_spec status "OFF") as [-> | H2]].
  - destruct (served w (requests w)) eqn:Hs1.
    + destruct (served w (S (requests w))) eqn:Hs2;
        [ rewrite (setPumpState_logged "ON" w (or_introl eq_refl) Hs1 Hs2)
        | rewrite (setPumpState_unlogged "ON" w (or_introl eq_refl) Hs1 Hs2) ];
        eexists _, _; (split; [reflexivity |]);
        (split; [reflexivity |]); (split; [congruence |]);
        intros _ _; repeat split.
    + rewrite (setPumpState_rejected "ON" w (or_introl eq_refl) Hs1).
      eexists _, _. split; [reflexivity |]. split; [reflexivity |].
      split; [congruence | discriminate].
  - destruct (served w (requests w)) eqn:Hs1.
    + destruct (served w (S (requests w))) eqn:Hs2;
        [ rewrite (setPumpState_logged "OFF" w (or_intror eq_refl) Hs1 Hs2)
        | rewrite (setPumpState_unlogged "OFF" w (or_intror eq_refl)
                                         Hs1 Hs2) ];
        eexists _, _; (split; [reflexivity |]);
        (split; [reflexivity |]); (split; [congruence |]);
        intros _ _; repeat split.
    + rewrite (setPumpState_rejected "OFF" w (or_intror eq_refl) Hs1).
      eexists _, _. split; [reflexivity |]. split; [reflexivity |].
      split; [congruence | discriminate].
  - rewrite (setPumpState_invalid status w H1 H2).
    eexists _, _. split; [reflexivity |]. split; [reflexivity |].
    split; [intros _ _; repeat split | intros [-> | ->]; congruence].
Qed.

Lemma set_pump_status_outcomes_witness :
  exists (ui' : PumpControlState) (w' : World),
    setPumpStatus "MAYBE" initialState firstRequestOnly
    = (Normal tt, ui', w')
    /\ error ui' = Some "Failed to set pump status"
    /\ requests w' = 0%nat
    /\ pump w' = JString "OFF".
Proof.
  destruct (set_pump_status_outcomes "MAYBE" initialState firstRequestOnly)
    as (ui' & w' & Hrun & _ & Hbad & _).
  destruct Hbad as (He & _ & Hr & Hp & _); [discriminate | discriminate |].
  exists ui', w'. repeat split; assumption.
Defined.

(** X14. Refreshing and initialising the pump control never end in an
    error: [getPumpState] and [checkConnection] absorb every failure.
    After either, [loading] is false, the error is cleared and the shown
    status is truthy; when the status request is rejected, "OFF" is shown.
    After initialising, [connected] is true exactly when the connection
    request was served with the boolean true. *)
Theorem pump_refresh_and_initialise_never_fail :
  forall (info : JsValue) (ui : PumpControlState) (w : World),
    (exists (ui' : PumpControlState) (w' : World),
        refreshStatus ui w = (Normal tt, ui', w')
        /\ loading ui' = false
        /\ error ui' = None
        /\ truthy (pumpStatus ui') = true
        /\ (served w (requests w) = false ->
            pumpStatus ui' = JString "OFF"))
    /\ (exists (ui' : PumpControlState) (w' : World),
           initializePumpControl info ui w = (Normal tt, ui', w')
           /\ loading ui' = false
           /\ error ui' = None
           /\ truthy (pumpStatus ui') = true
           /\ requests w' = S (S (requests w))
           /\ (connected ui' = true
               <-> served w (requests w) = true /\ info = JBoolean true)
           /\ (served w (S (requests w)) = false ->
               pumpStatus ui' = JString "OFF")).
Proof.
  intros info ui w. split.
  - unfold refreshStatus, htry, hbind, setState, await.
    destruct (served w (requests w)) eqn:Hs.
    + rewrite (getPumpState_served w Hs).
      eexists _, _. split; [reflexivity |].
      cbn [loading error pumpStatus updatePumpStatus].
      repeat split; [apply orElse_truthy | discriminate].
    + rewrite (getPumpState_rejected w Hs).
      eexists _, _. split; [reflexivity |]. repeat split.
  - unfold initializePumpControl, htry, hbind, setState, await.
    unfold Connectivity.checkConnection, tryCatch, bind, request.
    destruct (served w (requests w)) eqn:Hs1; cbn [ret consoleError].
    + destruct (served w (S (requests w))) eqn:Hs2.
      * rewrite getPumpState_served by exact Hs2.
        eexists _, _. split; [reflexivity |].
        cbn [loading error pumpStatus connected updatePumpStatus
             updateConnectionStatus requests counted pump].
        split; [reflexivity |]. split; [reflexivity |].
        split; [apply orElse_truthy |]. split; [reflexivity |].
        split; [| discriminate].
        split.
        -- intros H. split; [reflexivity |].
           destruct info as [| | [|] | | | |]; cbn in H;
             first [discriminate H | reflexivity].
        -- intros [_ ->]. reflexivity.
      * rewrite getPumpState_rejected by exact Hs2.
        eexists _, _. split; [reflexivity |].
        cbn [loading error pumpStatus connected updatePumpStatus
             updateConnectionStatus requests counted pump].
        split; [reflexivity |]. split; [reflexivity |].
        split; [reflexivity |]. split; [reflexivity |].
        split; [| reflexivity].
        split.
        -- intros H. split; [reflexivity |].
           destruct info as [| | [|] | | | |]; cbn in H;
             first [discriminate H | reflexivity].
        -- intros [_ ->]. reflexivity.
    + destruct (served w (S (requests w))) eqn:Hs2.
      * rewrite getPumpState_served by exact Hs2.
        eexists _, _. split; [reflexivity |].
        cbn [loading error pumpStatus connected updatePumpStatus
             updateConnectionStatus requests counted pump].
        split; [reflexivity |]. split; [reflexivity |].
        split; [apply orElse_truthy |]. split; [reflexivity |].
        split; [| discriminate].
        split; [discriminate | intros [? _]; discriminate].
      * rewrite getPumpState_rejected by exact Hs2.
        eexists _, _. split; [reflexivity |].
        cbn [loading error pumpStatus connected updatePumpStatus
             updateConnectionStatus requests counted pump].
        split; [reflexivity |]. split; [reflexivity |].
        split; [reflexivity |]. split; [reflexivity |].
        split; [| reflexivity].
        split; [discriminate | intros [? _]; discriminate].
Qed.

Lemma pump_refresh_and_initialise_never_fail_witness :
  exists (ui' : PumpControlState) (w' : World),
    refreshStatus initialState (mkWorld JNull (JString "ON") [] offline 0 "" [])
    = (Normal tt, ui', w')
    /\ error ui' = None
    /\ pumpStatus ui' = JString "OFF".
Proof.
  destruct (pump_refresh_and_initialise_never_fail
              JNull initialState
              (mkWorld JNull (JString "ON") [] offline 0 "" []))
    as ((ui' & w' & Hrun & _ & He & _ & Hoff) & _).
  exists ui', w'. split; [exact Hrun |]. split; [exact He |].
  apply Hoff. reflexivity.
Defined.

Lemma togglePump_online (shown : JsValue) (ui : PumpControlState)
      (w : World) :
  (forall n, served w n = true) ->
  togglePump shown ui w
  = (Normal tt,
     updatePumpStatus (JString (if isON shown then "OFF" else "ON"))
                      (startLoading ui),
     mkWorld (sensors w)
             (JString (if isON shown then "OFF" else "ON"))
             (actions w
              ++ [mkAction ("Pump:" ++ (if isON shown then "OFF" else "ON"))
                           (clock w) "web_app"])
             (served w) (S (S (requests w))) (clock w) (console w)).
Proof.
  intros Hs. unfold togglePump, htry, hbind, setState, await.
  rewrite (setPumpState_logged _ w (flipped_is_literal shown)
                               (Hs _) (Hs _)).
  reflexivity.
Qed.

(** X15. With the store reachable throughout and "ON" or "OFF" shown,
    toggling the pump twice shows the other status in between and ends
    with the original status shown and stored as the remote flag; each of
    the two toggles leaves one entry in the audit log. *)
Theorem toggling_twice_restores_pump_status :
  forall (ui : PumpControlState) (w : World),
    pumpStatus ui = JString "ON" \/ pumpStatus ui = JString "OFF" ->
    (forall n, served w n = true) ->
    exists (ui1 ui2 : PumpControlState) (w1 w2 : World),
      togglePump (pumpStatus ui) ui w = (Normal tt, ui1, w1)
      /\ togglePump (pumpStatus ui1) ui1 w1 = (Normal tt, ui2, w2)
      /\ pumpStatus ui1 <> pumpStatus ui
      /\ pumpStatus ui2 = pumpStatus ui
      /\ pump w2 = pumpStatus ui
      /\ length (actions w2) = S (S (length (actions w))).
Proof.
  intros ui w Hshown Hs.
  rewrite (togglePump_online (pumpStatus ui) ui w Hs).
  eexists _, _, _, _. split; [reflexivity |].
  rewrite togglePump_online by (intros n; apply Hs).
  split; [reflexivity |].
  cbn [pumpStatus updatePumpStatus pump actions].
  rewrite !length_app. cbn [length].
  destruct Hshown as [-> | ->]; cbn;
    (repeat split; [discriminate | lia]).
Qed.

Lemma toggling_twice_restores_pump_status_witness :
  exists (ui1 ui2 : PumpControlState) (w1 w2 : World),
    togglePump (JString "OFF") initialState
               (mkWorld JNull (JString "OFF") [] online 0 "" [])
    = (Normal tt, ui1, w1)
    /\ togglePump (pumpStatus ui1) ui1 w1 = (Normal tt, ui2, w2)
    /\ pumpStatus ui2 = JString "OFF"
    /\ pump w2 = JString "OFF"
    /\ length (actions w2) = 2%nat.
Proof.
  destruct (toggling_twice_restores_pump_status
              initialState
              (mkWorld JNull (JString "OFF") [] online 0 "" []))
    as (ui1 & ui2 & w1 & w2 & H1 & H2 & _ & H3 & H4 & H5).
  - right. reflexivity.
  - intros n. reflexivity.
  - exists ui1, ui2, w1, w2. repeat split; assumption.
Defined.

End PumpControlFacts.

Section SensorHookFacts.

Import SensorHook.

(** X16. Refreshing and initialising the sensor view never end in an
    error, because [getSensorData] and [checkConnection] absorb every
    failure.  After either, [loading] is false, the error is cleared and
    every shown reading is within its declared range; when the data
    request is rejected the all-zero defaults are shown, with no error. *)
Theorem sensor_refresh_and_initialise_never_fail :
  forall (info : JsValue) (ui : SensorDataState) (w : World),
    (exists (ui' : SensorDataState) (w' : World),
        refreshData ui w = (Normal tt, ui', w')
        /\ loading ui' = false
        /\ error ui' = None
        /\ DataService.withinDeclaredRanges (data ui')
        /\ (served w (requests w) = false ->
            data ui' = DataService.DEFAULT_SENSOR_DATA))
    /\ (exists (ui' : SensorDataState) (w' : World),
           initializeData info ui w = (Normal tt, ui', w')
           /\ loading ui' = false
           /\ error ui' = None
           /\ DataService.withinDeclaredRanges (data ui')
           /\ (connected ui' = true
               <-> served w (requests w) = true /\ info = JBoolean true)
           /\ (served w (S (requests w)) = false ->
               data ui' = DataService.DEFAULT_SENSOR_DATA)).
Proof.
  intros info ui w. split.
  - unfold refreshData, htry, hbind, setState, await.
    destruct (fetch_once_total w) as (r & w' & Hrun & Hin & Hoff).
    rewrite Hrun. eexists _, _. split; [reflexivity |].
    cbn [loading error data updateSensorData].
    split; [reflexivity |]. split; [reflexivity |].
    split; [exact Hin | exact Hoff].
  - unfold initializeData, htry, hbind, setState, await.
    destruct (connection_check_total info w)
      as (b & Hcheck & Hb).
    rewrite Hcheck.
    match goal with
    | |- context [DataService.getSensorData ?w1] =>
        destruct (fetch_once_total w1) as (r & w' & Hrun & Hin & Hoff)
    end.
    rewrite Hrun. eexists _, _. split; [reflexivity |].
    cbn [loading error data connected updateSensorData
         updateConnectionStatus].
    split; [reflexivity |]. split; [reflexivity |].
    split; [exact Hin |]. split; [exact Hb |].
    intros Hs2. apply Hoff.
    destruct (served w (requests w)); exact Hs2.
Qed.

Lemma sensor_refresh_and_initialise_never_fail_witness :
  exists (ui' : SensorDataState) (w' : World),
    refreshData initialState
                (mkWorld DataService.scenarioReading JNull [] offline 0 "" [])
    = (Normal tt, ui', w')
    /\ error ui' = None
    /\ data ui' = DataService.DEFAULT_SENSOR_DATA.
Proof.
  destruct (sensor_refresh_and_initialise_never_fail
              JNull initialState
              (mkWorld DataService.scenarioReading JNull [] offline 0 "" []))
    as ((ui' & w' & Hrun & _ & He & _ & Hoff) & _).
  exists ui', w'. split; [exact Hrun |]. split; [exact He |].
  apply Hoff. reflexivity.
Defined.

End SensorHookFacts.

(* ================================================================== *)
(** * useAuth: what the hook shows after an operation *)
(* ================================================================== *)

Section AuthHookFacts.

Import AuthHook.

(** What an operation of the hook does with the outcome of the service
    call it awaits. *)
Lemma guarded {A} (call : Completion A) (s : AuthState) (w : World) :
  htry (hbind (setState startLoading)
              (fun _ => hbind (await (lift call)) (fun _ => hret tt)))
       (fun caught => hbind (setState (failWith caught))
                            (fun _ => hthrow caught))
       s w
  = match call with
    | Normal _ => (Normal tt, startLoading s, w)
    | Throw caught => (Throw caught, failWith caught (startLoading s), w)
    end.
Proof.
  unfold htry, hbind, setState, await, lift, hthrow, hret.
  destruct call; reflexivity.
Qed.

Lemma guarded_unit (call : Completion unit) (s : AuthState) (w : World) :
  htry (hbind (setState startLoading) (fun _ => await (lift call)))
       (fun caught => hbind (setState (failWith caught))
                            (fun _ => hthrow caught))
       s w
  = match call with
    | Normal _ => (Normal tt, startLoading s, w)
    | Throw caught => (Throw caught, failWith caught (startLoading s), w)
    end.
Proof.
  unfold htry, hbind, setState, await, lift, hthrow.
  destruct call as [[] |]; reflexivity.
Qed.

(** X17. Each of the seven operations of the auth hook makes the
    service call of the same name, with the arguments it was given, and
    is decided by the outcome of that call.  If the call succeeds the
    operation returns normally with the error cleared and [loading] still
    true: it is the auth-state listener that sets [loading] back to
    false.  If the call throws, the operation throws the very value the
    service threw, and the state holds that same value as error with
    [loading] false.  The user and the store are left as they were; the
    listener stores the user it is given and clears [loading] and the
    error. *)
Theorem auth_hook_operation_outcomes :
  forall (p : AuthService.Provider) (s : AuthState) (w : World),
    let outcome {A} (call : Completion A) :=
      match call with
      | Normal _ =>
          (Normal tt,
           {| user := user s; loading := true; error := None |}, w)
      | Throw caught =>
          (Throw caught,
           {| user := user s; loading := false; error := Some caught |}, w)
      end in
    (forall email password,
        signIn p email password s w
        = outcome (AuthService.signIn p email password))
    /\ (forall email password displayName,
           signUp p email password displayName s w
           = outcome (AuthService.signUp p email password displayName))
    /\ signOut p s w = outcome (AuthService.signOut p)
    /\ (forall email,
           sendPasswordReset p email s w
           = outcome (AuthService.sendPasswordResetEmail p email))
    /\ (forall displayName photoURL,
           updateProfile p displayName photoURL s w
           = outcome (AuthService.updateUserProfile p displayName photoURL))
    /\ (forall currentPassword newPassword,
           changePassword p currentPassword newPassword s w
           = outcome
               (AuthService.changePassword p currentPassword newPassword))
    /\ (forall password,
           deleteAccount p password s w
           = outcome (AuthService.deleteAccount p password))
    /\ (forall current : option AuthService.User,
           onAuthStateChanged current s w
           = (Normal tt,
              {| user := current; loading := false; error := None |}, w)).
Proof.
  intros p s w outcome. subst outcome. cbv beta.
  split; [intros; apply guarded |].
  split; [intros; apply guarded |].
  split; [apply guarded_unit |].
  split; [intros; apply guarded_unit |].
  split; [intros; apply guarded_unit |].
  split; [intros; apply guarded_unit |].
  split; [intros; apply guarded_unit |].
  intros current. reflexivity.
Qed.

End AuthHookFacts.

(* ================================================================== *)
(** * AuthService: the password rule *)
(* ================================================================== *)

Section PasswordFacts.

Import Validation.

Lemma length_append (a b : string) :
  String.length (a ++ b) = (String.length a + String.length b)%nat.
Proof. induction a as [| c a IH]; cbn; [reflexivity | now rewrite IH]. Qed.

Lemma hasChar_append (allowed : ascii -> bool) (a b : string) :
  hasChar allowed (a ++ b) = hasChar allowed a || hasChar allowed b.
Proof.
  induction a as [| c a IH]; cbn; [reflexivity |].
  rewrite IH, orb_assoc. reflexivity.
Qed.

Lemma validatePassword_accepts (password : string) :
  validatePassword password = None
  <-> (6 <= String.length password)%nat
      /\ hasChar isUpper password = true
      /\ hasChar isLower password = true
      /\ hasChar isDigit password = true.
Proof.
  unfold validatePassword.
  destruct (Nat.ltb_spec (String.length password) 6) as [Hlt | Hge].
  - split; [discriminate | intros (H & _); lia].
  - destruct (hasChar isUpper password), (hasChar isLower password),
      (hasChar isDigit password); cbn;
      (split; [try discriminate; intros _; repeat split; exact Hge
              | intros (_ & H1 & H2 & H3);
                first [reflexivity | discriminate]]).
Qed.

(** X18. [validatePassword] accepts a password exactly when it has at
    least six characters and contains an uppercase letter, a lowercase
    letter and a digit.  Accepted passwords stay accepted when text is
    added before or after them, and nothing shorter than six characters
    is accepted, whatever it contains. *)
Theorem password_rule :
  forall password : string,
    (validatePassword password = None
     <-> (6 <= String.length password)%nat
         /\ hasChar isUpper password = true
         /\ hasChar isLower password = true
         /\ hasChar isDigit password = true)
    /\ (validatePassword password = None ->
        forall before after : string,
          validatePassword (before ++ password ++ after) = None)
    /\ ((String.length password < 6)%nat ->
        validatePassword password
        = Some "Password must be at least 6 characters long.").
Proof.
  intros password. split; [apply validatePassword_accepts |]. split.
  - intros Hok before after.
    apply validatePassword_accepts in Hok as (Hlen & Hu & Hl & Hd).
    apply validatePassword_accepts.
    rewrite !length_append, !hasChar_append, Hu, Hl, Hd, !orb_true_r.
    cbn [orb]. repeat split; lia.
  - intros Hlt. unfold validatePassword.
    destruct (Nat.ltb_spec (String.length password) 6); [reflexivity | lia].
Qed.

Lemma password_rule_witness :
  validatePassword ("x" ++ "Abcde1" ++ "!") = None
  /\ validatePassword "Ab1"
     = Some "Password must be at least 6 characters long.".
Proof.
  split.
  - destruct (password_rule "Abcde1") as (_ & H & _).
    apply (H eq_refl "x" "!").
  - destruct (password_rule "Ab1") as (_ & _ & H).
    apply H. cbn. lia.
Defined.

End PasswordFacts.

(* ================================================================== *)
(** * AuthService: the e-mail pattern *)
(* ================================================================== *)

Section EmailFacts.

Import Validation.

Lemma append_empty_inv (a b : string) :
  a ++ b = EmptyString -> a = EmptyString /\ b = EmptyString.
Proof. destruct a; cbn; [intros ->; split; reflexivity | discriminate]. Qed.

Lemma nullable_Matches (r : Regex) :
  nullable r = true <-> Matches r EmptyString.
Proof.
  split.
  - induction r as [| | allowed | r1 IH1 r2 IH2 | r1 IH1 r2 IH2 | r1 IH1];
      cbn; intros Hn; try discriminate.
    + constructor.
    + apply andb_true_iff in Hn as (H1 & H2).
      apply (MSeq r1 r2 EmptyString EmptyString); auto.
    + apply orb_true_iff in Hn as [H1 | H2];
        [apply MAltL | apply MAltR]; auto.
    + constructor.
  - intros Hm. remember EmptyString as s eqn:E.
    induction Hm as [| allowed c Hc | r1 r2 s1 s2 H1 IH1 H2 IH2
                     | r1 r2 s H1 IH1 | r1 r2 s H2 IH2 | r1
                     | r1 s1 s2 H1 IH1 H2 IH2]; cbn; try reflexivity.
    + discriminate.
    + apply append_empty_inv in E as (-> & ->).
      rewrite IH1, IH2; reflexivity.
    + rewrite IH1; [reflexivity | exact E].
    + rewrite IH2; [apply orb_true_r | exact E].
Qed.

Lemma derivative_sound (c : ascii) (r : Regex) :
  forall s, Matches (derivative c r) s -> Matches r (String c s).
Proof.
  induction r as [| | allowed | r1 IH1 r2 IH2 | r1 IH1 r2 IH2 | r1 IH1];
    cbn; intros s Hm.
  - inversion Hm.
  - inversion Hm.
  - destruct (allowed c) eqn:Hc; inversion Hm; subst.
    apply MClass. exact Hc.
  - assert (Hseq : forall t, Matches (Seq (derivative c r1) r2) t ->
                             Matches (Seq r1 r2) (String c t)).
    { intros t Ht. inversion Ht as [| | ? ? s1 s2 Ha Hb | | | |]; subst.
      apply (MSeq r1 r2 (String c s1) s2); auto. }
    destruct (nullable r1) eqn:Hn; [| apply Hseq; exact Hm].
    inversion Hm as [| | | ? ? ? Ha | ? ? ? Hb | |]; subst.
    + apply Hseq; exact Ha.
    + apply (MSeq r1 r2 EmptyString (String c s)); [| auto].
      apply nullable_Matches. exact Hn.
  - inversion Hm as [| | | ? ? ? Ha | ? ? ? Hb | |]; subst;
      [apply MAltL | apply MAltR]; auto.
  - inversion Hm as [| | ? ? s1 s2 Ha Hb | | | |]; subst.
    apply (MStarApp r1 (String c s1) s2); auto.
Qed.

Lemma derivative_complete (c : ascii) (r : Regex) (t : string) :
  Matches r t -> forall s, t = String c s -> Matches (derivative c r) s.
Proof.
  intros Hm.
  induction Hm as [| allowed x Hx | r1 r2 s1 s2 H1 IH1 H2 IH2
                   | r1 r2 s0 H1 IH1 | r1 r2 s0 H2 IH2 | r1
                   | r1 s1 s2 H1 IH1 H2 IH2]; intros s E; cbn.
  - discriminate.
  - injection E as -> <-. rewrite Hx. constructor.
  - destruct s1 as [| y s1'].
    + cbn in E. apply nullable_Matches in H1. rewrite H1.
      apply MAltR. apply IH2. exact E.
    + cbn in E. injection E as -> <-.
      assert (Hseq : Matches (Seq (derivative c r1) r2) (s1' ++ s2))
        by (apply MSeq; [apply IH1; reflexivity | exact H2]).
      destruct (nullable r1); [apply MAltL |]; exact Hseq.
  - apply MAltL. apply IH1. exact E.
  - apply MAltR. apply IH2. exact E.
  - discriminate.
  - destruct s1 as [| y s1'].
    + cbn in E. apply (IH2 s E).
    + cbn in E. injection E as -> <-.
      apply MSeq; [apply IH1; reflexivity | exact H2].
Qed.

(** The matcher decides the language of the expression. *)
Lemma test_Matches (s : string) :
  forall r, test r s = true <-> Matches r s.
Proof.
  induction s as [| c s IH]; intros r; cbn.
  - apply nullable_Matches.
  - rewrite IH. split.
    + apply derivative_sound.
    + intros Hm. apply (derivative_complete c r _ Hm). reflexivity.
Qed.

Lemma Star_Class (allowed : ascii -> bool) (s : string) :
  Matches (Star (Class allowed)) s <-> allChars allowed s = true.
Proof.
  split.
  - intros Hm. remember (Star (Class allowed)) as r eqn:E.
    induction Hm as [| | | | | r1 | r1 s1 s2 H1 _ H2 IH2];
      try discriminate; [reflexivity |].
    injection E as ->.
    inversion H1 as [| ? c Hc | | | | |]; subst. cbn.
    rewrite Hc. apply IH2. reflexivity.
  - induction s as [| c s IH]; cbn; intros Ha; [constructor |].
    apply andb_true_iff in Ha as (Hc & Hs).
    apply (MStarApp (Class allowed) (String c EmptyString) s);
      [apply MClass; exact Hc | apply IH; exact Hs].
Qed.

Lemma Plus_Class (allowed : ascii -> bool) (s : string) :
  Matches (Plus (Class allowed)) s <-> isRun allowed s.
Proof.
  unfold Plus, isRun. split.
  - intros Hm. inversion Hm as [| | ? ? s1 s2 H1 H2 | | | |]; subst.
    inversion H1 as [| ? c Hc | | | | |]; subst. cbn.
    apply Star_Class in H2. rewrite Hc, H2. split; [discriminate | reflexivity].
  - intros (Hne & Ha). destruct s as [| c s]; [contradiction |].
    cbn in Ha. apply andb_true_iff in Ha as (Hc & Hs).
    apply (MSeq (Class allowed) (Star (Class allowed))
                (String c EmptyString) s);
      [apply MClass; exact Hc | apply Star_Class; exact Hs].
Qed.

Lemma Class_inv (allowed : ascii -> bool) (s : string) :
  Matches (Class allowed) s ->
  exists c, s = String c EmptyString /\ allowed c = true.
Proof. intros Hm. inversion Hm; subst. eauto. Qed.

Lemma TwoToFour_Class (allowed : ascii -> bool) (s : string) :
  Matches (TwoToFour (Class allowed)) s
  <-> (2 <= String.length s <= 4)%nat /\ allChars allowed s = true.
Proof.
  unfold TwoToFour. split.
  - intros Hm.
    inversion Hm as [| | ? ? s1 t1 H1 Hm1 | | | |]; subst.
    inversion Hm1 as [| | ? ? s2 t2 H2 Hm2 | | | |]; subst.
    apply Class_inv in H1 as (a & -> & Ha).
    apply Class_inv in H2 as (b & -> & Hb).
    cbn. rewrite Ha, Hb. cbn.
    inversion Hm2 as [| | | ? ? ? He | ? ? ? Hm3 | |]; subst.
    + inversion He; subst. cbn. split; [lia | reflexivity].
    + inversion Hm3 as [| | ? ? s3 t3 H3 Hm4 | | | |]; subst.
      apply Class_inv in H3 as (c & -> & Hc).
      cbn. rewrite Hc. cbn.
      inversion Hm4 as [| | | ? ? ? He | ? ? ? H4 | |]; subst.
      * inversion He; subst. cbn. split; [lia | reflexivity].
      * apply Class_inv in H4 as (d & -> & Hd).
        cbn. rewrite Hd. split; [lia | reflexivity].
  - intros (Hlen & Hall).
    destruct s as [| a [| b s]]; cbn in Hlen; try lia.
    cbn in Hall.
    apply andb_true_iff in Hall as (Ha & Hall).
    apply andb_true_iff in Hall as (Hb & Hall).
    apply (MSeq _ _ (String a EmptyString) (String b s));
      [apply MClass; exact Ha |].
    apply (MSeq _ _ (String b EmptyString) s); [apply MClass; exact Hb |].
    destruct s as [| c s]; [apply MAltL; constructor |].
    cbn in Hall. apply andb_true_iff in Hall as (Hc & Hall).
    apply MAltR.
    apply (MSeq _ _ (String c EmptyString) s); [apply MClass; exact Hc |].
    destruct s as [| d s]; [apply MAltL; constructor |].
    cbn in Hall. apply andb_true_iff in Hall as (Hd & Hall).
    apply MAltR.
    destruct s as [| e s]; [apply MClass; exact Hd | cbn in Hlen; lia].
Qed.

Lemma dotted_labels (s : string) :
  Matches (Plus (Seq (Plus (Class isLabelChar)) (Class (isChar ".")))) s
  <-> exists labels,
        labels <> [] /\ Forall (isRun isLabelChar) labels
        /\ s = dotted labels.
Proof.
  set (label := Seq (Plus (Class isLabelChar)) (Class (isChar "."))).
  assert (Hlabel : forall t, Matches label t
                             <-> exists l, isRun isLabelChar l
                                           /\ t = l ++ ".").
  { intros t. split.
    - intros Hm. inversion Hm as [| | ? ? s1 s2 H1 H2 | | | |]; subst.
      apply Plus_Class in H1. apply Class_inv in H2 as (c & -> & Hc).
      apply Ascii.eqb_eq in Hc as ->. eauto.
    - intros (l & Hl & ->). apply MSeq; [apply Plus_Class; exact Hl |].
      apply MClass. reflexivity. }
  assert (Hstar : forall t, Matches (Star label) t
                            <-> exists labels,
                                  Forall (isRun isLabelChar) labels
                                  /\ t = dotted labels).
  { intros t. split.
    - intros Hm. remember (Star label) as r eqn:E.
      induction Hm as [| | | | | r1 | r1 s1 s2 H1 _ H2 IH2];
        try discriminate.
      + exists []. split; [constructor | reflexivity].
      + injection E as ->. apply Hlabel in H1 as (l & Hl & ->).
        destruct (IH2 eq_refl) as (labels & Hall & ->).
        exists (l :: labels). split; [constructor; assumption |].
        cbn [dotted]. rewrite append_assoc. reflexivity.
    - intros (labels & Hall & ->).
      induction Hall as [| l labels Hl Hall IH]; [constructor |].
      cbn [dotted]. rewrite <- append_assoc.
      apply MStarApp; [apply Hlabel; eauto | exact IH]. }
  unfold Plus. fold label. split.
  - intros Hm. inversion Hm as [| | ? ? s1 s2 H1 H2 | | | |]; subst.
    apply Hlabel in H1 as (l & Hl & ->).
    apply Hstar in H2 as (labels & Hall & ->).
    exists (l :: labels). split; [discriminate |].
    split; [constructor; assumption |].
    cbn [dotted]. rewrite append_assoc. reflexivity.
  - intros (labels & Hne & Hall & ->).
    destruct labels as [| l labels]; [contradiction |].
    inversion Hall as [| ? ? Hl Hrest]; subst.
    cbn [dotted]. rewrite <- append_assoc.
    apply MSeq; [apply Hlabel; eauto | apply Hstar; eauto].
Qed.

Lemma emailRegex_inv (email : string) :
  Matches emailRegex email ->
  exists (localPart : string) (labels : list string) (last : string),
    email = localPart ++ "@" ++ dotted labels ++ last
    /\ isRun isLocalChar localPart
    /\ labels <> [] /\ Forall (isRun isLabelChar) labels
    /\ (2 <= String.length last <= 4)%nat
    /\ allChars isLabelChar last = true.
Proof.
  unfold emailRegex. intros Hm.
  inversion Hm as [| | ? ? s1 t1 H1 Hm1 | | | |]; subst.
  inversion Hm1 as [| | ? ? s2 t2 H2 Hm2 | | | |]; subst.
  inversion Hm2 as [| | ? ? s3 s4 H3 H4 | | | |]; subst.
  apply Plus_Class in H1.
  apply Class_inv in H2 as (c & -> & Hc). apply Ascii.eqb_eq in Hc as ->.
  apply dotted_labels in H3 as (labels & Hne & Hall & ->).
  apply TwoToFour_Class in H4 as (Hlen & Hlast).
  exists s1, labels, s4.
  split; [reflexivity |]. split; [exact H1 |]. split; [exact Hne |].
  split; [exact Hall |]. split; [exact Hlen | exact Hlast].
Qed.

(** X19. [isValidEmail] accepts exactly the texts made of a non-empty
    local part of word characters, hyphens and dots, then [@], then one
    or more non-empty labels of word characters and hyphens each
    followed by a dot, then a last label of two to four such
    characters. *)
Theorem valid_email_shape :
  forall email : string,
    isValidEmail email = true
    <-> exists (localPart : string) (labels : list string) (last : string),
          email = localPart ++ "@" ++ dotted labels ++ last
          /\ isRun isLocalChar localPart
          /\ labels <> [] /\ Forall (isRun isLabelChar) labels
          /\ (2 <= String.length last <= 4)%nat
          /\ allChars isLabelChar last = true.
Proof.
  intros email. unfold isValidEmail. rewrite test_Matches. split.
  - apply emailRegex_inv.
  - intros (localPart & labels & last & -> & Hlocal & Hne & Hall & Hlen
            & Hlast).
    unfold emailRegex.
    apply MSeq; [apply Plus_Class; exact Hlocal |].
    apply (MSeq _ _ "@" _); [apply MClass; reflexivity |].
    apply MSeq; [apply dotted_labels; eauto |].
    apply TwoToFour_Class. split; assumption.
Qed.

Lemma allChars_append (allowed : ascii -> bool) (a b : string) :
  allChars allowed (a ++ b) = allChars allowed a && allChars allowed b.
Proof.
  induction a as [| c a IH]; cbn; [reflexivity |].
  rewrite IH, andb_assoc. reflexivity.
Qed.

Lemma allChars_impl (f g : ascii -> bool) (s : string) :
  (forall c, f c = true -> g c = true) ->
  allChars f s = true -> allChars g s = true.
Proof.
  intros Hfg. induction s as [| c s IH]; cbn; [reflexivity |].
  intros Ha. apply andb_true_iff in Ha as (Hc & Hs).
  rewrite (Hfg c Hc), (IH Hs). reflexivity.
Qed.

Lemma allChars_excludes (f g : ascii -> bool) (s : string) :
  (forall c, f c = true -> g c = false) ->
  allChars f s = true -> hasChar g s = false.
Proof.
  intros Hfg. induction s as [| c s IH]; cbn; [reflexivity |].
  intros Ha. apply andb_true_iff in Ha as (Hc & Hs).
  rewrite (Hfg c Hc), (IH Hs). reflexivity.
Qed.

Lemma hasChar_isChar (x : ascii) (a b : string) :
  hasChar (isChar x) (a ++ String x b) = true.
Proof.
  rewrite hasChar_append. cbn. unfold isChar at 2.
  rewrite Ascii.eqb_refl. apply orb_true_r.
Qed.

(** A text splits in one way only at a character that the text after it
    does not contain, *)
Lemma split_at_last (x : ascii) (l : string) :
  forall a r b,
    hasChar (isChar x) r = false -> hasChar (isChar x) b = false ->
    l ++ String x r = a ++ String x b -> l = a /\ r = b.
Proof.
  induction l as [| c l IH]; intros a r b Hr Hb E.
  - destruct a as [| d a]; cbn in E.
    + injection E as ->. split; reflexivity.
    + injection E as _ ->. rewrite hasChar_isChar in Hr. discriminate.
  - destruct a as [| d a]; cbn in E.
    + injection E as _ <-. rewrite hasChar_isChar in Hb. discriminate.
    + injection E as -> E. destruct (IH a r b Hr Hb E) as (-> & ->).
      split; reflexivity.
Qed.

(** and in one way only at a character that occurs once. *)
Lemma split_at_only (x : ascii) (l : string) :
  forall a r b,
    hasChar (isChar x) l = false -> hasChar (isChar x) r = false ->
    l ++ String x r = a ++ String x b -> l = a /\ r = b.
Proof.
  induction l as [| c l IH]; intros a r b Hl Hr E.
  - destruct a as [| d a]; cbn in E.
    + injection E as ->. split; reflexivity.
    + injection E as _ ->. rewrite hasChar_isChar in Hr. discriminate.
  - cbn in Hl. apply orb_false_iff in Hl as (Hc & Hl).
    destruct a as [| d a]; cbn in E.
    + injection E as -> _. unfold isChar in Hc.
      rewrite Ascii.eqb_refl in Hc. discriminate.
    + injection E as -> E. destruct (IH a r b Hl Hr E) as (-> & ->).
      split; reflexivity.
Qed.

Lemma dotted_allChars (labels : list string) :
  Forall (isRun isLabelChar) labels ->
  allChars isLocalChar (dotted labels) = true.
Proof.
  induction 1 as [| l labels (_ & Hl) _ IH]; [reflexivity |].
  cbn [dotted]. rewrite !allChars_append, IH.
  rewrite (allChars_impl isLabelChar isLocalChar l); [reflexivity | | exact Hl].
  intros c Hc. unfold isLocalChar, isLabelChar in *.
  rewrite Hc. reflexivity.
Qed.

Lemma dotted_ends_with_dot (labels : list string) :
  labels <> [] -> exists d, dotted labels = d ++ ".".
Proof.
  induction labels as [| l labels IH]; [contradiction |]. intros _.
  destruct labels as [| l' labels].
  - exists l. cbn. reflexivity.
  - destruct IH as (d & Hd); [discriminate |].
    exists (l ++ "." ++ d). cbn [dotted] in *. rewrite Hd.
    rewrite !append_assoc. reflexivity.
Qed.

Lemma isLocalChar_not_at (c : ascii) :
  isLocalChar c = true -> isChar "@" c = false.
Proof.
  destruct c as [[] [] [] [] [] [] [] []]; vm_compute;
    intros H; first [reflexivity | discriminate H].
Qed.

Lemma isLabelChar_not_dot (c : ascii) :
  isLabelChar c = true -> isChar "." c = false.
Proof.
  destruct c as [[] [] [] [] [] [] [] []]; vm_compute;
    intros H; first [reflexivity | discriminate H].
Qed.

(** X20. What an accepted address always looks like.  It consists of
    word characters, hyphens, dots and [@] only; it contains [@] exactly
    once, after a non-empty local part; and the text after its last dot
    has two to four characters.  So an address with a space or a plus
    sign, with two [@], or with a top-level name of five characters or
    more is rejected. *)
Theorem accepted_email_properties :
  forall email : string,
    isValidEmail email = true ->
    allChars (fun c => isLocalChar c || isChar "@" c) email = true
    /\ (exists localPart domain : string,
           email = localPart ++ "@" ++ domain
           /\ localPart <> EmptyString
           /\ forall a b : string,
               email = a ++ "@" ++ b -> a = localPart /\ b = domain)
    /\ (forall before last : string,
           email = before ++ "." ++ last ->
           hasChar (isChar ".") last = false ->
           (2 <= String.length last <= 4)%nat).
Proof.
  intros email Hok.
  apply test_Matches, emailRegex_inv in Hok
    as (localPart & labels & last & -> & (Hne & Hlocal) & Hlabels & Hall
        & Hlen & Hlast).
  assert (Hdom : allChars isLocalChar (dotted labels ++ last) = true).
  { rewrite allChars_append, (dotted_allChars labels Hall).
    apply (allChars_impl isLabelChar); [| exact Hlast].
    intros c Hc. unfold isLocalChar, isLabelChar in *.
    rewrite Hc. reflexivity. }
  split; [| split].
  - assert (Hweak : forall t, allChars isLocalChar t = true ->
                      allChars (fun c => isLocalChar c || isChar "@" c) t
                      = true).
    { intros t. apply allChars_impl. intros c Hc. rewrite Hc. reflexivity. }
    rewrite allChars_append. apply andb_true_iff. split.
    + apply Hweak. exact Hlocal.
    + change ("@" ++ dotted labels ++ last)
        with (String "@" (dotted labels ++ last)).
      cbn [allChars]. apply andb_true_iff. split; [reflexivity |].
      apply Hweak. exact Hdom.
  - exists localPart, (dotted labels ++ last).
    split; [reflexivity |]. split; [exact Hne |].
    intros a b E. cbn in E.
    destruct (split_at_only "@" localPart a (dotted labels ++ last) b)
      as (-> & ->); [| | exact E | split; reflexivity].
    + apply (allChars_excludes isLocalChar); [| exact Hlocal].
      apply isLocalChar_not_at.
    + apply (allChars_excludes isLocalChar); [| exact Hdom].
      apply isLocalChar_not_at.
  - intros before t E Ht.
    destruct (dotted_ends_with_dot labels Hlabels) as (d & Hd).
    rewrite Hd in E.
    assert (E' : (localPart ++ "@" ++ d) ++ String "." last
                 = before ++ String "." t).
    { change (before ++ String "." t) with (before ++ "." ++ t).
      rewrite <- E, !append_assoc. reflexivity. }
    destruct (split_at_last "." (localPart ++ "@" ++ d) before last t)
      as (_ & <-); [| exact Ht | exact E' | exact Hlen].
    apply (allChars_excludes isLabelChar); [| exact Hlast].
    apply isLabelChar_not_dot.
Qed.

Lemma accepted_email_properties_witness :
  isValidEmail "field.team@agro-smart.example.org" = true
  /\ (2 <= String.length "org" <= 4)%nat.
Proof.
  split; [reflexivity |].
  destruct (accepted_email_properties "field.team@agro-smart.example.org"
                                      eq_refl)
    as (_ & _ & Hlast).
  apply (Hlast "field.team@agro-smart.example" "org");
    reflexivity.
Defined.

End EmailFacts.

(* ================================================================== *)
(** * Reports: the generated datasets, their cards and their totals *)
(* ================================================================== *)

Section ReportCardFacts.

Import Reports ReportCards.

Lemma generateFrom_length (random : nat -> Q) (isoDay : Z -> string)
      (now : Z) (i : nat) :
  forall k, length (generateFrom random isoDay now i k) = S i.
Proof.
  induction i as [| i IH]; intros k; cbn; [reflexivity |].
  f_equal. apply IH.
Qed.

(** The loop entered with [i] dates its rows [i], [i - 1], ..., 0 days
    before [now]. *)
Lemma generateFrom_dates (random : nat -> Q) (isoDay : Z -> string)
      (now : Z) (i : nat) :
  forall k,
    map date (generateFrom random isoDay now i k)
    = map (fun j => isoDay (now - Z.of_nat j * 24 * 60 * 60 * 1000)%Z)
          (rev (seq 0 (S i))).
Proof.
  induction i as [| i IH]; intros k; [reflexivity |].
  rewrite (seq_S (S i) 0), rev_app_distr.
  cbn [generateFrom map rev app Nat.add]. f_equal. apply IH.
Qed.

Lemma scaled_draw (r scale offset : Q) :
  (0 <= r)%Q -> (r < 1)%Q -> (0 <= scale)%Q ->
  between offset (offset + scale) (Fin r * num scale + num offset)%js.
Proof.
  intros H0 H1 Hs. unfold mul, add, num, between.
  rewrite !Qred_correct. split; nra.
Qed.

Lemma floored_draw (r : Q) (n : Z) :
  (0 <= r)%Q -> (r < 1)%Q -> (0 < n)%Z ->
  (0 <= Qfloor (r * inject_Z n) <= n - 1)%Z.
Proof.
  intros H0 H1 Hn.
  assert (Hq : (0 < inject_Z n)%Q)
    by (change 0%Q with (inject_Z 0); rewrite <- Zlt_Qlt; exact Hn).
  split.
  - change 0%Z with (Qfloor 0). apply Qfloor_resp_le. nra.
  - assert (Hlt : (inject_Z (Qfloor (r * inject_Z n)) < inject_Z n)%Q).
    { apply Qle_lt_trans with (r * inject_Z n)%Q; [apply Qfloor_le | nra]. }
    rewrite <- Zlt_Qlt in Hlt. lia.
Qed.

Lemma generatedRecord_bounds (random : nat -> Q) (isoDay : Z -> string)
      (now : Z) (i k : nat) :
  unitStream random -> generatedBounds (generatedRecord random isoDay now i k).
Proof.
  intros Hunit. unfold generatedBounds, generatedRecord.
  cbn [totalWaterUsed irrigationTime pumpCycles avgSoilMoisture alerts
       efficiency].
  assert (H0 : forall j, (0 <= random j)%Q) by (intros j; apply Hunit).
  assert (H1 : forall j, (random j < 1)%Q) by (intros j; apply Hunit).
  split; [apply (scaled_draw _ 50 20); [apply H0 | apply H1 | lra] |].
  split; [apply (scaled_draw _ 120 30); [apply H0 | apply H1 | lra] |].
  split; [pose proof (floored_draw (random (k + 2)%nat) 8 (H0 _) (H1 _));
          change (inject_Z 8) with 8%Q in *; lia |].
  split; [apply (scaled_draw _ 30 50); [apply H0 | apply H1 | lra] |].
  split; [pose proof (floored_draw (random (k + 4)%nat) 3 (H0 _) (H1 _));
          change (inject_Z 3) with 3%Q in *; lia |].
  apply (scaled_draw _ 20 75); [apply H0 | apply H1 | lra].
Qed.

Lemma generateFrom_bounds (random : nat -> Q) (isoDay : Z -> string)
      (now : Z) (i : nat) :
  unitStream random ->
  forall k, Forall generatedBounds (generateFrom random isoDay now i k).
Proof.
  intros Hunit. induction i as [| i IH]; intros k; cbn [generateFrom];
    constructor; try apply generatedRecord_bounds; try exact Hunit.
  - constructor.
  - apply IH.
Qed.

Lemma everySeventh_Forall {A} (P : A -> Prop) (l : list A) :
  Forall P l -> forall index, Forall P (everySeventh index l).
Proof.
  induction 1 as [| x l Hx _ IH]; intros index; cbn [everySeventh];
    [constructor |].
  destruct (index mod 7 =? 0)%nat; [constructor; [exact Hx |] |]; apply IH.
Qed.

(** X21. [generateReportData(days)] returns [days + 1] rows, one per
    day, oldest first and ending with today's.  When the random draws
    are in [[0, 1)], every row has its water use in [[20, 70]], its
    runtime in [[30, 150]], between 2 and 9 pump cycles, its soil
    moisture in [[50, 80]], at most 2 alerts and its efficiency in
    [[75, 95]]. *)
Theorem generated_rows_are_dated_and_bounded :
  forall (random : nat -> Q) (isoDay : Z -> string) (now : Z) (days : nat),
    length (generateReportData random isoDay now days) = S days
    /\ map date (generateReportData random isoDay now days)
       = map (fun j => isoDay (now - Z.of_nat j * 24 * 60 * 60 * 1000)%Z)
             (rev (seq 0 (S days)))
    /\ (unitStream random ->
        Forall generatedBounds (generateReportData random isoDay now days)).
Proof.
  intros random isoDay now days. unfold generateReportData.
  split; [apply generateFrom_length |].
  split; [apply generateFrom_dates |].
  intros Hunit. apply generateFrom_bounds. exact Hunit.
Qed.

Lemma generated_rows_are_dated_and_bounded_witness :
  Forall generatedBounds
         (generateReportData (fun _ => 1 # 2) (fun _ => "2025-06-01") 0 3).
Proof.
  destruct (generated_rows_are_dated_and_bounded
              (fun _ => 1 # 2) (fun _ => "2025-06-01") 0%Z 3)
    as (_ & _ & H).
  apply H. intros k. split; [discriminate | reflexivity].
Defined.

(** X22. The daily dataset has eight rows, for the seven days before
    today and today.  The weekly dataset has five rows, for the days 30,
    23, 16, 9 and 2 days before today: it never holds today's row. *)
Theorem daily_and_weekly_rows :
  forall (random : nat -> Q) (isoDay : Z -> string) (now : Z),
    let day := fun j => isoDay (now - Z.of_nat j * 24 * 60 * 60 * 1000)%Z in
    map date (dailyReports random isoDay now)
    = map day [7; 6; 5; 4; 3; 2; 1; 0]%nat
    /\ map date (weeklyReports random isoDay now)
       = map day [30; 23; 16; 9; 2]%nat.
Proof.
  intros random isoDay now day. split; reflexivity.
Qed.

Lemma bounds_badges (report : ReportData) :
  generatedBounds report ->
  efficiencyBadge report <> "destructive"
  /\ showsTrendingUp report = false
  /\ showsTrendingDown report = true.
Proof.
  intros (_ & Htime & _ & _ & _ & Heff).
  unfold efficiencyBadge, showsTrendingUp, showsTrendingDown.
  destruct (irrigationTime report) as [| | t]; try contradiction.
  destruct (efficiency report) as [| | e]; try contradiction.
  cbn in Htime, Heff. unfold lt, num.
  split; [| split].
  - destruct (Qlt_bool (Qred 85) e); [discriminate |].
    destruct (Qlt_bool (Qred 70) e) eqn:E; [discriminate |].
    apply Qlt_bool_false in E. rewrite Qred_correct in E. lra.
  - apply Qlt_bool_false. rewrite Qred_correct. lra.
  - apply Qlt_bool_true. rewrite Qred_correct. lra.
Qed.

(** X23. On the generated datasets some of the report cards' cases
    never occur.  With random draws in [[0, 1)], no row of either
    dataset gets the [destructive] efficiency badge, and every weekly
    row shows the downward trend icon and never the upward one, since
    a generated runtime stays below 300. *)
Theorem generated_rows_never_reach_some_badges :
  forall (random1 random2 : nat -> Q) (isoDay : Z -> string) (now : Z),
    unitStream random1 -> unitStream random2 ->
    Forall (fun report => efficiencyBadge report <> "destructive")
           (dailyReports random1 isoDay now)
    /\ Forall (fun report =>
                 efficiencyBadge report <> "destructive"
                 /\ showsTrendingUp report = false
                 /\ showsTrendingDown report = true)
              (weeklyReports random2 isoDay now).
Proof.
  intros random1 random2 isoDay now H1 H2. split.
  - eapply Forall_impl;
      [apply (generateFrom_bounds random1 isoDay now 7 H1 0) |].
    intros report Hb. apply (bounds_badges report Hb).
  - apply everySeventh_Forall.
    eapply Forall_impl;
      [apply (generateFrom_bounds random2 isoDay now 30 H2 0) |].
    intros report Hb. apply (bounds_badges report Hb).
Qed.

Lemma generated_rows_never_reach_some_badges_witness :
  Forall (fun report => efficiencyBadge report <> "destructive")
         (dailyReports (fun _ => 0%Q) (fun _ => "2025-06-01") 0).
Proof.
  destruct (generated_rows_never_reach_some_badges
              (fun _ => 0%Q) (fun _ => 9 # 10) (fun _ => "2025-06-01") 0%Z)
    as (H & _).
  - intros k. split; [discriminate | reflexivity].
  - intros k. split; [discriminate | reflexivity].
  - exact H.
Defined.

Lemma sumOf_bounds (f : ReportData -> Number) (lo hi : Q)
      (data : list ReportData) :
  Forall (fun report => between lo hi (f report)) data ->
  forall acc n,
    between (inject_Z n * lo) (inject_Z n * hi) (Fin acc) ->
    between (inject_Z (n + Z.of_nat (length data)) * lo)
            (inject_Z (n + Z.of_nat (length data)) * hi)
            (fold_left (fun sum item => (sum + f item)%js) data (Fin acc)).
Proof.
  induction 1 as [| report data Hr _ IH]; intros acc n Hacc.
  - cbn [fold_left length Z.of_nat]. rewrite Z.add_0_r. exact Hacc.
  - cbn [fold_left length]. destruct (f report) as [| | x]; try contradiction.
    cbn [add]. unfold num.
    replace (n + Z.of_nat (S (length data)))%Z
      with ((n + 1) + Z.of_nat (length data))%Z by lia.
    apply IH. cbn in Hr, Hacc |- *.
    rewrite Qred_correct, inject_Z_plus. change (inject_Z 1) with 1%Q.
    split; nra.
Qed.

Lemma countOf_bounds (f : ReportData -> Z) (lo hi : Z)
      (data : list ReportData) :
  Forall (fun report => (lo <= f report <= hi)%Z) data ->
  forall acc n,
    (n * lo <= acc <= n * hi)%Z ->
    ((n + Z.of_nat (length data)) * lo
     <= fold_left (fun sum item => (sum + f item)%Z) data acc
     <= (n + Z.of_nat (length data)) * hi)%Z.
Proof.
  induction 1 as [| report data Hr _ IH]; intros acc n Hacc.
  - cbn [fold_left length Z.of_nat]. rewrite Z.add_0_r. exact Hacc.
  - cbn [fold_left length].
    replace (n + Z.of_nat (S (length data)))%Z
      with ((n + 1) + Z.of_nat (length data))%Z by lia.
    apply IH. nia.
Qed.

(** X24. The totals of a non-empty dataset of [n] rows within the
    generator's bounds: the water total lies in [[20 n, 70 n]], the
    runtime total in [[30 n, 150 n]], the pump cycles between [2 n] and
    [9 n], the alerts between 0 and [2 n], and the average efficiency in
    [[75, 95]].  The average is a number only because the dataset is
    not empty. *)
Theorem totals_of_generated_rows :
  forall v : View,
    getCurrentData v <> [] ->
    Forall generatedBounds (getCurrentData v) ->
    let n := Z.of_nat (length (getCurrentData v)) in
    let stats := getTotalStats v in
    between (inject_Z n * 20) (inject_Z n * 70) (totalWater stats)
    /\ between (inject_Z n * 30) (inject_Z n * 150) (totalTime stats)
    /\ (n * 2 <= totalCycles stats <= n * 9)%Z
    /\ (0 <= totalAlerts stats <= n * 2)%Z
    /\ between 75 95 (avgEfficiency stats).
Proof.
  intros v Hne Hall n stats. subst stats. unfold getTotalStats.
  cbn [totalWater totalTime totalCycles totalAlerts avgEfficiency].
  set (data := getCurrentData v) in *.
  assert (Hn : (0 < n)%Z).
  { subst n. destruct data; [contradiction | cbn; lia]. }
  assert (Hsum : forall f lo hi,
             Forall (fun report => between lo hi (f report)) data ->
             between (inject_Z n * lo) (inject_Z n * hi) (sumOf f data)).
  { intros f lo hi Hf. unfold sumOf, num.
    pose proof (sumOf_bounds f lo hi data Hf (Qred 0) 0) as H.
    cbn [Z.add] in H. apply H. unfold between.
    change (Qred 0) with 0%Q. change (inject_Z 0) with 0%Q. lra. }
  assert (Hcount : forall f lo hi,
             Forall (fun report => (lo <= f report <= hi)%Z) data ->
             (n * lo <= countOf f data <= n * hi)%Z).
  { intros f lo hi Hf. unfold countOf.
    pose proof (countOf_bounds f lo hi data Hf 0%Z 0%Z) as H.
    cbn [Z.add] in H. apply H. lia. }
  split; [apply Hsum; eapply Forall_impl; [exact Hall |];
          intros r Hr; apply Hr |].
  split; [apply Hsum; eapply Forall_impl; [exact Hall |];
          intros r Hr; apply Hr |].
  split; [apply Hcount; eapply Forall_impl; [exact Hall |];
          intros r Hr; apply Hr |].
  split.
  { pose proof (Hcount alerts 0%Z 2%Z) as H. rewrite Z.mul_0_r in H.
    apply H. eapply Forall_impl; [exact Hall |]. intros r Hr. apply Hr. }
  pose proof (Hsum efficiency 75%Q 95%Q) as H.
  assert (He : between (inject_Z n * 75) (inject_Z n * 95)
                       (sumOf efficiency data)).
  { apply H. eapply Forall_impl; [exact Hall |]. intros r Hr. apply Hr. }
  destruct (sumOf efficiency data) as [| | total]; try contradiction.
  unfold ofZ, div. fold n. cbn in He.
  assert (Hq : (0 < inject_Z n)%Q)
    by (change 0%Q with (inject_Z 0); rewrite <- Zlt_Qlt; exact Hn).
  destruct (Qzero_bool (inject_Z n)) eqn:Ez.
  { unfold Qzero_bool in Ez. apply Qeq_bool_eq in Ez. lra. }
  unfold num, between. rewrite Qred_correct.
  split.
  - apply Qle_shift_div_l; [exact Hq | lra].
  - apply Qle_shift_div_r; [exact Hq | lra].
Qed.

Lemma totals_of_generated_rows_witness :
  between 75 95
    (avgEfficiency
       (getTotalStats
          (mkView "daily"
                  (ReportCards.dailyReports (fun _ => 1 # 2)
                                            (fun _ => "2025-06-01") 0)
                  []))).
Proof.
  set (v := mkView "daily"
                   (ReportCards.dailyReports (fun _ => 1 # 2)
                                             (fun _ => "2025-06-01") 0)
                   []).
  assert (Hne : getCurrentData v <> []) by discriminate.
  assert (Hall : Forall generatedBounds (getCurrentData v)).
  { apply (generateFrom_bounds (fun _ => 1 # 2)). intros k.
    split; [discriminate | reflexivity]. }
  destruct (totals_of_generated_rows v Hne Hall) as (_ & _ & _ & _ & H).
  exact H.
Defined.

End ReportCardFacts.
